(** * The upload ledger, split planner and upload controller of
      [bilibili_uploader.py], embedded as state-passing functions.

    The program drives three external tools (rclone, ffmpeg/ffprobe and the
    biliup command line).  Their answers are not computed by the program, so
    they are oracles here: every oracle reads the list of events that have
    happened so far, which lets the same call answer differently at different
    moments (a publish that fails twice and then succeeds, a file that exists
    only once it has been cut).  Each method of the source is a function in a
    small state-and-exception monad over the world the program owns: the two
    in-memory logs, the two ledger files, the batch counters, the mount flag
    and the event trace. *)

From Stdlib Require Import ZArith List String Ascii Bool Lia Floats.
From Stdlib Require Import DecimalString.
From Stdlib Require Import Permutation Sorted.
Import ListNotations.

Open Scope string_scope.
Open Scope list_scope.
Open Scope Z_scope.

(** ** Python values the program computes with *)

Module Py.

(** [not s] for an [Optional[str]]: [None] and the empty string are falsy. *)
Definition truthy (s : option string) : bool :=
  match s with
  | Some EmptyString => false
  | Some _ => true
  | None => false
  end.

(** [x or default] on an optional list. *)
Definition or_list {A : Type} (x : option (list A)) : list A :=
  match x with
  | Some l => l
  | None => []
  end.

(** [str(n)] for a non-negative integer. *)
Definition str_nat (n : nat) : string :=
  NilEmpty.string_of_uint (Nat.to_uint n).

(** A Python float is a binary64 value.  [float_of_Z] is the correctly
    rounded conversion of an [int]; it overflows to an infinity where Python
    raises [OverflowError], which callers test with [is_finite]. *)
Definition float_of_Z (z : Z) : float :=
  SF2Prim (SpecFloat.binary_normalize 53 1024 z 0 false).

(** [n / 2**k] on integers (true division, correctly rounded). *)
Definition int_div_pow2 (n : Z) (k : Z) : float :=
  SF2Prim (SpecFloat.binary_normalize 53 1024 n (- k) false).

Definition is_finite (f : float) : bool :=
  match Prim2SF f with
  | SpecFloat.S754_zero _ | SpecFloat.S754_finite _ _ _ => true
  | _ => false
  end.

Definition is_zero (f : float) : bool := PrimFloat.eqb f 0%float.

(** [not f] for a float: only the two zeros are falsy (a NaN is truthy). *)
Definition float_truthy (f : float) : bool := negb (is_zero f).

(** [a / b] on floats: [ZeroDivisionError] when [b] is a zero. *)
Definition float_div (a b : float) : option float :=
  if is_zero b then None else Some (PrimFloat.div a b).

(** [math.ceil(f)]: [ValueError] on a NaN, [OverflowError] on an infinity,
    the exact integer otherwise. *)
Definition ceil (f : float) : option Z :=
  match Prim2SF f with
  | SpecFloat.S754_zero _ => Some 0
  | SpecFloat.S754_finite s m e =>
      let v := if s then Z.neg m else Z.pos m in
      if 0 <=? e then Some (v * 2 ^ e)
      else Some (- ((- v) / 2 ^ (- e)))
  | _ => None
  end.

(** [z < f] for an [int] and a float, which Python compares exactly. *)
Definition int_lt_float (z : Z) (f : float) : bool :=
  match Prim2SF f with
  | SpecFloat.S754_zero _ => z <? 0
  | SpecFloat.S754_finite s m e =>
      let v := if s then Z.neg m else Z.pos m in
      if 0 <=? e then z <? v * 2 ^ e
      else z * 2 ^ (- e) <? v
  | SpecFloat.S754_infinity s => negb s
  | SpecFloat.S754_nan => false
  end.

(** [c in s] for a character [c] *)
Fixpoint has_char (c : ascii) (s : string) : bool :=
  match s with
  | EmptyString => false
  | String a rest => Ascii.eqb a c || has_char c rest
  end.

(** [s.split(sep)] for a one-character separator: the pieces between the
    separators, of which there is always at least one. *)
Fixpoint split_on (sep : ascii) (s : string) : list string :=
  match s with
  | EmptyString => [EmptyString]
  | String c rest =>
      if Ascii.eqb c sep then EmptyString :: split_on sep rest
      else
        match split_on sep rest with
        | piece :: pieces => String c piece :: pieces
        | [] => [String c EmptyString]
        end
  end.

(** [sep.join(pieces)] *)
Fixpoint join_with (sep : string) (pieces : list string) : string :=
  match pieces with
  | [] => EmptyString
  | [piece] => piece
  | piece :: rest => (piece ++ sep ++ join_with sep rest)%string
  end.

End Py.

(** ** Records of the two logs *)

(** A success record is a JSON object; the three keys the program reads back
    with [record.get] may be absent in a file written by hand, hence the
    options.  [add_success] always writes all six keys. *)
Record HistoryRecord := {
  file_path : option string;
  file_size : option Z;
  bvid : option string;
  upload_time : string;
  is_split : bool;
  parts : list string
}.

Record FailedRecord := {
  failed_file_path : string;
  error_msg : string;
  failed_time : string
}.

(** What a reader of a ledger file finds. *)
Inductive FileContent (A : Type) :=
| Absent
| Document (records : list A)
| Garbled.
Arguments Absent {A}.
Arguments Document {A} records.
Arguments Garbled {A}.

(** How [open(file, 'w')] followed by [json.dump] can end: the dump
    completes; the file cannot be opened (nothing is touched); the file is
    opened, hence truncated, and the dump stops before the end. *)
Inductive WriteOutcome := WriteDone | OpenRefused | DumpInterrupted.

Definition apply_write {A : Type} (old : FileContent A) (new : list A)
  (o : WriteOutcome) : FileContent A :=
  match o with
  | WriteDone => Document new
  | OpenRefused => old
  | DumpInterrupted => Garbled
  end.

(** ** Events and oracles *)

Inductive Event :=
| EvWriteHistory (content : list HistoryRecord) (o : WriteOutcome)
| EvWriteFailed (content : list FailedRecord) (o : WriteOutcome)
| EvMount (populated : bool)
| EvDiskUsage (free : Z)
| EvDownload (remote local : string) (ok : bool)
| EvProbe (video : string) (duration : option float)
| EvCut (video : string) (start length : float) (output : string)
| EvExtractCover (video cover : string)
| EvUpload (video title : string) (cover : option string)
    (copyright : string) (exit : option (Z * string))
| EvAppend (video : string) (target : string) (title : string)
    (exit : option Z)
| EvShow (target : string) (ok : bool)
| EvCleanup (video : string) (needs_split : bool)
| EvProgress (current total success failed skipped : Z)
| EvSleep (seconds : Z).

Record Env := {
  (** [datetime.now().strftime(...)] *)
  now : list Event -> string;
  (** rewriting the history file and the failed file *)
  write_history : list Event -> list HistoryRecord -> WriteOutcome;
  write_failed : list Event -> list FailedRecord -> WriteOutcome;
  (** [any(self.mount_point.iterdir())] after [rclone mount] *)
  mount_populated : list Event -> bool;
  (** [Path(p).exists()] *)
  path_exists : list Event -> string -> bool;
  (** [shutil.disk_usage('/').free] *)
  disk_free : list Event -> Z;
  (** [rclone copy] ended with exit code 0 *)
  rclone_copy : list Event -> string -> string -> bool;
  (** [ffprobe] printed a duration that [float] parses *)
  ffprobe_duration : list Event -> string -> option float;
  (** [biliup upload]: exit code and captured output, [None] when the
      process cannot be started *)
  biliup_upload :
    list Event -> string -> string -> option string -> string ->
    option (Z * string);
  (** [biliup append]: exit code *)
  biliup_append : list Event -> string -> string -> string -> option Z;
  (** [biliup show] answered with an existing video *)
  biliup_show : list Event -> string -> bool;
  (** [Path(p).stem] and the path join of [pathlib] and [os.path] *)
  path_stem : string -> string;
  path_join : string -> string -> string;
  (** the title [VideoInfo._parse_filename] reads in a file name *)
  parse_title : string -> string
}.

(** Values read from the configuration file.  A size in GB is a JSON
    number, an integer or a float; it is held here as the float of its
    value, which is what the divisions, products and comparisons of the
    program make of it.  [retry_times] goes to [range] and is an integer. *)
Record Config := {
  max_file_size_gb : float;
  split_margin_gb : float;
  retry_times : Z;
  min_free_space_gb : float;
  local_cache_path : string;
  mount_point : string
}.

(** ** The world the program owns *)

Record World := {
  history : list HistoryRecord;
  failed : list FailedRecord;
  history_file : FileContent HistoryRecord;
  failed_file : FileContent FailedRecord;
  stats_success : Z;
  stats_failed : Z;
  stats_skipped : Z;
  is_mounted : bool;
  trace : list Event
}.

Definition set_history (h : list HistoryRecord) (w : World) : World :=
  {| history := h; failed := failed w;
     history_file := history_file w; failed_file := failed_file w;
     stats_success := stats_success w; stats_failed := stats_failed w;
     stats_skipped := stats_skipped w; is_mounted := is_mounted w;
     trace := trace w |}.

Definition set_failed (f : list FailedRecord) (w : World) : World :=
  {| history := history w; failed := f;
     history_file := history_file w; failed_file := failed_file w;
     stats_success := stats_success w; stats_failed := stats_failed w;
     stats_skipped := stats_skipped w; is_mounted := is_mounted w;
     trace := trace w |}.

Definition set_history_file (c : FileContent HistoryRecord) (w : World)
  : World :=
  {| history := history w; failed := failed w;
     history_file := c; failed_file := failed_file w;
     stats_success := stats_success w; stats_failed := stats_failed w;
     stats_skipped := stats_skipped w; is_mounted := is_mounted w;
     trace := trace w |}.

Definition set_failed_file (c : FileContent FailedRecord) (w : World)
  : World :=
  {| history := history w; failed := failed w;
     history_file := history_file w; failed_file := c;
     stats_success := stats_success w; stats_failed := stats_failed w;
     stats_skipped := stats_skipped w; is_mounted := is_mounted w;
     trace := trace w |}.

Definition set_stats_success (n : Z) (w : World) : World :=
  {| history := history w; failed := failed w;
     history_file := history_file w; failed_file := failed_file w;
     stats_success := n; stats_failed := stats_failed w;
     stats_skipped := stats_skipped w; is_mounted := is_mounted w;
     trace := trace w |}.

Definition set_stats_failed (n : Z) (w : World) : World :=
  {| history := history w; failed := failed w;
     history_file := history_file w; failed_file := failed_file w;
     stats_success := stats_success w; stats_failed := n;
     stats_skipped := stats_skipped w; is_mounted := is_mounted w;
     trace := trace w |}.

Definition set_is_mounted (b : bool) (w : World) : World :=
  {| history := history w; failed := failed w;
     history_file := history_file w; failed_file := failed_file w;
     stats_success := stats_success w; stats_failed := stats_failed w;
     stats_skipped := stats_skipped w; is_mounted := b;
     trace := trace w |}.

Definition log_event (e : Event) (w : World) : World :=
  {| history := history w; failed := failed w;
     history_file := history_file w; failed_file := failed_file w;
     stats_success := stats_success w; stats_failed := stats_failed w;
     stats_skipped := stats_skipped w; is_mounted := is_mounted w;
     trace := trace w ++ [e] |}.

(** ** State and exceptions *)

Inductive Result (A : Type) :=
| Ok (a : A)
| Raise (message : string).
Arguments Ok {A} a.
Arguments Raise {A} message.

Definition M (A : Type) : Type := World -> Result A * World.

Definition ret {A : Type} (a : A) : M A := fun w => (Ok a, w).

Definition bind {A B : Type} (c : M A) (k : A -> M B) : M B :=
  fun w =>
    match c w with
    | (Ok a, w') => k a w'
    | (Raise e, w') => (Raise e, w')
    end.

Definition raise {A : Type} (e : string) : M A := fun w => (Raise e, w).

(** [try: c  except Exception as e: h(str(e))] *)
Definition try_except {A : Type} (c : M A) (h : string -> M A) : M A :=
  fun w =>
    match c w with
    | (Ok a, w') => (Ok a, w')
    | (Raise e, w') => h e w'
    end.

Definition get : M World := fun w => (Ok w, w).
Definition modify (f : World -> World) : M unit := fun w => (Ok tt, f w).
Definition emit (e : Event) : M unit := modify (log_event e).

Notation "x <- c ;; k" := (bind c (fun x => k))
  (at level 61, c at next level, right associativity).
Notation "c ;; k" := (bind c (fun _ => k))
  (at level 61, right associativity).

(** [for x in xs: body(x)] *)
Fixpoint for_each {A : Type} (xs : list A) (body : A -> M unit) : M unit :=
  match xs with
  | [] => ret tt
  | x :: rest => body x ;; for_each rest body
  end.

(** ** class BilibiliUploader *)

Module BilibiliUploader.

(** [\w], for output taken as ASCII text. *)
Definition is_word (c : ascii) : bool :=
  let n := nat_of_ascii c in
  ((48 <=? n) && (n <=? 57) || (65 <=? n) && (n <=? 90)
   || (97 <=? n) && (n <=? 122) || (n =? 95))%nat.

Fixpoint strip_prefix (p s : string) : option string :=
  match p, s with
  | EmptyString, _ => Some s
  | String a p', String b s' =>
      if Ascii.eqb a b then strip_prefix p' s' else None
  | String _ _, EmptyString => None
  end.

Fixpoint take_word (s : string) : string :=
  match s with
  | String c rest => if is_word c then String c (take_word rest) else ""
  | EmptyString => ""
  end.

(** Every character of [s] is a word character. *)
Fixpoint all_word (s : string) : bool :=
  match s with
  | String c rest => is_word c && all_word rest
  | EmptyString => true
  end.

(** [s] does not go on with a word character. *)
Definition word_ends (s : string) : bool :=
  match s with
  | String c _ => negb (is_word c)
  | EmptyString => true
  end.

(** [re.search(r'bvid:(BV\w+)', output)], giving group 1 of the leftmost
    match. *)
Fixpoint search_bvid (output : string) : option string :=
  match output with
  | EmptyString => None
  | String _ rest =>
      match strip_prefix "bvid:BV" output with
      | Some tail =>
          match take_word tail with
          | EmptyString => search_bvid rest
          | word => Some ("BV" ++ word)%string
          end
      | None => search_bvid rest
      end
  end.

(** The query [biliup show] and the reading of its answer are the tool's;
    the guard on an empty identifier is the program's. *)
Definition validate_bvid (env : Env) (target : string) : M bool :=
  if negb (Py.truthy (Some target)) then ret false
  else
    w <- get ;;
    let ok := biliup_show env (trace w) target in
    emit (EvShow target ok) ;;
    ret ok.

(** What [upload_video] makes of the way the upload process ended: a
    process that cannot be started or a non-zero exit code raises, and every
    exception inside [upload_video] is caught and turned into [None]; with
    exit code 0 the result is the identifier found in the output, if any. *)
Definition bvid_of_exit (exit : option (Z * string)) : option string :=
  match exit with
  | None => None
  | Some (returncode, output) =>
      if negb (returncode =? 0) then None else search_bvid output
  end.

(** [returncode == 0] for [append_video], [False] on an exception. *)
Definition append_succeeded (exit : option Z) : bool :=
  match exit with
  | Some returncode => returncode =? 0
  | None => false
  end.

(** Of the command line built from [video_info], [streamer_name] and the
    configuration, the title, the cover and the copyright flag are kept. *)
Definition upload_video (env : Env) (video_path title : string)
  (cover_path : option string) (copyright : string) : M (option string) :=
  w <- get ;;
  let cover :=
    match cover_path with
    | Some c =>
        if Py.truthy cover_path && path_exists env (trace w) c
        then Some c else None
    | None => None
    end in
  let exit := biliup_upload env (trace w) video_path title cover copyright in
  emit (EvUpload video_path title cover copyright exit) ;;
  ret (bvid_of_exit exit).

(** [Popen] refuses a command line that holds [None]: with no target the
    [TypeError] is caught before any process runs. *)
Definition append_video (env : Env) (video_path : string)
  (target : option string) (part_title : string) : M bool :=
  match target with
  | None => ret false
  | Some b =>
      w <- get ;;
      let exit := biliup_append env (trace w) video_path b part_title in
      emit (EvAppend video_path b part_title exit) ;;
      ret (append_succeeded exit)
  end.

End BilibiliUploader.

(** ** class UploadHistory *)

Module UploadHistory.

Definition _save_history (env : Env) : M unit :=
  w <- get ;;
  let o := write_history env (trace w) (history w) in
  modify (set_history_file (apply_write (history_file w) (history w) o)) ;;
  emit (EvWriteHistory (history w) o).

Definition _save_failed (env : Env) : M unit :=
  w <- get ;;
  let o := write_failed env (trace w) (failed w) in
  modify (set_failed_file (apply_write (failed_file w) (failed w) o)) ;;
  emit (EvWriteFailed (failed w) o).

(** [record.get('file_path') == path and record.get('file_size') == size] *)
Definition same_fingerprint (path : string) (size : Z)
  (record : HistoryRecord) : bool :=
  match file_path record, file_size record with
  | Some p, Some s => String.eqb p path && (s =? size)
  | _, _ => false
  end.

Fixpoint is_uploaded (records : list HistoryRecord) (path : string)
  (size : Z) : bool :=
  match records with
  | [] => false
  | record :: rest =>
      if same_fingerprint path size record then true
      else is_uploaded rest path size
  end.

Definition add_success (env : Env) (path : string) (size : Z)
  (target : option string) (split : bool) (segments : option (list string))
  : M unit :=
  w <- get ;;
  let record :=
    {| file_path := Some path;
       file_size := Some size;
       bvid := target;
       upload_time := now env (trace w);
       is_split := split;
       parts := Py.or_list segments |} in
  modify (set_history (history w ++ [record])) ;;
  _save_history env.

Definition add_failed (env : Env) (path : string) (message : string)
  : M unit :=
  w <- get ;;
  let record :=
    {| failed_file_path := path;
       error_msg := message;
       failed_time := now env (trace w) |} in
  modify (set_failed (failed w ++ [record])) ;;
  _save_failed env.

(** [any(record.get('file_path') == path for record in self.history)] *)
Definition path_recorded (records : list HistoryRecord) (path : string)
  : bool :=
  existsb (fun record =>
             match file_path record with
             | Some p => String.eqb p path
             | None => false
             end) records.

Definition get_uploaded_count (records : list HistoryRecord)
  (folder_videos : list string) (folder_name : string) : Z * Z :=
  let uploaded :=
    Z.of_nat (List.length
      (filter (fun video => path_recorded records (folder_name ++ "/" ++ video)%string)
              folder_videos)) in
  (uploaded, Z.of_nat (List.length folder_videos) - uploaded).

(** The first loop of [prune_invalid_records]. *)
Fixpoint sort_records (validate : string -> M bool)
  (records : list HistoryRecord) (checked : Z)
  (valid_records invalid_records : list HistoryRecord)
  : M (Z * list HistoryRecord * list HistoryRecord) :=
  match records with
  | [] => ret (checked, valid_records, invalid_records)
  | record :: rest =>
      let checked := checked + 1 in
      match bvid record with
      | Some b =>
          if negb (Py.truthy (Some b))
          then sort_records validate rest checked valid_records
                 (invalid_records ++ [record])
          else
            ok <- validate b ;;
            if ok
            then sort_records validate rest checked
                   (valid_records ++ [record]) invalid_records
            else sort_records validate rest checked valid_records
                   (invalid_records ++ [record])
      | None =>
          sort_records validate rest checked valid_records
            (invalid_records ++ [record])
      end
  end.

Definition removal_path (record : HistoryRecord) : string :=
  match file_path record with
  | Some p => p
  | None => "未知路径"
  end.

Definition removal_message (record : HistoryRecord) : string :=
  let b := match bvid record with
           | Some b => b
           | None => "未知BV号"
           end in
  ("历史记录校验失败，稿件 " ++ b ++ " 不存在或已删除")%string.

(** [uploader.validate_bvid] is passed in as [validate]. *)
Definition prune_invalid_records (env : Env) (validate : string -> M bool)
  : M (Z * Z) :=
  w <- get ;;
  sorted <- sort_records validate (history w) 0 [] [] ;;
  let '(checked, valid_records, invalid_records) := sorted in
  match invalid_records with
  | [] => ret (checked, 0)
  | _ :: _ =>
      let removed := Z.of_nat (List.length invalid_records) in
      modify (set_history valid_records) ;;
      _save_history env ;;
      for_each invalid_records
        (fun record =>
           add_failed env (removal_path record) (removal_message record)) ;;
      ret (checked, removed)
  end.

(** [_load_history]: a missing file gives the empty list, and so does a
    file that cannot be read or parsed (the exception is caught). *)
Definition _load_history (c : FileContent HistoryRecord)
  : list HistoryRecord :=
  match c with
  | Document records => records
  | Absent | Garbled => []
  end.

Definition _load_failed (c : FileContent FailedRecord) : list FailedRecord :=
  match c with
  | Document records => records
  | Absent | Garbled => []
  end.

End UploadHistory.

(** ** class RcloneManager *)

Module RcloneManager.

Definition mount (env : Env) : M bool :=
  w <- get ;;
  if is_mounted w then ret true
  else
    let populated := mount_populated env (trace w) in
    emit (EvMount populated) ;;
    if populated then modify (set_is_mounted true) ;; ret true
    else ret false.

Definition get_mounted_path (env : Env) (cfg : Config)
  (folder_name filename : string) : M (option string) :=
  w <- get ;;
  if negb (is_mounted w) then ret None
  else
    let p := path_join env (path_join env (mount_point cfg) folder_name)
               filename in
    if path_exists env (trace w) p then ret (Some p) else ret None.

Definition download_file (env : Env) (remote_file_path local_path : string)
  : M bool :=
  w <- get ;;
  let ok := rclone_copy env (trace w) remote_file_path local_path in
  emit (EvDownload remote_file_path local_path ok) ;;
  ret ok.

End RcloneManager.

(** ** class VideoProcessor *)

Module VideoProcessor.

Definition extract_cover (env : Env) (video_path output_path : string)
  : M bool :=
  emit (EvExtractCover video_path output_path) ;;
  w <- get ;;
  ret (path_exists env (trace w) output_path).

Definition get_video_duration (env : Env) (video_path : string)
  : M (option float) :=
  w <- get ;;
  let d := ffprobe_duration env (trace w) video_path in
  emit (EvProbe video_path d) ;;
  ret d.

(** [math.ceil(file_size_gb / max_size_gb)], [None] when it raises. *)
Definition num_parts (cfg : Config) (file_size_gb : float) : option Z :=
  match Py.float_div file_size_gb (split_margin_gb cfg) with
  | Some q => Py.ceil q
  | None => None
  end.

(** [duration / num_parts], a float divided by an [int]; [None] when it
    raises. *)
Definition part_duration (duration : float) (n : Z) : option float :=
  let d := Py.float_of_Z n in
  if negb (Py.is_finite d) then None else Py.float_div duration d.

(** [i * part_duration] *)
Definition start_time (i : nat) (length : float) : float :=
  PrimFloat.mul (Py.float_of_Z (Z.of_nat i)) length.

(** [os.path.join(output_dir, f"{base_name}_part{i+1}.flv")] *)
Definition part_file (env : Env) (output_dir base_name : string) (i : nat)
  : string :=
  path_join env output_dir
    (base_name ++ "_part" ++ Py.str_nat (i + 1) ++ ".flv")%string.

(** The loop [for i in range(num_parts)] over the indices still to cut. *)
Fixpoint cut_parts (env : Env) (video_path output_dir base_name : string)
  (length : float) (indices : list nat) (output_files : list string)
  : M (list string) :=
  match indices with
  | [] => ret output_files
  | i :: rest =>
      let output_file := part_file env output_dir base_name i in
      emit (EvCut video_path (start_time i length) length output_file) ;;
      w <- get ;;
      if path_exists env (trace w) output_file
      then cut_parts env video_path output_dir base_name length rest
             (output_files ++ [output_file])
      else cut_parts env video_path output_dir base_name length rest
             output_files
  end.

(** [range(n)] *)
Definition range (n : Z) : list nat := seq 0 (Z.to_nat n).

Definition split_video (env : Env) (cfg : Config)
  (video_path output_dir : string) (file_size_gb : float)
  : M (list string) :=
  match num_parts cfg file_size_gb with
  | None => ret []
  | Some n =>
      duration <- get_video_duration env video_path ;;
      match duration with
      | None => ret []
      | Some d =>
          if negb (Py.float_truthy d) then ret []
          else
            match part_duration d n with
            | None => ret []
            | Some length =>
                cut_parts env video_path output_dir
                  (path_stem env video_path) length (range n) []
            end
      end
  end.

End VideoProcessor.

(** ** class UploadController *)

Module UploadController.

Record VideoInfo := {
  room_id : string;
  title : string
}.

Definition get_upload_title (video_info : VideoInfo) : string :=
  title video_info.

(** The dictionaries that [_get_videos_to_upload] builds. *)
Record VideoData := {
  filename : string;
  remote_path : string;
  size : Z;
  video_info : VideoInfo;
  streamer_name : string
}.

(** [file_sizes.get(video, 0)] on the listing [rclone ls] gave, each name
    held once. *)
Fixpoint size_of (file_sizes : list (string * Z)) (video : string) : Z :=
  match file_sizes with
  | [] => 0
  | (name, bytes) :: rest =>
      if String.eqb name video then bytes else size_of rest video
  end.

(** The last loop of [_get_videos_to_upload]: the selected files that the
    history does not hold yet. *)
Fixpoint _get_videos_to_upload (env : Env) (records : list HistoryRecord)
  (folder_name room streamer : string) (file_sizes : list (string * Z))
  (selected_videos : list string) : list VideoData :=
  match selected_videos with
  | [] => []
  | video :: rest =>
      let path := (folder_name ++ "/" ++ video)%string in
      let bytes := size_of file_sizes video in
      let others :=
        _get_videos_to_upload env records folder_name room streamer
          file_sizes rest in
      if UploadHistory.is_uploaded records path bytes then others
      else
        {| filename := video;
           remote_path := path;
           size := bytes;
           video_info := {| room_id := room; title := parse_title env video |};
           streamer_name := streamer |} :: others
  end.

(** [remote_path.split('/')[0]] *)
Fixpoint first_component (s : string) : string :=
  match s with
  | EmptyString => ""
  | String c rest =>
      if Ascii.eqb c "/" then "" else String c (first_component rest)
  end.

(** [size / (1024 ** 3)] *)
Definition size_in_gb (bytes : Z) : float := Py.int_div_pow2 bytes 30.

(** [size_gb > max_size_gb] *)
Definition needs_split_of (cfg : Config) (size_gb : float) : bool :=
  PrimFloat.ltb (max_file_size_gb cfg) size_gb.

(** [min_free_space_gb * (1024 ** 3)] *)
Definition min_free (cfg : Config) : float :=
  PrimFloat.mul (min_free_space_gb cfg) (Py.float_of_Z (1024 ^ 3)).

(** The first half of [_get_video_path]: the file under the mount point,
    for a task that needs no split. *)
Definition mounted_copy (env : Env) (cfg : Config) (path name : string)
  (needs_split : bool) : M (option string) :=
  if negb needs_split then
    w <- get ;;
    (if negb (is_mounted w) then RcloneManager.mount env ;; ret tt
     else ret tt) ;;
    w <- get ;;
    if is_mounted w
    then RcloneManager.get_mounted_path env cfg (first_component path) name
    else ret None
  else ret None.

(** The second half of [_get_video_path]: a copy in the local cache, when
    the disk keeps enough free space. *)
Definition local_copy (env : Env) (cfg : Config) (path name : string)
  (bytes : Z) : M (option string) :=
  w <- get ;;
  let free_space := disk_free env (trace w) in
  emit (EvDiskUsage free_space) ;;
  if Py.int_lt_float (free_space - bytes) (min_free cfg) then ret None
  else
    let local_path :=
      path_join env (path_join env (local_cache_path cfg) "downloads")
        name in
    ok <- RcloneManager.download_file env path local_path ;;
    if ok then ret (Some local_path) else ret None.

Definition _get_video_path (env : Env) (cfg : Config)
  (path name : string) (bytes : Z) (needs_split : bool)
  : M (option string) :=
  mounted_path <- mounted_copy env cfg path name needs_split ;;
  if Py.truthy mounted_path then ret mounted_path
  else local_copy env cfg path name bytes.

(** [self.temp_dir / 'covers' / f"{Path(p).stem}.jpg"] *)
Definition cover_file (env : Env) (cfg : Config) (p : string) : string :=
  path_join env (path_join env (local_cache_path cfg) "covers")
    (path_stem env p ++ ".jpg")%string.

(** [str(cover_path) if cover_path.exists() else None] *)
Definition existing (env : Env) (p : string) : M (option string) :=
  w <- get ;;
  if path_exists env (trace w) p then ret (Some p) else ret None.

Definition _upload_normal_video (env : Env) (cfg : Config)
  (video_path : string) (info : VideoInfo) (streamer mode : string)
  (target_bvid : option string) (copyright : string) : M (option string) :=
  let cover_path := cover_file env cfg video_path in
  VideoProcessor.extract_cover env video_path cover_path ;;
  if String.eqb mode "new" then
    cover <- existing env cover_path ;;
    BilibiliUploader.upload_video env video_path (get_upload_title info)
      cover copyright
  else
    success <- BilibiliUploader.append_video env video_path target_bvid
                 (get_upload_title info) ;;
    if success then ret target_bvid else ret None.

(** The loop [for i, split_file in enumerate(split_files, 1)] of
    [_upload_split_video], from index [i] on. *)
Fixpoint upload_parts (env : Env) (cfg : Config) (info : VideoInfo)
  (mode copyright : string) (i : nat) (split_files : list string)
  (result_bvid : option string) : M (option string) :=
  match split_files with
  | [] => ret result_bvid
  | split_file :: rest =>
      let part_title :=
        (get_upload_title info ++ " - P" ++ Py.str_nat i)%string in
      cover_path <-
        (if (i =? 1)%nat then
           let c := cover_file env cfg split_file in
           VideoProcessor.extract_cover env split_file c ;; ret (Some c)
         else ret None) ;;
      if (i =? 1)%nat && String.eqb mode "new" then
        cover <- match cover_path with
                 | Some c => existing env c
                 | None => ret None
                 end ;;
        b <- BilibiliUploader.upload_video env split_file
               (get_upload_title info) cover copyright ;;
        if negb (Py.truthy b) then ret None
        else upload_parts env cfg info mode copyright (S i) rest b
      else
        success <- BilibiliUploader.append_video env split_file result_bvid
                     part_title ;;
        if negb success then ret None
        else upload_parts env cfg info mode copyright (S i) rest result_bvid
  end.

(** [self.temp_dir / 'splits' / Path(video_path).stem] *)
Definition split_dir_of (env : Env) (cfg : Config) (video_path : string)
  : string :=
  path_join env (path_join env (local_cache_path cfg) "splits")
    (path_stem env video_path).

Definition _upload_split_video (env : Env) (cfg : Config)
  (video_path : string) (info : VideoInfo) (streamer : string)
  (size_gb : float) (mode : string) (target_bvid : option string)
  (copyright : string) : M (option string) :=
  split_files <- VideoProcessor.split_video env cfg video_path
                   (split_dir_of env cfg video_path) size_gb ;;
  match split_files with
  | [] => ret None
  | _ :: _ =>
      upload_parts env cfg info mode copyright 1 split_files target_bvid
  end.

Definition _cleanup_temp_files (video_path : string) (needs_split : bool)
  : M unit :=
  emit (EvCleanup video_path needs_split).

(** The [try] block of the retry loop of [_upload_single_video]: it returns
    [True] or raises. *)
Definition try_upload (env : Env) (cfg : Config) (video_data : VideoData)
  (mode : string) (target_bvid : option string) (copyright : string)
  : M (option bool) :=
  let needs_split := needs_split_of cfg (size_in_gb (size video_data)) in
  video_path <- _get_video_path env cfg (remote_path video_data)
                  (filename video_data) (size video_data) needs_split ;;
  match video_path with
  | Some p =>
      if negb (Py.truthy video_path) then raise "无法获取视频文件"
      else
        result <-
          (if needs_split then
             _upload_split_video env cfg p (video_info video_data)
               (streamer_name video_data) (size_in_gb (size video_data))
               mode target_bvid copyright
           else
             _upload_normal_video env cfg p (video_info video_data)
               (streamer_name video_data) mode target_bvid copyright) ;;
        _cleanup_temp_files p needs_split ;;
        if Py.truthy result then
          let b := if String.eqb mode "new" then result
                   else target_bvid in
          UploadHistory.add_success env (remote_path video_data)
            (size video_data) b needs_split None ;;
          ret (Some true)
        else raise "上传失败"
  | None => raise "无法获取视频文件"
  end.

(** The [except] block: after the last attempt the failure is recorded and
    the function returns [False]; before it the loop sleeps and goes on. *)
Definition on_failure (env : Env) (cfg : Config) (video_data : VideoData)
  (attempt : Z) (e : string) : M (option bool) :=
  if attempt =? retry_times cfg - 1 then
    UploadHistory.add_failed env (remote_path video_data) e ;;
    modify (fun w => set_stats_failed (stats_failed w + 1) w) ;;
    ret (Some false)
  else
    emit (EvSleep 2) ;;
    ret None.

(** One turn of the retry loop: [Some b] when the function returns [b],
    [None] when the loop goes on. *)
Definition attempt_upload (env : Env) (cfg : Config) (video_data : VideoData)
  (mode : string) (target_bvid : option string) (copyright : string)
  (attempt : Z) : M (option bool) :=
  try_except (try_upload env cfg video_data mode target_bvid copyright)
    (on_failure env cfg video_data attempt).

(** [for attempt in range(retry_times)] over the attempts still to make. *)
Fixpoint retry_loop (env : Env) (cfg : Config) (video_data : VideoData)
  (mode : string) (target_bvid : option string) (copyright : string)
  (attempts : list nat) : M bool :=
  match attempts with
  | [] => ret false
  | attempt :: rest =>
      done <- attempt_upload env cfg video_data mode target_bvid copyright
                (Z.of_nat attempt) ;;
      match done with
      | Some b => ret b
      | None => retry_loop env cfg video_data mode target_bvid copyright rest
      end
  end.

Definition _upload_single_video (env : Env) (cfg : Config)
  (video_data : VideoData) (mode : string) (target_bvid : option string)
  (copyright : string) : M bool :=
  retry_loop env cfg video_data mode target_bvid copyright
    (VideoProcessor.range (retry_times cfg)).

(** The loop of [_batch_upload_videos], [current] tasks already started. *)
Fixpoint batch_loop (env : Env) (cfg : Config) (total current : Z)
  (videos : list VideoData) (mode : string) (target_bvid : option string)
  (copyright : string) : M unit :=
  match videos with
  | [] => ret tt
  | video_data :: rest =>
      let current := current + 1 in
      w <- get ;;
      emit (EvProgress current total (stats_success w) (stats_failed w)
              (stats_skipped w)) ;;
      success <- _upload_single_video env cfg video_data mode target_bvid
                   copyright ;;
      (if success
       then modify (fun w => set_stats_success (stats_success w + 1) w)
       else ret tt) ;;
      batch_loop env cfg total current rest mode target_bvid copyright
  end.

Definition _batch_upload_videos (env : Env) (cfg : Config)
  (folder_name : string) (videos : list VideoData) (mode : string)
  (target_bvid : option string) (copyright : string) : M unit :=
  batch_loop env cfg (Z.of_nat (List.length videos)) 0 videos mode
    target_bvid copyright.

(** [folder_name.split('-')[0]] *)
Definition room_id_of (folder_name : string) : string :=
  hd EmptyString (Py.split_on "-" folder_name).

(** ['-'.join(folder_name.split('-')[1:])] *)
Definition streamer_name_of (folder_name : string) : string :=
  Py.join_with "-" (tl (Py.split_on "-" folder_name)).

(** The state in which [__init__] leaves a new process: both logs are read
    from their files, the counters are zero and nothing is mounted. *)
Definition __init__ (w : World) : World :=
  {| history := UploadHistory._load_history (history_file w);
     failed := UploadHistory._load_failed (failed_file w);
     history_file := history_file w; failed_file := failed_file w;
     stats_success := 0; stats_failed := 0; stats_skipped := 0;
     is_mounted := false; trace := trace w |}.

End UploadController.

(** ** class Config *)

Module ConfigFile.

(** What [json.load] gives.  A dictionary keeps its keys in the order of
    their insertion. *)
#[local] Set Warnings "-register-all".
Inductive json :=
| JNull
| JBool (b : bool)
| JInt (z : Z)
| JFloat (f : float)
| JString (s : string)
| JArray (items : list json)
| JObject (fields : list (string * json)).

(** [key in d] together with [d[key]] *)
Fixpoint lookup (fields : list (string * json)) (key : string)
  : option json :=
  match fields with
  | [] => None
  | (k, v) :: rest => if String.eqb k key then Some v else lookup rest key
  end.

(** [d[key] = value]: an existing key keeps its place, a new one goes to
    the end. *)
Fixpoint assign (fields : list (string * json)) (key : string)
  (value : json) : list (string * json) :=
  match fields with
  | [] => [(key, value)]
  | (k, v) :: rest =>
      if String.eqb k key then (k, value) :: rest
      else (k, v) :: assign rest key value
  end.

(** [get]: the value under the path of keys, or the default. *)
Fixpoint get (value : json) (keys : list string) (default : json) : json :=
  match keys with
  | [] => value
  | key :: rest =>
      match value with
      | JObject fields =>
          match lookup fields key with
          | Some v => get v rest default
          | None => default
          end
      | _ => default
      end
  end.

(** The loop and the last assignment of [set], inside the dictionary
    [fields]: [key] is the key at hand and [rest] the keys after it. *)
Fixpoint set_in (fields : list (string * json)) (value : json)
  (key : string) (rest : list string) : list (string * json) :=
  match rest with
  | [] => assign fields key value
  | next :: rest' =>
      let child :=
        match lookup fields key with
        | Some (JObject c) => c
        | _ => []
        end in
      assign fields key (JObject (set_in child value next rest'))
  end.

(** [set]: [ValueError] without keys, [TypeError] when the configuration
    is not a dictionary. *)
Definition set (config : json) (value : json) (keys : list string)
  : option json :=
  match keys with
  | [] => None
  | key :: rest =>
      match config with
      | JObject fields => Some (JObject (set_in fields value key rest))
      | _ => None
      end
  end.

End ConfigFile.

(** ** class VideoInfo *)

(** File names are the UTF-8 bytes of the Python strings.  The pattern is
    kept as data and matched the way [re] matches it: from the left, each
    [+] taking as much as it can and giving back one character at a time
    when what follows fails.  [\d] is read as an ASCII digit; the decimal
    digits of other scripts, which Python's [\d] also accepts, are not
    covered.  The fields [datetime] and [formatted_date] are left out: they
    are computed from [date_str] and [time_str] and change none of the
    others. *)
Module VideoInfo.

Inductive char_class :=
| Digit     (* [\d] *)
| AnyChar.  (* [.] *)

Definition is_digit (c : ascii) : bool :=
  let n := nat_of_ascii c in ((48 <=? n) && (n <=? 57))%nat.

Definition in_class (k : char_class) (c : ascii) : bool :=
  match k with
  | Digit => is_digit c
  | AnyChar => negb (Ascii.eqb c "010")
  end.

Inductive item :=
| Lit (s : string)                    (* literal text *)
| Exactly (k : char_class) (n : nat)  (* the group [(k{n})] *)
| OneOrMore (k : char_class)          (* the group [(k+)] *)
| EndOfString.                        (* [$] *)

(** [r'录制-(\d+)-(\d{8})-(\d{6})-(\d+)-(.+)\.flv$'] *)
Definition FILENAME_PATTERN : list item :=
  [Lit "录制-"; OneOrMore Digit; Lit "-"; Exactly Digit 8; Lit "-";
   Exactly Digit 6; Lit "-"; OneOrMore Digit; Lit "-"; OneOrMore AnyChar;
   Lit ".flv"; EndOfString].

(** [n] characters of the class [k] and what follows them. *)
Fixpoint exactly (k : char_class) (n : nat) (s : string)
  : option (string * string) :=
  match n with
  | O => Some ("", s)
  | S n' =>
      match s with
      | String c rest =>
          if in_class k c then
            match exactly k n' rest with
            | Some (g, s') => Some (String c g, s')
            | None => None
            end
          else None
      | EmptyString => None
      end
  end.

(** One more character of the class [k] after [taken]; the longer matches
    are tried before the match that stops here, where [after] matches what
    follows the group. *)
Fixpoint greedy (k : char_class) (after : string -> option (list string))
  (taken s : string) : option (list string) :=
  match s with
  | String c rest =>
      if in_class k c then
        match greedy k after (taken ++ String c "") rest with
        | Some groups => Some groups
        | None =>
            option_map (cons (taken ++ String c "")%string) (after rest)
        end
      else None
  | EmptyString => None
  end.

(** [$] without [re.MULTILINE]: the end of the string, or the line feed that
    ends it. *)
Definition at_end (s : string) : bool :=
  String.eqb s "" || String.eqb s (String "010" "").

(** [pattern.match(s)]: the groups of the first match that starts at the
    first character, if there is one. *)
Fixpoint re_match (pattern : list item) : string -> option (list string) :=
  match pattern with
  | [] => fun _ => Some []
  | Lit l :: rest =>
      fun s =>
        match BilibiliUploader.strip_prefix l s with
        | Some s' => re_match rest s'
        | None => None
        end
  | Exactly k n :: rest =>
      fun s =>
        match exactly k n s with
        | Some (g, s') => option_map (cons g) (re_match rest s')
        | None => None
        end
  | OneOrMore k :: rest => greedy k (re_match rest) ""
  | EndOfString :: rest =>
      fun s => if at_end s then re_match rest s else None
  end.

(** [os.path.basename(p)]: what follows the last [/]. *)
Fixpoint basename (p : string) : string :=
  match p with
  | EmptyString => ""
  | String c rest =>
      if Py.has_char "/" rest then basename rest
      else if Ascii.eqb c "/" then rest else p
  end.

(** [s.replace('.flv', '')] *)
Fixpoint remove_flv (s : string) : string :=
  match s with
  | String "." (String "f" (String "l" (String "v" rest))) => remove_flv rest
  | String c rest => String c (remove_flv rest)
  | EmptyString => ""
  end.

Record t := {
  file_path : string;
  room_id : string;
  filename : string;
  size : Z;
  streamer_id : string;
  date_str : string;
  time_str : string;
  sequence : string;
  title : string
}.

Definition _parse_filename (file_path room_id filename : string) : t :=
  match re_match FILENAME_PATTERN filename with
  | Some [g1; g2; g3; g4; g5] =>
      {| file_path := file_path; room_id := room_id; filename := filename;
         size := 0;
         streamer_id := g1; date_str := g2; time_str := g3; sequence := g4;
         title := g5 |}
  | _ =>
      {| file_path := file_path; room_id := room_id; filename := filename;
         size := 0;
         streamer_id := "unknown"; date_str := ""; time_str := "";
         sequence := "0"; title := remove_flv filename |}
  end.

Definition __init__ (file_path room_id : string) : t :=
  _parse_filename file_path room_id (basename file_path).

Definition get_upload_title (self : t) : string := title self.

(** Every character of [s] is an ASCII digit. *)
Fixpoint all_digits (s : string) : bool :=
  match s with
  | String c rest => is_digit c && all_digits rest
  | EmptyString => true
  end.

End VideoInfo.

(** The name the recorder gives a file, as the comment on
    [FILENAME_PATTERN] words it:
    [录制-{主播ID}-{日期}-{时间}-{序号}-{标题}.flv]. *)
Definition recording_name (id date time seq title : string) : string :=
  ("录制-" ++ id ++ "-" ++ date ++ "-" ++ time ++ "-" ++ seq ++ "-"
   ++ title ++ ".flv")%string.

(** ** class RcloneManager: reading the listings *)

(** What [rclone lsd] and [rclone lsf] print is read with [str.strip] and
    [str.split], which know the white space of Unicode and not only that of
    ASCII; so the text is a list of code points here.  [result] is [None]
    when [run_command] raised, which both methods catch. *)
Module RcloneListing.

Definition str := list N.

(** [c.isspace()] *)
Definition isspace (c : N) : bool :=
  ((9 <=? c) && (c <=? 13) || (28 <=? c) && (c <=? 32)
   || (c =? 133) || (c =? 160) || (c =? 5760)
   || (8192 <=? c) && (c <=? 8202)
   || (c =? 8232) || (c =? 8233) || (c =? 8239) || (c =? 8287)
   || (c =? 12288))%N.

Definition line_feed : N := 10%N.
Definition space : N := 32%N.

(** [bool(s)] *)
Definition nonempty (s : str) : bool :=
  match s with
  | [] => false
  | _ :: _ => true
  end.

(** [s.lstrip()] *)
Fixpoint lstrip (s : str) : str :=
  match s with
  | c :: rest => if isspace c then lstrip rest else s
  | [] => []
  end.

(** [s.rstrip()] *)
Fixpoint rstrip (s : str) : str :=
  match s with
  | c :: rest =>
      match rstrip rest with
      | [] => if isspace c then [] else [c]
      | kept => c :: kept
      end
  | [] => []
  end.

(** [s.strip()] *)
Definition strip (s : str) : str := rstrip (lstrip s).

(** The pieces of [s] between the characters that [sep] accepts; there is
    always at least one. *)
Fixpoint pieces (sep : N -> bool) (s : str) : list str :=
  match s with
  | [] => [[]]
  | c :: rest =>
      if sep c then [] :: pieces sep rest
      else
        match pieces sep rest with
        | piece :: others => (c :: piece) :: others
        | [] => [[c]]
        end
  end.

(** [s.split('\n')] *)
Definition split_lines (s : str) : list str := pieces (N.eqb line_feed) s.

(** [s.split()]: the pieces between white space, the empty ones dropped. *)
Definition split (s : str) : list str := filter nonempty (pieces isspace s).

(** [sep.join(words)] *)
Fixpoint join (sep : str) (words : list str) : str :=
  match words with
  | [] => []
  | [word] => word
  | word :: rest => word ++ sep ++ join sep rest
  end.

(** [a <= b] on strings: by code points, a prefix first. *)
Fixpoint str_le (a b : str) : bool :=
  match a, b with
  | [], _ => true
  | _ :: _, [] => false
  | x :: a', y :: b' => (x <? y)%N || (x =? y)%N && str_le a' b'
  end.

Fixpoint insert_sorted (x : str) (l : list str) : list str :=
  match l with
  | [] => [x]
  | y :: rest => if str_le x y then x :: l else y :: insert_sorted x rest
  end.

(** [sorted(l)] *)
Definition sorted (l : list str) : list str :=
  fold_right insert_sorted [] l.

(** The names of [list_folders]; the source wraps each one in a dictionary
    with the single key [name]. *)
Definition list_folders (result : option str) : list str :=
  match result with
  | None => []
  | Some stdout =>
      flat_map
        (fun line =>
           if nonempty (strip line) then
             let parts := split line in
             if (4 <=? List.length parts)%nat
             then [join [space] (skipn 4 parts)]
             else []
           else [])
        (split_lines (strip stdout))
  end.

Definition list_videos (result : option str) : list str :=
  match result with
  | None => []
  | Some stdout =>
      sorted
        (map strip
           (filter (fun line => nonempty (strip line))
              (split_lines (strip stdout))))
  end.

End RcloneListing.

(** *** Listings as rclone lays them out *)

Section Layout.

Import RcloneListing.

(** [s] is white space only. *)
Definition all_space (s : str) : Prop := forallb isspace s = true.

(** [s] holds no white space. *)
Definition no_space (s : str) : Prop :=
  forallb (fun c => negb (isspace c)) s = true.

(** A line laid out as [gap field gap field ...]. *)
Fixpoint laid_out (cells : list (str * str)) : str :=
  match cells with
  | [] => []
  | (gap, field) :: rest => gap ++ field ++ laid_out rest
  end.

(** [s] holds no white space and is not empty. *)
Definition is_word (s : str) : bool :=
  nonempty s && forallb (fun c => negb (isspace c)) s.

(** [s] is white space that stays on the line. *)
Definition is_gap (s : str) : bool :=
  forallb (fun c => isspace c && negb (c =? line_feed)%N) s.

(** The cells of a line: words, each after a gap; only the first gap may be
    empty. *)
Fixpoint well_laid (first : bool) (cells : list (str * str)) : bool :=
  match cells with
  | [] => true
  | (gap, field) :: rest =>
      is_gap gap && (first || nonempty gap) && is_word field
      && well_laid false rest
  end.

(** A name as [rclone lsf] prints it on a line of its own: no line feed in
    it and no white space at either end. *)
Definition is_name (s : str) : bool :=
  nonempty s && forallb (fun c => negb (c =? line_feed)%N) s
  && match s with c :: _ => negb (isspace c) | [] => false end
  && negb (isspace (last s space)).

(** The code points of a text in ASCII, for the examples. *)
Definition text (s : string) : str :=
  map N_of_ascii (list_ascii_of_string s).

(** [a <= b], as a relation. *)
Definition in_order (a b : str) : Prop := str_le a b = true.

End Layout.

(** ** Reading a trace *)

(** A call of the publishing client: creating a video or appending a part. *)
Definition is_publish (e : Event) : bool :=
  match e with
  | EvUpload _ _ _ _ _ | EvAppend _ _ _ _ => true
  | _ => false
  end.

Definition publish_calls (t : list Event) : list Event :=
  filter is_publish t.

(** The file a publish call sends and whether the call succeeded. *)
Definition published (e : Event) : option (string * bool) :=
  match e with
  | EvUpload video _ _ _ exit =>
      Some (video, Py.truthy (BilibiliUploader.bvid_of_exit exit))
  | EvAppend video _ _ exit =>
      Some (video, BilibiliUploader.append_succeeded exit)
  | _ => None
  end.

Fixpoint publish_log (t : list Event) : list (string * bool) :=
  match t with
  | [] => []
  | e :: rest =>
      match published e with
      | Some call => call :: publish_log rest
      | None => publish_log rest
      end
  end.

(** Segments are published in order: a segment is sent only when every
    segment before it has been sent and accepted, and nothing is sent after
    a refusal.  [calls] is the publish log of the run over [segments]. *)
Inductive ordered_run : list string -> list (string * bool) -> Prop :=
| run_done : ordered_run [] []
| run_no_target (segment : string) (rest : list string) :
    ordered_run (segment :: rest) []
| run_stopped (segment : string) (rest : list string) :
    ordered_run (segment :: rest) [(segment, false)]
| run_next (segment : string) (rest : list string)
    (calls : list (string * bool)) :
    ordered_run rest calls ->
    ordered_run (segment :: rest) ((segment, true) :: calls).

(** An append call goes to the video [anchor]. *)
Definition appends_to (anchor : option string) (e : Event) : Prop :=
  match e with
  | EvAppend _ b _ _ => anchor = Some b
  | _ => True
  end.

(** The publish calls of a split upload are anchored: in mode [new] the
    first one creates a video and every later one appends to the video it
    created; otherwise every call appends to the given target. *)
Definition anchored (first_creates : bool) (target : option string)
  (calls : list Event) : Prop :=
  if first_creates then
    match calls with
    | [] => True
    | EvUpload _ _ _ _ exit :: rest =>
        Forall (appends_to (BilibiliUploader.bvid_of_exit exit)) rest
    | _ :: _ => False
    end
  else Forall (appends_to target) calls.

(** The tools answered an event of the publishing client. *)
Definition answered (env : Env) (e : Event) : Prop :=
  match e with
  | EvUpload video title cover copyright exit =>
      exists t, exit = biliup_upload env t video title cover copyright
  | EvAppend video b title exit =>
      exists t, exit = biliup_append env t video b title
  | _ => True
  end.

(** Every call of the publishing client that a task can start with is
    refused: in mode [new] the creation of a video, otherwise the append to
    the target, which is given. *)
Definition publish_always_fails (env : Env) (mode : string)
  (target : option string) : Prop :=
  if String.eqb mode "new" then
    forall t video title cover copyright,
      Py.truthy
        (BilibiliUploader.bvid_of_exit
           (biliup_upload env t video title cover copyright)) = false
  else
    exists b,
      target = Some b
      /\ forall t video title,
           BilibiliUploader.append_succeeded
             (biliup_append env t video b title) = false.

Definition is_upload (e : Event) : bool :=
  match e with
  | EvUpload _ _ _ _ _ => true
  | _ => false
  end.

(** A call of the publishing client that the tools answered with a
    refusal: the creation of a video in mode [new], an append otherwise. *)
Definition refused_call (env : Env) (mode : string) (e : Event) : Prop :=
  answered env e
  /\ is_upload e = String.eqb mode "new"
  /\ exists file, published e = Some (file, false).

(** A publish step that makes exactly one call, which is refused, and gives
    no identifier. *)
Definition one_refused_call (env : Env) (mode : string)
  (result : option string) (evs : list Event) : Prop :=
  Py.truthy result = false
  /\ exists e, publish_calls evs = [e] /\ refused_call env mode e.

(** The path resolver finds the file of the task whenever it is asked. *)
Definition path_always_found (env : Env) (cfg : Config)
  (v : UploadController.VideoData) : Prop :=
  forall w,
    exists p,
      fst (UploadController._get_video_path env cfg
             (UploadController.remote_path v) (UploadController.filename v)
             (UploadController.size v)
             (UploadController.needs_split_of cfg
                (UploadController.size_in_gb (UploadController.size v))) w)
      = Ok (Some p)
      /\ Py.truthy (Some p) = true.

(** When the task is to be split, the planner returns at least one segment
    whenever it is asked. *)
Definition split_always_yields (env : Env) (cfg : Config)
  (v : UploadController.VideoData) : Prop :=
  UploadController.needs_split_of cfg
    (UploadController.size_in_gb (UploadController.size v)) = true ->
  forall video w,
    exists segment rest,
      fst (VideoProcessor.split_video env cfg video
             (UploadController.split_dir_of env cfg video)
             (UploadController.size_in_gb (UploadController.size v)) w)
      = Ok (segment :: rest).

Definition is_download (e : Event) : bool :=
  match e with
  | EvDownload _ _ _ => true
  | _ => false
  end.

Definition is_mount (e : Event) : bool :=
  match e with
  | EvMount _ => true
  | _ => false
  end.

Definition is_disk_usage (e : Event) : bool :=
  match e with
  | EvDiskUsage _ => true
  | _ => false
  end.

Definition is_extract_cover (e : Event) : bool :=
  match e with
  | EvExtractCover _ _ => true
  | _ => false
  end.

Definition is_probe_or_cut (e : Event) : bool :=
  match e with
  | EvProbe _ _ | EvCut _ _ _ _ => true
  | _ => false
  end.

(** What the segment loop may do with the segments [segments], the first of
    which has the number [first]: append the segment at position [k] under
    the title that ends in [P(first + k)]; and, only when [first] is 1,
    extract a cover from the first segment and create the video from it,
    with that cover or without any. *)
Definition part_event (env : Env) (cfg : Config)
  (info : UploadController.VideoInfo) (segments : list string) (first : nat)
  (e : Event) : Prop :=
  match e with
  | EvAppend video _ title _ =>
      exists k,
        nth_error segments k = Some video
        /\ title =
           (UploadController.get_upload_title info ++ " - P"
            ++ Py.str_nat (first + k))%string
  | EvExtractCover video cover =>
      first = 1%nat
      /\ nth_error segments 0 = Some video
      /\ cover = UploadController.cover_file env cfg video
  | EvUpload video title cover _ _ =>
      first = 1%nat
      /\ nth_error segments 0 = Some video
      /\ title = UploadController.get_upload_title info
      /\ (cover = None
          \/ cover = Some (UploadController.cover_file env cfg video))
  | _ => False
  end.

Definition is_cut (e : Event) : bool :=
  match e with
  | EvCut _ _ _ _ => true
  | _ => false
  end.

Definition is_history_write (e : Event) : bool :=
  match e with
  | EvWriteHistory _ _ => true
  | _ => false
  end.

Definition is_progress (e : Event) : bool :=
  match e with
  | EvProgress _ _ _ _ _ => true
  | _ => false
  end.

(** The same world with more events behind it. *)
Definition with_events (evs : list Event) (w : World) : World :=
  {| history := history w; failed := failed w;
     history_file := history_file w; failed_file := failed_file w;
     stats_success := stats_success w; stats_failed := stats_failed w;
     stats_skipped := stats_skipped w; is_mounted := is_mounted w;
     trace := trace w ++ evs |}.

(** The events that happened between two worlds of one run. *)
Definition events_since (before after : World) : list Event :=
  skipn (List.length (trace before)) (trace after).

(** Two worlds with the same logs, files and counters. *)
Definition same_logs (w w' : World) : Prop :=
  history w' = history w /\ failed w' = failed w
  /\ history_file w' = history_file w /\ failed_file w' = failed_file w
  /\ stats_success w' = stats_success w /\ stats_failed w' = stats_failed w
  /\ stats_skipped w' = stats_skipped w.

(** From [w] to [w'] the program only talked to its tools, and [evs] is what
    was said. *)
Definition steps (w w' : World) (evs : list Event) : Prop :=
  same_logs w w' /\ trace w' = trace w ++ evs.

(** The cut of part [i] as the split plan words it: it starts at
    [i * length] and lasts [length]. *)
Definition cut_of (env : Env) (video output_dir : string) (length : float)
  (i : nat) : Event :=
  EvCut video
    (PrimFloat.mul (Py.float_of_Z (Z.of_nat i)) length) length
    (VideoProcessor.part_file env output_dir (path_stem env video) i).

(** The part files found on disk, each looked for right after its own cut,
    when the cuts of [indices] follow the events [t]. *)
Fixpoint materialized (env : Env) (video output_dir : string)
  (length : float) (t : list Event) (indices : list nat) : list string :=
  match indices with
  | [] => []
  | i :: rest =>
      let t' := t ++ [cut_of env video output_dir length i] in
      let f :=
        VideoProcessor.part_file env output_dir (path_stem env video) i in
      if path_exists env t' f
      then f :: materialized env video output_dir length t' rest
      else materialized env video output_dir length t' rest
  end.

(** The part file of index [i] is on disk right after its own cut, when the
    cuts of the indices up to [i] follow the events [t]. *)
Definition found_after_cut (env : Env) (video output_dir : string)
  (length : float) (t : list Event) (i : nat) : bool :=
  path_exists env
    (t ++ map (cut_of env video output_dir length) (seq 0 (S i)))
    (VideoProcessor.part_file env output_dir (path_stem env video) i).

(** How many records of a log carry a fingerprint. *)
Definition occurrences (records : list HistoryRecord) (path : string)
  (bytes : Z) : nat :=
  List.length (filter (UploadHistory.same_fingerprint path bytes) records).

(** No fingerprint is recorded twice. *)
Definition unique_fingerprints (records : list HistoryRecord) : Prop :=
  forall path bytes, (occurrences records path bytes <= 1)%nat.

(** A failure record without its time stamp. *)
Definition notice (f : FailedRecord) : string * string :=
  (failed_file_path f, error_msg f).

(** Revalidation as the specification words it: an entry is kept when it has
    a remote identifier and the existence check accepts it. *)
Definition still_valid (exists_remote : string -> bool)
  (record : HistoryRecord) : bool :=
  match bvid record with
  | Some b => Py.truthy (Some b) && exists_remote b
  | None => false
  end.

Definition no_longer_valid (exists_remote : string -> bool)
  (record : HistoryRecord) : bool :=
  negb (still_valid exists_remote record).

(** The existence checks a revalidation of [records] makes. *)
Fixpoint existence_checks (exists_remote : string -> bool)
  (records : list HistoryRecord) : list Event :=
  match records with
  | [] => []
  | record :: rest =>
      match bvid record with
      | Some b =>
          if Py.truthy (Some b)
          then EvShow b (exists_remote b)
                 :: existence_checks exists_remote rest
          else existence_checks exists_remote rest
      | None => existence_checks exists_remote rest
      end
  end.

(** The record [add_success] appends in the world [w]. *)
Definition success_record (env : Env) (w : World) (path : string)
  (bytes : Z) (target : option string) (split : bool)
  (segments : option (list string)) : HistoryRecord :=
  {| file_path := Some path; file_size := Some bytes; bvid := target;
     upload_time := now env (trace w); is_split := split;
     parts := Py.or_list segments |}.

(** [self.temp_dir / 'downloads' / filename] *)
Definition cache_file (env : Env) (cfg : Config) (name : string) : string :=
  path_join env (path_join env (local_cache_path cfg) "downloads") name.

(** What a run of the segment loop leaves behind: it only talked to the
    tools, its calls are in order and anchored, and a result other than
    [None] means every segment was accepted. *)
Definition parts_outcome (env : Env) (flag : bool) (segments : list string)
  (result_bvid r : option string) (w w' : World) (evs : list Event)
  : Prop :=
  steps w w' evs
  /\ ordered_run segments (publish_log evs)
  /\ (r <> None -> publish_log evs = map (fun s => (s, true)) segments)
  /\ anchored flag result_bvid (publish_calls evs)
  /\ Forall (answered env) evs.

(** ** Concrete environments for the examples *)

Module Scenario.

Definition default_config : Config :=
  {| max_file_size_gb := 15%float;
     split_margin_gb := 14.5%float;
     retry_times := 3;
     min_free_space_gb := 5%float;
     local_cache_path := "/tmp/biliup";
     mount_point := "/mnt/rclone" |}.

Definition join (a b : string) : string := (a ++ "/" ++ b)%string.

(** A stand-in for [Path(p).stem] that is right on the names used below:
    the last component of [p], cut at its last dot. *)
Fixpoint last_component (p current : string) : string :=
  match p with
  | EmptyString => current
  | String c rest =>
      if Ascii.eqb c "/" then last_component rest ""
      else last_component rest (current ++ String c "")%string
  end.

Fixpoint has_dot (s : string) : bool :=
  match s with
  | EmptyString => false
  | String c rest => Ascii.eqb c "." || has_dot rest
  end.

Fixpoint before_last_dot (s : string) : string :=
  match s with
  | EmptyString => ""
  | String c rest =>
      if Ascii.eqb c "." && negb (has_dot rest) then ""
      else String c (before_last_dot rest)
  end.

Definition stem (p : string) : string :=
  before_last_dot (last_component p "").

(** An environment given by the answers of its tools. *)
Definition make_env (writes : WriteOutcome) (populated : bool)
  (exists_at : list Event -> string -> bool) (free : Z) (copied : bool)
  (duration : option float)
  (upload : list Event -> string -> option (Z * string))
  (append : list Event -> string -> option Z) (show : string -> bool)
  : Env :=
  {| now := fun _ => "2024-01-15 14:00:00";
     write_history := fun _ _ => writes;
     write_failed := fun _ _ => writes;
     mount_populated := fun _ => populated;
     path_exists := exists_at;
     disk_free := fun _ => free;
     rclone_copy := fun _ _ _ => copied;
     ffprobe_duration := fun _ _ => duration;
     biliup_upload := fun t video _ _ _ => upload t video;
     biliup_append := fun t video _ _ => append t video;
     biliup_show := fun _ b => show b;
     path_stem := stem;
     path_join := join;
     parse_title := fun name => name |}.

Definition fresh : World :=
  {| history := []; failed := [];
     history_file := Absent; failed_file := Absent;
     stats_success := 0; stats_failed := 0; stats_skipped := 0;
     is_mounted := false; trace := [] |}.

Definition with_history (records : list HistoryRecord) : World :=
  {| history := records; failed := [];
     history_file := Document records; failed_file := Absent;
     stats_success := 0; stats_failed := 0; stats_skipped := 0;
     is_mounted := false; trace := [] |}.

Definition entry (path : string) (bytes : Z) (target : option string)
  : HistoryRecord :=
  {| file_path := Some path; file_size := Some bytes; bvid := target;
     upload_time := "2024-01-14 09:30:00"; is_split := false; parts := [] |}.

Definition GB : Z := 1024 ^ 3.

Definition task (name : string) (bytes : Z) : UploadController.VideoData :=
  {| UploadController.filename := name;
     UploadController.remote_path := join "1001-streamer" name;
     UploadController.size := bytes;
     UploadController.video_info :=
       {| UploadController.room_id := "1001";
          UploadController.title := name |};
     UploadController.streamer_name := "streamer" |}.

(** Every tool works: the mount shows every file and each upload prints an
    identifier. *)
Definition all_well : Env :=
  make_env WriteDone true (fun _ _ => true) (100 * GB) true
    (Some 3600%float)
    (fun _ _ => Some (0, "upload ok bvid:BV1xx411c7mD done"))
    (fun _ _ => Some 0) (fun _ => true).

(** A ledger of five uploads, two of which were later deleted from the
    platform. *)
Definition five_entries : list HistoryRecord :=
  [entry "1001-streamer/a.flv" (5 * GB) (Some "BV1aa");
   entry "1001-streamer/b.flv" (6 * GB) (Some "BV2bb");
   entry "1001-streamer/c.flv" (7 * GB) (Some "BV3cc");
   entry "1001-streamer/d.flv" (8 * GB) (Some "BV4dd");
   entry "1001-streamer/e.flv" (9 * GB) (Some "BV5ee")].

Definition not_deleted (b : string) : bool :=
  negb (String.eqb b "BV2bb" || String.eqb b "BV4dd").

(** The platform after the two deletions, with a ledger file that is
    written as [writes] says. *)
Definition after_deletions (writes : WriteOutcome) : Env :=
  make_env writes true (fun _ _ => true) (100 * GB) true (Some 3600%float)
    (fun _ _ => Some (0, "upload ok bvid:BV1xx411c7mD done"))
    (fun _ _ => Some 0) not_deleted.

(** No mount, and ten gigabytes free on the local disk. *)
Definition tight_disk : Env :=
  make_env WriteDone false (fun _ _ => false) (10 * GB) true
    (Some 3600%float)
    (fun _ _ => Some (0, "upload ok bvid:BV1xx411c7mD done"))
    (fun _ _ => Some 0) (fun _ => true).

(** The float nearest to 14.4. *)
Definition gb_14_4 : float := 0x1.ccccccccccccdp+3%float.

(** A recording of forty gigabytes and one hour whose second part ffmpeg
    fails to write. *)
Definition big_video : string := "/tmp/biliup/downloads/big.flv".
Definition big_splits : string := "/tmp/biliup/splits/big".

Definition second_part_missing (f : string) : bool :=
  negb (String.eqb f "/tmp/biliup/splits/big/big_part2.flv").

Definition one_part_lost : Env :=
  make_env WriteDone false (fun _ f => second_part_missing f) (100 * GB)
    true (Some 3600%float)
    (fun _ _ => Some (0, "upload ok bvid:BV1xx411c7mD done"))
    (fun _ _ => Some 0) (fun _ => true).

(** A file was written by a cut of the trace. *)
Definition was_cut (t : list Event) (f : string) : bool :=
  existsb (fun e =>
             match e with
             | EvCut _ _ _ out => String.eqb out f
             | _ => false
             end) t.

(** A disk on which a part file appears when it is cut, and not before;
    the second part of the big recording never appears. *)
Definition parts_appear_when_cut : Env :=
  make_env WriteDone false (fun t f => was_cut t f && second_part_missing f)
    (100 * GB) true (Some 3600%float)
    (fun _ _ => Some (0, "upload ok bvid:BV1xx411c7mD done"))
    (fun _ _ => Some 0) (fun _ => true).

(** The platform accepts the first part of the big recording and refuses
    the second. *)
Definition second_part_refused : Env :=
  make_env WriteDone false (fun _ _ => true) (100 * GB) true
    (Some 3600%float)
    (fun _ _ => Some (0, "upload ok bvid:BV1xx411c7mD done"))
    (fun _ f =>
       if String.eqb f "/tmp/biliup/splits/big/big_part2.flv"
       then Some 1 else Some 0)
    (fun _ => true).

Definition big_info : UploadController.VideoInfo :=
  {| UploadController.room_id := "1001";
     UploadController.title := "big" |}.

(** The mount shows every file and the platform refuses every upload. *)
Definition always_refused : Env :=
  make_env WriteDone true (fun _ _ => true) (100 * GB) true
    (Some 3600%float)
    (fun _ _ => Some (1, "upload failed"))
    (fun _ _ => Some 1) (fun _ => true).

(** The upload command ends with exit code 0 and prints no identifier. *)
Definition silent_success : Env :=
  make_env WriteDone true (fun _ _ => true) (100 * GB) true
    (Some 3600%float)
    (fun _ _ => Some (0, "upload finished"))
    (fun _ _ => Some 0) (fun _ => true).

(** The platform refuses the first two uploads and accepts the third. *)
Definition third_time_lucky : Env :=
  make_env WriteDone true (fun _ _ => true) (100 * GB) true
    (Some 3600%float)
    (fun t _ =>
       if (List.length (publish_calls t) <? 2)%nat
       then Some (1, "upload failed")
       else Some (0, "upload ok bvid:BV1xx411c7mD done"))
    (fun _ _ => Some 0) (fun _ => true).

(** The platform refuses one file and accepts the others. *)
Definition one_bad_file : Env :=
  make_env WriteDone true (fun _ _ => true) (100 * GB) true
    (Some 3600%float)
    (fun _ video =>
       if String.eqb video "/mnt/rclone/1001-streamer/bad.flv"
       then Some (1, "upload failed")
       else Some (0, "upload ok bvid:BV1xx411c7mD done"))
    (fun _ _ => Some 0) (fun _ => true).

(** A configuration that allows no attempt. *)
Definition no_attempts : Config :=
  {| max_file_size_gb := 15%float;
     split_margin_gb := 14.5%float;
     retry_times := 0;
     min_free_space_gb := 5%float;
     local_cache_path := "/tmp/biliup";
     mount_point := "/mnt/rclone" |}.

(** A configuration file with two sections. *)
Definition two_sections : ConfigFile.json :=
  ConfigFile.JObject
    [("upload",
      ConfigFile.JObject
        [("retry_times", ConfigFile.JInt 3);
         ("max_file_size_gb", ConfigFile.JInt 15)]);
     ("biliup_cli",
      ConfigFile.JObject [("proxy", ConfigFile.JNull)])].

End Scenario.

(** * Properties *)

(** ** Running the monad *)

Lemma with_events_nil (w : World) : with_events [] w = w.
Proof. destruct w; unfold with_events; simpl. now rewrite app_nil_r. Qed.

Lemma with_events_app (a b : list Event) (w : World) :
  with_events b (with_events a w) = with_events (a ++ b) w.
Proof. unfold with_events; simpl. now rewrite app_assoc. Qed.

Lemma log_event_with_events (e : Event) (w : World) :
  log_event e w = with_events [e] w.
Proof. reflexivity. Qed.

Lemma bind_ok {A B : Type} (c : M A) (k : A -> M B) (w w' : World) (a : A) :
  c w = (Ok a, w') -> bind c k w = k a w'.
Proof. intros H. unfold bind. now rewrite H. Qed.

Lemma bind_raise {A B : Type} (c : M A) (k : A -> M B) (w w' : World)
  (e : string) :
  c w = (Raise e, w') -> bind c k w = (Raise e, w').
Proof. intros H. unfold bind. now rewrite H. Qed.

(** ** The ledger *)

Section Ledger.

Variable env : Env.

Lemma same_fingerprint_own (path : string) (bytes : Z) (target : option string)
  (stamp : string) (split : bool) (segments : list string) :
  UploadHistory.same_fingerprint path bytes
    {| file_path := Some path; file_size := Some bytes; bvid := target;
       upload_time := stamp; is_split := split; parts := segments |} = true.
Proof.
  unfold UploadHistory.same_fingerprint; simpl.
  now rewrite String.eqb_refl, Z.eqb_refl.
Qed.

Lemma is_uploaded_app (records : list HistoryRecord) (record : HistoryRecord)
  (path : string) (bytes : Z) :
  UploadHistory.is_uploaded (records ++ [record]) path bytes =
  UploadHistory.is_uploaded records path bytes
  || UploadHistory.same_fingerprint path bytes record.
Proof.
  induction records as [|r rest IH]; simpl.
  - now destruct (UploadHistory.same_fingerprint path bytes record).
  - destruct (UploadHistory.same_fingerprint path bytes r); auto.
Qed.

Lemma is_uploaded_occurrences (records : list HistoryRecord) (path : string)
  (bytes : Z) :
  UploadHistory.is_uploaded records path bytes = false <->
  occurrences records path bytes = 0%nat.
Proof.
  unfold occurrences.
  induction records as [|r rest IH]; simpl.
  - tauto.
  - destruct (UploadHistory.same_fingerprint path bytes r); simpl.
    + split; discriminate.
    + exact IH.
Qed.

Lemma occurrences_app (records : list HistoryRecord) (record : HistoryRecord)
  (path : string) (bytes : Z) :
  occurrences (records ++ [record]) path bytes =
  (occurrences records path bytes
   + if UploadHistory.same_fingerprint path bytes record then 1 else 0)%nat.
Proof.
  unfold occurrences. rewrite filter_app, length_app. simpl.
  now destruct (UploadHistory.same_fingerprint path bytes record).
Qed.

Lemma same_fingerprint_inj (record : HistoryRecord) (p q : string)
  (a b : Z) :
  UploadHistory.same_fingerprint p a record = true ->
  UploadHistory.same_fingerprint q b record = true ->
  p = q /\ a = b.
Proof.
  unfold UploadHistory.same_fingerprint.
  destruct (file_path record) as [x|]; [|discriminate].
  destruct (file_size record) as [y|]; [|discriminate].
  intros H1 H2.
  apply andb_true_iff in H1 as [H1 H1']. apply andb_true_iff in H2 as [H2 H2'].
  apply String.eqb_eq in H1, H2. apply Z.eqb_eq in H1', H2'.
  split; congruence.
Qed.

Lemma add_success_run (w : World) (path : string) (bytes : Z)
  (target : option string) (split : bool) (segments : option (list string)) :
  let records :=
    history w ++ [success_record env w path bytes target split segments] in
  let o := write_history env (trace w) records in
  UploadHistory.add_success env path bytes target split segments w =
  (Ok tt,
   log_event (EvWriteHistory records o)
     (set_history_file (apply_write (history_file w) records o)
        (set_history records w))).
Proof. reflexivity. Qed.

Lemma _save_history_run (w : World) :
  let o := write_history env (trace w) (history w) in
  UploadHistory._save_history env w =
  (Ok tt,
   log_event (EvWriteHistory (history w) o)
     (set_history_file (apply_write (history_file w) (history w) o) w)).
Proof. reflexivity. Qed.

Lemma add_success_history (w : World) (path : string) (bytes : Z)
  (target : option string) (split : bool) (segments : option (list string)) :
  history
    (snd (UploadHistory.add_success env path bytes target split segments w))
  = history w ++ [success_record env w path bytes target split segments].
Proof. reflexivity. Qed.

Lemma add_failed_run (w : World) (path message : string) :
  let records :=
    failed w ++ [{| failed_file_path := path; error_msg := message;
                    failed_time := now env (trace w) |}] in
  let o := write_failed env (trace w) records in
  UploadHistory.add_failed env path message w =
  (Ok tt,
   log_event (EvWriteFailed records o)
     (set_failed_file (apply_write (failed_file w) records o)
        (set_failed records w))).
Proof. reflexivity. Qed.

Lemma unique_after_add (w : World) (path : string) (bytes : Z)
  (target : option string) (split : bool) (segments : option (list string)) :
  unique_fingerprints (history w) ->
  UploadHistory.is_uploaded (history w) path bytes = false ->
  unique_fingerprints
    (history w ++ [success_record env w path bytes target split segments]).
Proof.
  intros Huniq Hnew p b. rewrite occurrences_app.
  destruct (UploadHistory.same_fingerprint p b _) eqn:E.
  - pose proof (same_fingerprint_own path bytes target (now env (trace w))
                  split (Py.or_list segments)) as Hown.
    destruct (same_fingerprint_inj _ _ _ _ _ E Hown) as [-> ->].
    apply is_uploaded_occurrences in Hnew. rewrite Hnew. simpl. lia.
  - specialize (Huniq p b). lia.
Qed.

Lemma listed_not_uploaded (records : list HistoryRecord)
  (folder room streamer : string) (sizes : list (string * Z))
  (selected : list string) (v : UploadController.VideoData) :
  In v (UploadController._get_videos_to_upload env records folder room
          streamer sizes selected) ->
  UploadHistory.is_uploaded records (UploadController.remote_path v)
    (UploadController.size v) = false.
Proof.
  induction selected as [|video rest IH]; simpl; [tauto|].
  match goal with
  | |- In _ (if ?c then _ else _) -> _ => destruct c eqn:E
  end; [exact IH|].
  intros [<-|Hin]; [exact E|now apply IH].
Qed.

End Ledger.

(** C1 (amended).  After [add_success(path, size, ...)] the call
    [is_uploaded(path, size)] answers true.  [add_success] appends exactly
    one record and never looks for the fingerprint first: the success log
    stays free of repeated fingerprints when the fingerprint is added only
    while [is_uploaded] answers false for it, which is what the list handed
    to a batch guarantees when it is built, since [_get_videos_to_upload]
    leaves out every file whose pair is already in the history. *)
Theorem add_success_then_uploaded (env : Env) (w : World) (path : string)
  (bytes : Z) (target : option string) (split : bool)
  (segments : option (list string)) :
  let w' :=
    snd (UploadHistory.add_success env path bytes target split segments w) in
  UploadHistory.is_uploaded (history w') path bytes = true
  /\ List.length (history w') = S (List.length (history w))
  /\ (unique_fingerprints (history w) ->
      UploadHistory.is_uploaded (history w) path bytes = false ->
      unique_fingerprints (history w'))
  /\ (forall folder room streamer sizes selected v,
        In v (UploadController._get_videos_to_upload env (history w) folder
                room streamer sizes selected) ->
        UploadHistory.is_uploaded (history w)
          (UploadController.remote_path v) (UploadController.size v)
        = false).
Proof.
  intros w'. subst w'. rewrite add_success_history.
  repeat split.
  - rewrite is_uploaded_app. unfold success_record.
    rewrite same_fingerprint_own. apply orb_true_r.
  - rewrite length_app. simpl. lia.
  - apply unique_after_add.
  - intros folder room streamer sizes selected v.
    apply listed_not_uploaded.
Qed.

Lemma add_success_then_uploaded_witness :
  let w' :=
    snd (UploadHistory.add_success Scenario.all_well "1001-streamer/a.flv"
           (5 * Scenario.GB) (Some "BV1xx411c7mD") false None
           Scenario.fresh) in
  UploadHistory.is_uploaded (history w') "1001-streamer/a.flv"
    (5 * Scenario.GB) = true
  /\ unique_fingerprints (history w').
Proof.
  destruct (add_success_then_uploaded Scenario.all_well Scenario.fresh
              "1001-streamer/a.flv" (5 * Scenario.GB) (Some "BV1xx411c7mD")
              false None) as (H1 & _ & H3 & _).
  split.
  - exact H1.
  - apply H3.
    + intros p b. apply le_S, le_n.
    + reflexivity.
Defined.

(** C1 as stated fails: a batch that holds the same (path, size) pair twice,
    with both uploads succeeding, leaves two success records with that
    fingerprint, publishes twice and counts nothing as skipped. *)
Lemma same_pair_twice_recorded_twice :
  let v := Scenario.task "a.flv" (5 * Scenario.GB) in
  let w :=
    snd (UploadController._batch_upload_videos Scenario.all_well
           Scenario.default_config "1001-streamer" [v; v] "new" None "1"
           Scenario.fresh) in
  occurrences (history w) (UploadController.remote_path v)
    (UploadController.size v) = 2%nat
  /\ ~ unique_fingerprints (history w)
  /\ List.length (publish_calls (trace w)) = 2%nat
  /\ stats_success w = 2
  /\ stats_skipped w = 0.
Proof.
  assert (H : occurrences
                (history
                   (snd (UploadController._batch_upload_videos
                           Scenario.all_well Scenario.default_config
                           "1001-streamer"
                           [Scenario.task "a.flv" (5 * Scenario.GB);
                            Scenario.task "a.flv" (5 * Scenario.GB)]
                           "new" None "1" Scenario.fresh)))
                "1001-streamer/a.flv" (5 * Scenario.GB) = 2%nat)
    by (vm_compute; reflexivity).
  cbv zeta. split; [exact H|]. split.
  - intros U.
    specialize (U "1001-streamer/a.flv" (5 * Scenario.GB)).
    rewrite H in U. lia.
  - split; [|split]; vm_compute; reflexivity.
Qed.

(** ** Revalidation *)

Section Revalidation.

Variable env : Env.
Variable exists_remote : string -> bool.
Hypothesis show_answers : forall t b, biliup_show env t b = exists_remote b.

Lemma validate_bvid_run (b : string) (w : World) :
  Py.truthy (Some b) = true ->
  BilibiliUploader.validate_bvid env b w =
  (Ok (exists_remote b), with_events [EvShow b (exists_remote b)] w).
Proof.
  intros Hb. unfold BilibiliUploader.validate_bvid. rewrite Hb. simpl.
  unfold bind, get, emit, modify, ret. now rewrite show_answers.
Qed.

Lemma sort_records_run (records : list HistoryRecord) :
  forall (checked : Z) (valid invalid : list HistoryRecord) (w : World),
    UploadHistory.sort_records (BilibiliUploader.validate_bvid env) records
      checked valid invalid w =
    (Ok (checked + Z.of_nat (List.length records),
         valid ++ filter (still_valid exists_remote) records,
         invalid ++ filter (no_longer_valid exists_remote) records),
     with_events (existence_checks exists_remote records) w).
Proof.
  induction records as [|record rest IH]; intros checked valid invalid w.
  - simpl. unfold ret.
    now rewrite Z.add_0_r, !app_nil_r, with_events_nil.
  - cbn [UploadHistory.sort_records existence_checks filter List.length].
    unfold no_longer_valid, still_valid.
    replace (checked + Z.of_nat (S (List.length rest)))
      with (checked + 1 + Z.of_nat (List.length rest)) by lia.
    destruct (bvid record) as [b|].
    + destruct (Py.truthy (Some b)) eqn:Hb.
      * cbn [negb andb].
        erewrite bind_ok by (apply validate_bvid_run; exact Hb).
        destruct (exists_remote b); cbn [negb]; rewrite IH;
          rewrite with_events_app, <- ?app_assoc; reflexivity.
      * cbn [negb andb]. rewrite IH, <- app_assoc. reflexivity.
    + cbn [negb]. rewrite IH, <- app_assoc. reflexivity.
Qed.

Lemma record_removals_run (records : list HistoryRecord) :
  forall w : World,
  exists w',
    for_each records
      (fun record =>
         UploadHistory.add_failed env (UploadHistory.removal_path record)
           (UploadHistory.removal_message record)) w = (Ok tt, w')
    /\ history w' = history w
    /\ history_file w' = history_file w
    /\ map notice (failed w') =
       map notice (failed w)
       ++ map (fun record =>
                 (UploadHistory.removal_path record,
                  UploadHistory.removal_message record)) records
    /\ (forall e, In e (trace w) -> In e (trace w')).
Proof.
  induction records as [|record rest IH]; intros w.
  - exists w. simpl. rewrite app_nil_r. repeat split; auto.
  - cbn [for_each].
    erewrite bind_ok by apply add_failed_run.
    match goal with
    | |- context [for_each rest _ ?w1] =>
        destruct (IH w1) as (w' & Hrun & Hh & Hf & Hn & Ht)
    end.
    exists w'. split; [exact Hrun|].
    split; [rewrite Hh; reflexivity|].
    split; [rewrite Hf; reflexivity|].
    split.
    + rewrite Hn. cbn [failed log_event set_failed_file set_failed].
      rewrite map_app, <- app_assoc. reflexivity.
    + intros e He. apply Ht. cbn [trace log_event set_failed_file set_failed].
      apply in_or_app. now left.
Qed.

(** What one revalidation does to the world. *)
Lemma prune_invalid_records_run (w : World) :
  let kept := filter (still_valid exists_remote) (history w) in
  let removed := filter (no_longer_valid exists_remote) (history w) in
  let o :=
    write_history env
      (trace w ++ existence_checks exists_remote (history w)) kept in
  exists w',
    UploadHistory.prune_invalid_records env
      (BilibiliUploader.validate_bvid env) w =
    (Ok (Z.of_nat (List.length (history w)),
         Z.of_nat (List.length removed)), w')
    /\ history w' = kept
    /\ map notice (failed w') =
       map notice (failed w)
       ++ map (fun record =>
                 (UploadHistory.removal_path record,
                  UploadHistory.removal_message record)) removed
    /\ history_file w' =
       match removed with
       | [] => history_file w
       | _ :: _ => apply_write (history_file w) kept o
       end
    /\ (removed <> [] -> In (EvWriteHistory kept o) (trace w')).
Proof.
  intros kept removed o.
  unfold UploadHistory.prune_invalid_records.
  unfold bind at 1. unfold get at 1.
  erewrite bind_ok by apply sort_records_run.
  cbn [app]. rewrite Z.add_0_l.
  fold kept. fold removed.
  destruct removed as [|r0 removed'] eqn:Hremoved.
  - eexists. split; [reflexivity|].
    cbn [history failed history_file with_events map].
    rewrite app_nil_r.
    split; [|split; [reflexivity|split; [reflexivity|congruence]]].
    subst kept. symmetry. apply forallb_filter_id.
    apply forallb_forall. intros r Hr.
    destruct (still_valid exists_remote r) eqn:E; [reflexivity|].
    assert (In r (filter (no_longer_valid exists_remote) (history w))).
    { apply filter_In. split; [exact Hr|].
      unfold no_longer_valid. now rewrite E. }
    unfold removed in Hremoved. rewrite Hremoved in H. destruct H.
  - unfold bind at 1. unfold modify at 1.
    erewrite bind_ok by apply _save_history_run.
    match goal with
    | |- context [bind (for_each _ _) _ ?w1] =>
        destruct (record_removals_run (r0 :: removed') w1)
          as (w' & Hrun & Hh & Hf & Hn & Ht)
    end.
    exists w'. erewrite bind_ok by exact Hrun. unfold ret.
    split; [reflexivity|].
    split; [rewrite Hh; reflexivity|].
    split; [rewrite Hn; reflexivity|].
    split; [rewrite Hf; reflexivity|].
    intros _. apply Ht.
    cbn [trace log_event set_history_file set_history with_events].
    apply in_or_app. right. left. reflexivity.
Qed.

End Revalidation.

Lemma nothing_removed_all_kept (exists_remote : string -> bool)
  (records : list HistoryRecord) :
  filter (no_longer_valid exists_remote) records = [] ->
  filter (still_valid exists_remote) records = records.
Proof.
  unfold no_longer_valid.
  induction records as [|r rest IH]; simpl; [reflexivity|].
  destruct (still_valid exists_remote r); simpl; [|discriminate].
  intros H. now rewrite IH.
Qed.

(** C5.  Revalidation looks at every success record: the first number it
    returns is the size of the log.  It removes exactly the records whose
    identifier the existence check rejects or that have no identifier, the
    second number is how many those are, and each of them leaves one failure
    record, in order, after the failures already recorded. *)
Theorem prune_invalid_records_spec (env : Env)
  (exists_remote : string -> bool) (w : World) :
  (forall t b, biliup_show env t b = exists_remote b) ->
  let run :=
    UploadHistory.prune_invalid_records env
      (BilibiliUploader.validate_bvid env) w in
  let removed := filter (no_longer_valid exists_remote) (history w) in
  fst run =
    Ok (Z.of_nat (List.length (history w)), Z.of_nat (List.length removed))
  /\ history (snd run) = filter (still_valid exists_remote) (history w)
  /\ map notice (failed (snd run)) =
     map notice (failed w)
     ++ map (fun record =>
               (UploadHistory.removal_path record,
                UploadHistory.removal_message record)) removed
  /\ List.length (failed (snd run)) =
     (List.length (failed w) + List.length removed)%nat.
Proof.
  intros Hshow run removed.
  destruct (prune_invalid_records_run env exists_remote Hshow w)
    as (w' & Hrun & Hh & Hn & _).
  subst run. rewrite Hrun. cbn [fst snd].
  split; [reflexivity|]. split; [exact Hh|]. split; [exact Hn|].
  apply (f_equal (@List.length _)) in Hn.
  now rewrite length_app, !length_map in Hn.
Qed.

Lemma prune_invalid_records_spec_witness :
  let env := Scenario.after_deletions WriteDone in
  let run :=
    UploadHistory.prune_invalid_records env
      (BilibiliUploader.validate_bvid env)
      (Scenario.with_history Scenario.five_entries) in
  (forall t b, biliup_show env t b = Scenario.not_deleted b)
  /\ fst run = Ok (5, 2)
  /\ List.length (history (snd run)) = 3%nat
  /\ List.length (failed (snd run)) = 2%nat.
Proof.
  cbv zeta.
  assert (Hshow : forall t b,
             biliup_show (Scenario.after_deletions WriteDone) t b
             = Scenario.not_deleted b)
    by (intros t b; reflexivity).
  destruct (prune_invalid_records_spec (Scenario.after_deletions WriteDone)
              Scenario.not_deleted
              (Scenario.with_history Scenario.five_entries) Hshow)
    as (H1 & H2 & _ & H4).
  split; [exact Hshow|].
  split; [exact H1|].
  split; [rewrite H2; reflexivity|exact H4].
Defined.

(** C4 (amended).  Every change of the success log first changes the list in
    memory and then attempts one rewrite of the history file, in place, with
    the whole new list: [add_success] always does, revalidation does when it
    removes at least one record, and a revalidation that removes nothing
    writes nothing.  The outcome of the write does not change the list in
    memory: after revalidation it is the valid subset, and the file is what
    the write left of it (the new list when the dump completes, the old
    content when the file cannot be opened, a truncated file when the dump
    is interrupted). *)
Theorem ledger_rewritten_in_place (env : Env)
  (exists_remote : string -> bool) (w : World) :
  (forall t b, biliup_show env t b = exists_remote b) ->
  (forall path bytes target split segments,
     let w' :=
       snd (UploadHistory.add_success env path bytes target split segments
              w) in
     let o := write_history env (trace w) (history w') in
     history w' =
       history w ++ [success_record env w path bytes target split segments]
     /\ history_file w' = apply_write (history_file w) (history w') o
     /\ trace w' = trace w ++ [EvWriteHistory (history w') o])
  /\ (let w' :=
        snd (UploadHistory.prune_invalid_records env
               (BilibiliUploader.validate_bvid env) w) in
      let kept := filter (still_valid exists_remote) (history w) in
      let removed := filter (no_longer_valid exists_remote) (history w) in
      let o :=
        write_history env
          (trace w ++ existence_checks exists_remote (history w)) kept in
      history w' = kept
      /\ (removed = [] ->
          history w' = history w /\ history_file w' = history_file w)
      /\ (removed <> [] ->
          history_file w' = apply_write (history_file w) kept o
          /\ In (EvWriteHistory kept o) (trace w'))).
Proof.
  intros Hshow. split.
  - intros path bytes target split segments w' o. subst w' o.
    rewrite add_success_run. cbn [snd]. repeat split.
  - intros w' kept removed o.
    destruct (prune_invalid_records_run env exists_remote Hshow w)
      as (w1 & Hrun & Hh & _ & Hf & Ht).
    subst w'. rewrite Hrun. cbn [snd].
    split; [exact Hh|]. split.
    + intros Hnone. fold removed in Hf. rewrite Hnone in Hf.
      split; [|exact Hf].
      rewrite Hh. now apply nothing_removed_all_kept.
    + intros Hsome. split; [|now apply Ht].
      fold removed in Hf. destruct removed; [congruence|exact Hf].
Qed.

Lemma ledger_rewritten_in_place_witness :
  let env := Scenario.after_deletions DumpInterrupted in
  let w := Scenario.with_history Scenario.five_entries in
  let w' :=
    snd (UploadHistory.prune_invalid_records env
           (BilibiliUploader.validate_bvid env) w) in
  (forall t b, biliup_show env t b = Scenario.not_deleted b)
  /\ List.length (history w') = 3%nat
  /\ history_file w' = Garbled.
Proof.
  cbv zeta.
  assert (Hshow : forall t b,
             biliup_show (Scenario.after_deletions DumpInterrupted) t b
             = Scenario.not_deleted b)
    by (intros t b; reflexivity).
  destruct (ledger_rewritten_in_place
              (Scenario.after_deletions DumpInterrupted) Scenario.not_deleted
              (Scenario.with_history Scenario.five_entries) Hshow)
    as (_ & Hh & _ & Hsome).
  split; [exact Hshow|].
  split; [rewrite Hh; reflexivity|].
  destruct Hsome as [Hf _]; [discriminate|].
  rewrite Hf. reflexivity.
Defined.

(** C4 as stated fails.  When the dump is interrupted, revalidation leaves
    the valid subset in memory and a truncated file: the log is neither
    rewritten whole nor left as it was.  When the file cannot be opened, the
    file keeps the old list while the list in memory has already changed. *)
Lemma revalidation_not_atomic :
  let w := Scenario.with_history Scenario.five_entries in
  let kept := filter (still_valid Scenario.not_deleted) (history w) in
  let cut :=
    snd (UploadHistory.prune_invalid_records
           (Scenario.after_deletions DumpInterrupted)
           (BilibiliUploader.validate_bvid
              (Scenario.after_deletions DumpInterrupted)) w) in
  let shut :=
    snd (UploadHistory.prune_invalid_records
           (Scenario.after_deletions OpenRefused)
           (BilibiliUploader.validate_bvid
              (Scenario.after_deletions OpenRefused)) w) in
  ~ ((history cut = kept /\ history_file cut = Document kept)
     \/ (history cut = history w /\ history_file cut = history_file w))
  /\ history_file cut = Garbled
  /\ ~ ((history shut = kept /\ history_file shut = Document kept)
        \/ (history shut = history w /\ history_file shut = history_file w))
  /\ history shut = kept
  /\ history_file shut = Document (history w).
Proof.
  cbv zeta. split; [|split; [|split; [|split]]].
  - intros [[_ H]|[H _]]; vm_compute in H; discriminate.
  - vm_compute; reflexivity.
  - intros [[_ H]|[H _]]; vm_compute in H; discriminate.
  - vm_compute; reflexivity.
  - vm_compute; reflexivity.
Qed.

(** ** The path resolver *)

Lemma skipn_length_app {A : Type} (l r : list A) :
  skipn (List.length l) (l ++ r) = r.
Proof.
  rewrite skipn_app, skipn_all, Nat.sub_diag. reflexivity.
Qed.

Lemma steps_events_since (w w' : World) (evs : list Event) :
  steps w w' evs -> events_since w w' = evs.
Proof.
  intros [_ Ht]. unfold events_since. rewrite Ht. apply skipn_length_app.
Qed.

Lemma steps_refl (w : World) : steps w w [].
Proof.
  unfold steps, same_logs. rewrite app_nil_r. repeat split.
Qed.

Lemma steps_trans (w1 w2 w3 : World) (a b : list Event) :
  steps w1 w2 a -> steps w2 w3 b -> steps w1 w3 (a ++ b).
Proof.
  unfold steps, same_logs.
  intros [(H1 & H2 & H3 & H4 & H5 & H6 & H7) Ha]
         [(K1 & K2 & K3 & K4 & K5 & K6 & K7) Hb].
  rewrite Hb, Ha, app_assoc.
  repeat split; congruence.
Qed.

Lemma steps_log_event (w : World) (e : Event) : steps w (log_event e w) [e].
Proof. unfold steps, same_logs. repeat split. Qed.

Lemma steps_set_is_mounted (w w' : World) (evs : list Event) (b : bool) :
  steps w w' evs -> steps w (set_is_mounted b w') evs.
Proof. unfold steps, same_logs. tauto. Qed.

Create HintDb steps.
#[local] Hint Resolve steps_refl steps_log_event steps_set_is_mounted
  : steps.

Section PathResolver.

Variable env : Env.
Variable cfg : Config.

Lemma mounted_copy_run (path name : string) (needs_split : bool) (w : World) :
  exists m w1 evs,
    UploadController.mounted_copy env cfg path name needs_split w
    = (Ok m, w1)
    /\ steps w w1 evs
    /\ (evs = [] \/ exists b, evs = [EvMount b])
    /\ (needs_split = true -> m = None).
Proof.
  unfold UploadController.mounted_copy, RcloneManager.mount,
    RcloneManager.get_mounted_path, bind, get, emit, modify, ret.
  destruct needs_split; cbn [negb].
  - exists None, w, []. auto with steps.
  - destruct (is_mounted w) eqn:Hm; cbn [negb].
    + rewrite !Hm. cbn [negb].
      destruct (path_exists env (trace w) _); rewrite ?Hm; cbn [negb];
        eexists _, w, []; (split; [reflexivity|]);
        (split; [auto with steps|]); (split; [now left|discriminate]).
    + rewrite Hm.
      destruct (mount_populated env (trace w)) eqn:Hp;
        cbn [is_mounted set_is_mounted log_event negb trace].
      * destruct (path_exists env _ _);
          eexists _, _, [EvMount true]; (split; [reflexivity|]);
          (split; [auto with steps|]);
          (split; [right; now exists true|discriminate]).
      * rewrite Hm.
        eexists _, _, [EvMount false]. split; [reflexivity|].
        split; [auto with steps|].
        split; [right; now exists false|discriminate].
Qed.

Lemma local_copy_run (path name : string) (bytes : Z) (w : World) :
  let free := disk_free env (trace w) in
  if Py.int_lt_float (free - bytes) (UploadController.min_free cfg)
  then exists w1,
         UploadController.local_copy env cfg path name bytes w
         = (Ok None, w1)
         /\ steps w w1 [EvDiskUsage free]
  else exists w1 (ok : bool),
         UploadController.local_copy env cfg path name bytes w
         = (Ok (if ok then Some (cache_file env cfg name) else None), w1)
         /\ steps w w1
              [EvDiskUsage free; EvDownload path (cache_file env cfg name) ok].
Proof.
  intros free.
  unfold UploadController.local_copy, RcloneManager.download_file,
    bind, get, emit, modify, ret.
  fold free.
  destruct (Py.int_lt_float (free - bytes) (UploadController.min_free cfg)).
  - eexists. split; [reflexivity|]. auto with steps.
  - cbn [trace log_event]. fold (cache_file env cfg name).
    set (ok := rclone_copy env (trace w ++ [EvDiskUsage free]) path
                 (cache_file env cfg name)).
    exists (log_event (EvDownload path (cache_file env cfg name) ok)
              (log_event (EvDiskUsage free) w)), ok.
    split.
    + destruct ok; reflexivity.
    + unfold steps, same_logs. cbn. rewrite <- app_assoc. repeat split.
Qed.

End PathResolver.

Lemma mounted_copy_exact (env : Env) (cfg : Config) (path name : string)
  (needs_split : bool) (w : World) :
  let p :=
    path_join env
      (path_join env (mount_point cfg)
         (UploadController.first_component path)) name in
  let mount_evs :=
    if needs_split || is_mounted w then []
    else [EvMount (mount_populated env (trace w))] in
  exists w1,
    UploadController.mounted_copy env cfg path name needs_split w
    = (Ok (if negb needs_split
              && (is_mounted w || mount_populated env (trace w))
              && path_exists env (trace w ++ mount_evs) p
           then Some p else None), w1)
    /\ trace w1 = trace w ++ mount_evs.
Proof.
  intros p mount_evs. subst mount_evs.
  unfold UploadController.mounted_copy, RcloneManager.mount,
    RcloneManager.get_mounted_path, bind, get, emit, modify, ret.
  fold p.
  destruct needs_split; cbn [negb andb orb].
  - exists w. now rewrite app_nil_r.
  - destruct (is_mounted w) eqn:Hm; cbn [negb andb orb].
    + rewrite !Hm. cbn [negb]. rewrite app_nil_r.
      exists w. split; [|reflexivity].
      now destruct (path_exists env (trace w) p).
    + rewrite Hm.
      destruct (mount_populated env (trace w)) eqn:Hp;
        cbn [is_mounted set_is_mounted log_event negb trace andb].
      * exists (set_is_mounted true (log_event (EvMount true) w)).
        split; [|reflexivity].
        now destruct (path_exists env (trace w ++ [EvMount true]) p).
      * rewrite Hm. exists (log_event (EvMount false) w).
        split; reflexivity.
Qed.

Lemma local_copy_exact (env : Env) (cfg : Config) (path name : string)
  (bytes : Z) (w : World) :
  let free := disk_free env (trace w) in
  let short :=
    Py.int_lt_float (free - bytes) (UploadController.min_free cfg) in
  let local := cache_file env cfg name in
  let ok := rclone_copy env (trace w ++ [EvDiskUsage free]) path local in
  let run := UploadController.local_copy env cfg path name bytes w in
  fst run = Ok (if short then None else if ok then Some local else None)
  /\ trace (snd run)
     = trace w
       ++ EvDiskUsage free
          :: (if short then [] else [EvDownload path local ok]).
Proof.
  intros free short local ok run. subst run.
  unfold UploadController.local_copy, RcloneManager.download_file,
    bind, get, emit, modify, ret.
  fold free. fold short.
  destruct short.
  - split; reflexivity.
  - cbn [trace log_event]. fold (cache_file env cfg name).
    fold local. fold ok.
    destruct ok; cbn [fst snd trace log_event]; rewrite <- app_assoc;
      split; reflexivity.
Qed.

(** C6.  The resolver ends in one of three ways, and what it finds decides
    which.  A task that needs no split and whose file shows under the mount
    point is served from there: nothing is measured, nothing is downloaded.
    In every other case (a task to split is always one) a local copy is
    needed: the resolver measures the free space, once and before anything
    else, and gives up exactly when the free space minus the size of the
    file is below the configured floor, returning no path and starting no
    download; otherwise it starts exactly one download, right after the
    measure.  So no download is ever started that the measure did not come
    just before, with room enough for the file and the floor. *)
Theorem disk_space_guard (env : Env) (cfg : Config) (path name : string)
  (bytes : Z) (needs_split : bool) (w : World) :
  let run :=
    UploadController._get_video_path env cfg path name bytes needs_split w in
  let evs := events_since w (snd run) in
  let p :=
    path_join env
      (path_join env (mount_point cfg)
         (UploadController.first_component path)) name in
  let local := cache_file env cfg name in
  let mount_evs :=
    if needs_split || is_mounted w then []
    else [EvMount (mount_populated env (trace w))] in
  let t := trace w ++ mount_evs in
  let served :=
    negb needs_split
    && (is_mounted w || mount_populated env (trace w))
    && path_exists env t p && Py.truthy (Some p) in
  let free := disk_free env t in
  let short :=
    Py.int_lt_float (free - bytes) (UploadController.min_free cfg) in
  let ok := rclone_copy env (t ++ [EvDiskUsage free]) path local in
  (if served then evs = mount_evs /\ fst run = Ok (Some p)
   else if short then
     evs = mount_evs ++ [EvDiskUsage free] /\ fst run = Ok None
   else
     evs = mount_evs ++ [EvDiskUsage free; EvDownload path local ok]
     /\ fst run = Ok (if ok then Some local else None))
  /\ (forall before src dst copied after,
        evs = before ++ EvDownload src dst copied :: after ->
        served = false /\ short = false
        /\ before = mount_evs ++ [EvDiskUsage free] /\ after = []).
Proof.
  intros run evs p local mount_evs t served free short ok.
  assert (Hcase :
            if served then evs = mount_evs /\ fst run = Ok (Some p)
            else if short then
              evs = mount_evs ++ [EvDiskUsage free] /\ fst run = Ok None
            else
              evs = mount_evs ++ [EvDiskUsage free; EvDownload path local ok]
              /\ fst run = Ok (if ok then Some local else None)).
  { destruct (mounted_copy_exact env cfg path name needs_split w)
      as (w1 & Hrun & Htrace).
    fold p mount_evs in Hrun, Htrace. fold t in Hrun, Htrace.
    set (c := negb needs_split
              && (is_mounted w || mount_populated env (trace w))
              && path_exists env t p) in Hrun.
    assert (Hserved : served = c && Py.truthy (Some p)) by reflexivity.
    assert (Hlocal :
              Py.truthy (if c then Some p else None) = false ->
              served = false ->
              if served then evs = mount_evs /\ fst run = Ok (Some p)
              else if short then
                evs = mount_evs ++ [EvDiskUsage free] /\ fst run = Ok None
              else
                evs = mount_evs
                      ++ [EvDiskUsage free; EvDownload path local ok]
                /\ fst run = Ok (if ok then Some local else None)).
    { intros Hm ->. subst run evs.
      unfold UploadController._get_video_path.
      erewrite bind_ok by exact Hrun. rewrite Hm.
      destruct (local_copy_exact env cfg path name bytes w1)
        as [Hret Hevs].
      rewrite Htrace in Hret, Hevs.
      fold free in Hret, Hevs. fold short in Hret, Hevs.
      fold local in Hret, Hevs. fold ok in Hret, Hevs.
      unfold events_since. rewrite Hevs, Hret.
      destruct short; unfold t; rewrite <- app_assoc, skipn_length_app;
        split; reflexivity. }
    destruct c eqn:Hc.
    - destruct (Py.truthy (Some p)) eqn:Ht.
      + rewrite Hserved. cbn [andb]. subst run evs.
        unfold UploadController._get_video_path.
        erewrite bind_ok by exact Hrun. rewrite Ht.
        unfold ret, events_since. cbn [fst snd]. rewrite Htrace.
        unfold t. rewrite skipn_length_app. split; reflexivity.
      + apply Hlocal; [reflexivity|]. rewrite Hserved. reflexivity.
    - apply Hlocal; [reflexivity|]. rewrite Hserved. reflexivity. }
  split; [exact Hcase|].
  intros before src dst copied after Hevs.
  assert (Hmount : filter is_download mount_evs = [])
    by (subst mount_evs; now destruct (needs_split || is_mounted w)).
  assert (Hcount : filter is_download evs
                   = filter is_download before
                     ++ EvDownload src dst copied :: filter is_download after)
    by (rewrite Hevs, filter_app; reflexivity).
  destruct served.
  - destruct Hcase as [He _]. rewrite He, Hmount in Hcount.
    now destruct (filter is_download before).
  - destruct short.
    + destruct Hcase as [He _].
      rewrite He, filter_app, Hmount in Hcount.
      now destruct (filter is_download before).
    + destruct Hcase as [He _]. split; [reflexivity|]. split; [reflexivity|].
      rewrite He in Hevs.
      change (mount_evs ++ [EvDiskUsage free; EvDownload path local ok])
        with (mount_evs ++ [EvDiskUsage free] ++ [EvDownload path local ok])
        in Hevs.
      rewrite app_assoc in Hevs.
      change (before ++ EvDownload src dst copied :: after)
        with (before ++ [EvDownload src dst copied] ++ after) in Hevs.
      destruct after as [|e after].
      * rewrite app_nil_r in Hevs.
        apply app_inj_tail in Hevs as [Hb _]. now split.
      * exfalso.
        assert (Hlen : List.length
                         (filter is_download
                            ((mount_evs ++ [EvDiskUsage free])
                             ++ [EvDownload path local ok]))
                       = 1%nat).
        { rewrite !filter_app, Hmount. reflexivity. }
        rewrite Hevs in Hlen.
        rewrite !filter_app in Hlen. cbn [filter is_download] in Hlen.
        rewrite !length_app in Hlen. cbn [List.length] in Hlen.
        assert (Hlast : exists e' rest, e :: after = rest ++ [e']).
        { exists (last (e :: after) e), (removelast (e :: after)).
          apply app_removelast_last. discriminate. }
        destruct Hlast as (e' & rest & Hrest).
        rewrite Hrest in Hevs.
        change (before ++ [EvDownload src dst copied] ++ rest ++ [e'])
          with (before ++ ([EvDownload src dst copied] ++ rest) ++ [e'])
          in Hevs.
        rewrite app_assoc in Hevs.
        apply app_inj_tail in Hevs as [Hb He'].
        assert (Hin : In (EvDownload src dst copied)
                        (mount_evs ++ [EvDiskUsage free])).
        { rewrite Hb. apply in_or_app. right. now left. }
        apply in_app_or in Hin as [Hin|[Hin|[]]]; [|discriminate].
        subst mount_evs.
        destruct (needs_split || is_mounted w); [destruct Hin|].
        destruct Hin as [Hin|[]]. discriminate.
Qed.

Lemma disk_space_guard_witness :
  let run :=
    UploadController._get_video_path Scenario.tight_disk
      Scenario.default_config "1001-streamer/a.flv" "a.flv"
      (8 * Scenario.GB) false Scenario.fresh in
  let evs := events_since Scenario.fresh (snd run) in
  Py.int_lt_float (10 * Scenario.GB - 8 * Scenario.GB)
    (UploadController.min_free Scenario.default_config) = true
  /\ evs = [EvMount false; EvDiskUsage (10 * Scenario.GB)]
  /\ fst run = Ok None
  /\ filter is_download evs = [].
Proof.
  cbv zeta.
  assert (Hlt : Py.int_lt_float (10 * Scenario.GB - 8 * Scenario.GB)
                  (UploadController.min_free Scenario.default_config) = true)
    by (vm_compute; reflexivity).
  destruct (disk_space_guard Scenario.tight_disk Scenario.default_config
              "1001-streamer/a.flv" "a.flv" (8 * Scenario.GB) false
              Scenario.fresh) as [Hcase _].
  cbv zeta in Hcase.
  match type of Hcase with
  | if ?c then _ else _ =>
      replace c with false in Hcase by (vm_compute; reflexivity)
  end.
  match type of Hcase with
  | if ?c then _ else _ =>
      replace c with true in Hcase by (vm_compute; reflexivity)
  end.
  destruct Hcase as [Hevs Hret].
  split; [exact Hlt|]. split; [exact Hevs|]. split; [exact Hret|].
  rewrite Hevs. reflexivity.
Defined.

(** ** The split planner *)

Section Planner.

Variable env : Env.
Variable cfg : Config.

Lemma cut_parts_run (video output_dir : string) (length : float)
  (indices : list nat) :
  forall (output_files : list string) (w : World),
  exists w',
    VideoProcessor.cut_parts env video output_dir (path_stem env video)
      length indices output_files w =
    (Ok (output_files
         ++ materialized env video output_dir length (trace w) indices), w')
    /\ steps w w' (map (cut_of env video output_dir length) indices).
Proof.
  induction indices as [|i rest IH]; intros output_files w.
  - exists w. cbn. unfold ret. rewrite app_nil_r.
    split; [reflexivity|apply steps_refl].
  - cbn [VideoProcessor.cut_parts materialized map].
    unfold bind at 1. unfold emit, modify. unfold bind at 1. unfold get.
    cbn [trace log_event]. fold (cut_of env video output_dir length i).
    unfold VideoProcessor.start_time.
    fold (cut_of env video output_dir length i).
    destruct (path_exists env (trace w ++ [cut_of env video output_dir length i])
                (VideoProcessor.part_file env output_dir
                   (path_stem env video) i)).
    + destruct (IH (output_files
                    ++ [VideoProcessor.part_file env output_dir
                          (path_stem env video) i])
                  (log_event (cut_of env video output_dir length i) w))
        as (w' & Hrun & Hsteps).
      exists w'. rewrite Hrun. cbn [trace log_event]. rewrite <- app_assoc.
      split; [reflexivity|].
      apply (steps_trans _ _ _ [_] _ (steps_log_event w _) Hsteps).
    + destruct (IH output_files
                  (log_event (cut_of env video output_dir length i) w))
        as (w' & Hrun & Hsteps).
      exists w'. rewrite Hrun. cbn [trace log_event].
      split; [reflexivity|].
      apply (steps_trans _ _ _ [_] _ (steps_log_event w _) Hsteps).
Qed.

Lemma materialized_filter (made : string -> bool) (video output_dir : string)
  (length : float) (indices : list nat) :
  (forall t f, path_exists env t f = made f) ->
  forall t,
    materialized env video output_dir length t indices =
    filter made
      (map (VideoProcessor.part_file env output_dir (path_stem env video))
         indices).
Proof.
  intros Hmade. induction indices as [|i rest IH]; intros t; cbn.
  - reflexivity.
  - rewrite Hmade, !IH. reflexivity.
Qed.

Lemma filter_is_cut_cuts (video output_dir : string) (length : float)
  (indices : list nat) :
  filter is_cut (map (cut_of env video output_dir length) indices) =
  map (cut_of env video output_dir length) indices.
Proof.
  induction indices as [|i rest IH]; cbn; [reflexivity|now rewrite IH].
Qed.

(** [split_video] when the plan can be computed. *)
Lemma split_video_run (video output_dir : string) (size_gb d length : float)
  (n : Z) (w : World) :
  ffprobe_duration env (trace w) video = Some d ->
  Py.float_truthy d = true ->
  VideoProcessor.num_parts cfg size_gb = Some n ->
  VideoProcessor.part_duration d n = Some length ->
  exists w',
    VideoProcessor.split_video env cfg video output_dir size_gb w =
    (Ok (materialized env video output_dir length
           (trace w ++ [EvProbe video (Some d)]) (VideoProcessor.range n)),
     w')
    /\ steps w w'
         (EvProbe video (Some d)
          :: map (cut_of env video output_dir length)
               (VideoProcessor.range n)).
Proof.
  intros Hd Ht Hn Hl.
  unfold VideoProcessor.split_video. rewrite Hn.
  unfold VideoProcessor.get_video_duration.
  unfold bind at 1. unfold bind at 1. unfold get.
  unfold bind at 1. unfold emit, modify, ret.
  rewrite Hd, Ht, Hl. cbn [negb].
  destruct (cut_parts_run video output_dir length (VideoProcessor.range n)
              [] (log_event (EvProbe video (Some d)) w))
    as (w' & Hrun & Hsteps).
  exists w'. rewrite Hrun. cbn [app trace log_event].
  split; [reflexivity|].
  apply (steps_trans _ _ _ [_] _ (steps_log_event w _) Hsteps).
Qed.

(** [split_video] when it gives up: the events are at most one probe. *)
Lemma split_video_gives_up (video output_dir : string) (size_gb : float)
  (w : World) :
  (VideoProcessor.num_parts cfg size_gb = None
   \/ ffprobe_duration env (trace w) video = None
   \/ (exists d, ffprobe_duration env (trace w) video = Some d
                 /\ (Py.float_truthy d = false
                     \/ forall n, VideoProcessor.num_parts cfg size_gb = Some n
                                  -> VideoProcessor.part_duration d n = None)))
  ->
  exists w' evs,
    VideoProcessor.split_video env cfg video output_dir size_gb w
    = (Ok [], w')
    /\ steps w w' evs
    /\ filter is_cut evs = [] /\ publish_calls evs = [].
Proof.
  intros H. unfold VideoProcessor.split_video.
  destruct (VideoProcessor.num_parts cfg size_gb) as [n|] eqn:Hn.
  2:{ exists w, []. repeat split; apply steps_refl. }
  unfold VideoProcessor.get_video_duration.
  unfold bind at 1. unfold bind at 1. unfold get.
  unfold bind at 1. unfold emit, modify, ret.
  destruct H as [H|[H|(d & Hd & H)]]; [discriminate| |].
  - rewrite H. eexists _, [_]. split; [reflexivity|].
    split; [apply steps_log_event|]. split; reflexivity.
  - rewrite Hd.
    destruct H as [H|H].
    + rewrite H. cbn [negb]. eexists _, [_]. split; [reflexivity|].
      split; [apply steps_log_event|]. split; reflexivity.
    + rewrite (H n eq_refl).
      destruct (negb (Py.float_truthy d));
        eexists _, [_]; (split; [reflexivity|]);
        (split; [apply steps_log_event|]); split; reflexivity.
Qed.

End Planner.

(** C7.  When the plan can be computed, the number of parts is the ceiling
    of the size in GB divided by the configured part size, the length of a
    part is the total duration divided by that number, and the planner runs
    one cut per index below it, in order, the cut of index [i] starting at
    [i] times the part length and lasting one part length.  With the default
    part size of 14.5 GB, 29 GB give two parts; 14.4 GB give one part and
    are below the default threshold of 15 GB, so such a file is not split. *)
Theorem split_plan_arithmetic (env : Env) (cfg : Config)
  (video output_dir : string) (size_gb d length : float) (n : Z)
  (w : World) :
  ffprobe_duration env (trace w) video = Some d ->
  Py.float_truthy d = true ->
  VideoProcessor.num_parts cfg size_gb = Some n ->
  VideoProcessor.part_duration d n = Some length ->
  Py.ceil (PrimFloat.div size_gb (split_margin_gb cfg)) = Some n
  /\ length = PrimFloat.div d (Py.float_of_Z n)
  /\ filter is_cut
       (events_since w
          (snd (VideoProcessor.split_video env cfg video output_dir size_gb
                  w))) =
     map (cut_of env video output_dir length) (seq 0 (Z.to_nat n))
  /\ VideoProcessor.num_parts Scenario.default_config 29%float = Some 2
  /\ VideoProcessor.num_parts Scenario.default_config Scenario.gb_14_4
     = Some 1
  /\ UploadController.needs_split_of Scenario.default_config
       Scenario.gb_14_4 = false.
Proof.
  intros Hd Ht Hn Hl.
  split.
  { unfold VideoProcessor.num_parts, Py.float_div in Hn.
    destruct (Py.is_zero (split_margin_gb cfg)); [discriminate|exact Hn]. }
  split.
  { unfold VideoProcessor.part_duration, Py.float_div in Hl.
    destruct (negb (Py.is_finite (Py.float_of_Z n))); [discriminate|].
    destruct (Py.is_zero (Py.float_of_Z n)); [discriminate|].
    now injection Hl as <-. }
  split.
  { destruct (split_video_run env cfg video output_dir size_gb d length n w
                Hd Ht Hn Hl) as (w' & Hrun & Hsteps).
    rewrite Hrun. cbn [snd].
    rewrite (steps_events_since _ _ _ Hsteps).
    cbn [filter is_cut]. apply filter_is_cut_cuts. }
  split; [|split]; vm_compute; reflexivity.
Qed.

Lemma split_plan_arithmetic_witness :
  let w := Scenario.fresh in
  let run :=
    VideoProcessor.split_video Scenario.all_well Scenario.default_config
      Scenario.big_video Scenario.big_splits 29%float w in
  VideoProcessor.num_parts Scenario.default_config 29%float = Some 2
  /\ VideoProcessor.part_duration 3600%float 2 = Some 1800%float
  /\ filter is_cut (events_since w (snd run)) =
     [EvCut Scenario.big_video 0%float 1800%float
        "/tmp/biliup/splits/big/big_part1.flv";
      EvCut Scenario.big_video 1800%float 1800%float
        "/tmp/biliup/splits/big/big_part2.flv"].
Proof.
  cbv zeta.
  assert (Hn : VideoProcessor.num_parts Scenario.default_config 29%float
               = Some 2) by (vm_compute; reflexivity).
  assert (Hl : VideoProcessor.part_duration 3600%float 2 = Some 1800%float)
    by (vm_compute; reflexivity).
  destruct (split_plan_arithmetic Scenario.all_well Scenario.default_config
              Scenario.big_video Scenario.big_splits 29%float 3600%float
              1800%float 2 Scenario.fresh eq_refl eq_refl Hn Hl)
    as (_ & _ & Hcuts & _).
  split; [exact Hn|]. split; [exact Hl|].
  rewrite Hcuts. vm_compute. reflexivity.
Defined.

Lemma materialized_found (env : Env) (video output_dir : string)
  (length : float) (t : list Event) (k : nat) :
  forall a,
    materialized env video output_dir length
      (t ++ map (cut_of env video output_dir length) (seq 0 a)) (seq a k)
    = map (VideoProcessor.part_file env output_dir (path_stem env video))
        (filter (found_after_cut env video output_dir length t) (seq a k)).
Proof.
  induction k as [|k IH]; intros a; [reflexivity|].
  cbn [seq materialized filter].
  assert (Ht : (t ++ map (cut_of env video output_dir length) (seq 0 a))
               ++ [cut_of env video output_dir length a]
               = t ++ map (cut_of env video output_dir length)
                        (seq 0 (S a))).
  { rewrite seq_S, map_app, app_assoc. reflexivity. }
  rewrite Ht. fold (found_after_cut env video output_dir length t a).
  rewrite (IH (S a)).
  now destruct (found_after_cut env video output_dir length t a).
Qed.

(** C9.  When the duration is unknown ([ffprobe] gives none, or gives zero,
    which the planner treats alike) the planner returns the empty list and
    cuts nothing.  Otherwise, when the plan can be computed, it probes once
    and then runs the cut of every index, whether or not earlier parts
    appeared; it looks for each part file right after the cut of that part,
    and returns, in index order, exactly the part files it found then.  On a
    disk that does not change during the run these are the part files that
    are on disk. *)
Theorem split_video_failure_policy (env : Env) (cfg : Config)
  (video output_dir : string) (size_gb : float) (w : World) :
  let run :=
    VideoProcessor.split_video env cfg video output_dir size_gb w in
  let evs := events_since w (snd run) in
  ((ffprobe_duration env (trace w) video = None
    \/ exists d, ffprobe_duration env (trace w) video = Some d
                 /\ Py.float_truthy d = false) ->
   fst run = Ok [] /\ filter is_cut evs = [])
  /\ (forall d n length,
        ffprobe_duration env (trace w) video = Some d ->
        Py.float_truthy d = true ->
        VideoProcessor.num_parts cfg size_gb = Some n ->
        VideoProcessor.part_duration d n = Some length ->
        let t := trace w ++ [EvProbe video (Some d)] in
        let part :=
          VideoProcessor.part_file env output_dir (path_stem env video) in
        evs = EvProbe video (Some d)
              :: map (cut_of env video output_dir length)
                   (VideoProcessor.range n)
        /\ fst run =
           Ok (materialized env video output_dir length t
                 (VideoProcessor.range n))
        /\ fst run =
           Ok (map part
                 (filter (found_after_cut env video output_dir length t)
                    (VideoProcessor.range n)))
        /\ (forall made,
              (forall t' f, path_exists env t' f = made f) ->
              fst run = Ok (filter made (map part (VideoProcessor.range n))))).
Proof.
  intros run evs. subst evs run. split.
  - intros H.
    destruct (split_video_gives_up env cfg video output_dir size_gb w)
      as (w' & evs & Hrun & Hsteps & Hcut & _).
    { destruct H as [H|(d & Hd & Hz)].
      - right. now left.
      - right. right. exists d. split; [exact Hd|now left]. }
    rewrite Hrun. cbn [fst snd].
    rewrite (steps_events_since _ _ _ Hsteps). now split.
  - intros d n length Hd Ht Hn Hl t part.
    destruct (split_video_run env cfg video output_dir size_gb d length n w
                Hd Ht Hn Hl) as (w' & Hrun & Hsteps).
    rewrite Hrun. cbn [fst snd].
    rewrite (steps_events_since _ _ _ Hsteps).
    split; [reflexivity|]. split; [reflexivity|]. split.
    + f_equal. unfold VideoProcessor.range.
      pose proof (materialized_found env video output_dir length t
                    (Z.to_nat n) 0) as Hfound.
      cbn [seq map] in Hfound. rewrite app_nil_r in Hfound. exact Hfound.
    + intros made Hmade.
      now rewrite (materialized_filter env made video output_dir length _
                     Hmade).
Qed.

Lemma split_video_failure_policy_witness :
  let run :=
    VideoProcessor.split_video Scenario.parts_appear_when_cut
      Scenario.default_config Scenario.big_video Scenario.big_splits
      40%float Scenario.fresh in
  VideoProcessor.num_parts Scenario.default_config 40%float = Some 3
  /\ VideoProcessor.part_duration 3600%float 3 = Some 1200%float
  /\ path_exists Scenario.parts_appear_when_cut (trace Scenario.fresh)
       "/tmp/biliup/splits/big/big_part1.flv" = false
  /\ fst run =
     Ok ["/tmp/biliup/splits/big/big_part1.flv";
         "/tmp/biliup/splits/big/big_part3.flv"]
  /\ List.length (filter is_cut (events_since Scenario.fresh (snd run)))
     = 3%nat.
Proof.
  cbv zeta.
  assert (Hn : VideoProcessor.num_parts Scenario.default_config 40%float
               = Some 3) by (vm_compute; reflexivity).
  assert (Hl : VideoProcessor.part_duration 3600%float 3 = Some 1200%float)
    by (vm_compute; reflexivity).
  destruct (proj2 (split_video_failure_policy Scenario.parts_appear_when_cut
                     Scenario.default_config Scenario.big_video
                     Scenario.big_splits 40%float Scenario.fresh)
              3600%float 3 1200%float eq_refl eq_refl Hn Hl)
    as (Hevs & _ & Hret & _).
  split; [exact Hn|]. split; [exact Hl|]. split; [reflexivity|].
  split; [rewrite Hret; vm_compute; reflexivity|].
  rewrite Hevs. reflexivity.
Defined.

(** ** The upload controller *)

Lemma publish_log_app (a b : list Event) :
  publish_log (a ++ b) = publish_log a ++ publish_log b.
Proof.
  induction a as [|e a IH]; cbn; [reflexivity|].
  destruct (published e); cbn; now rewrite IH.
Qed.

Lemma publish_calls_app (a b : list Event) :
  publish_calls (a ++ b) = publish_calls a ++ publish_calls b.
Proof. apply filter_app. Qed.

Lemma publish_log_calls (t : list Event) :
  publish_log (publish_calls t) = publish_log t.
Proof.
  unfold publish_calls.
  induction t as [|e t IH]; cbn; [reflexivity|].
  destruct e; cbn; rewrite ?IH; reflexivity.
Qed.

Lemma publish_calls_cuts (env : Env) (video output_dir : string)
  (length : float) (indices : list nat) :
  publish_calls (map (cut_of env video output_dir length) indices) = [].
Proof. induction indices as [|i rest IH]; cbn; auto. Qed.

Lemma answered_no_publish (env : Env) (evs : list Event) :
  publish_calls evs = [] -> Forall (answered env) evs.
Proof.
  induction evs as [|e evs IH]; [constructor|].
  destruct e; cbn; intros H; try discriminate;
    (constructor; [exact I|now apply IH]).
Qed.

Lemma ordered_run_failure_last (segments : list string)
  (calls : list (string * bool)) :
  ordered_run segments calls ->
  forall k file,
    nth_error calls k = Some (file, false) -> List.length calls = S k.
Proof.
  induction 1 as [| | |segment rest calls Hrun IH]; intros k file Hk.
  - destruct k; discriminate.
  - destruct k; discriminate.
  - destruct k as [|[|k]]; [reflexivity|discriminate|discriminate].
  - destruct k as [|k]; [discriminate|].
    cbn in Hk. cbn. f_equal. exact (IH k file Hk).
Qed.

Lemma ordered_run_prefix (segments : list string)
  (calls : list (string * bool)) :
  ordered_run segments calls ->
  map fst calls = firstn (List.length calls) segments.
Proof.
  induction 1 as [| | |segment rest calls Hrun IH]; cbn; try reflexivity.
  now rewrite IH.
Qed.

Lemma ordered_run_three (a b c : string) (calls : list (string * bool)) :
  ordered_run [a; b; c] calls ->
  nth_error calls 1 = Some (b, false) ->
  calls = [(a, true); (b, false)].
Proof.
  intros H Hk.
  inversion H as [| | |s rest calls1 H1]; subst; cbn in Hk;
    try discriminate.
  inversion H1 as [| | |s2 rest2 calls2 H2]; subst; cbn in Hk;
    try discriminate.
  reflexivity.
Qed.

Section Controller.

Variable env : Env.
Variable cfg : Config.

Lemma upload_video_run (video title : string) (cover_path : option string)
  (copyright : string) (w : World) :
  exists cover,
    let exit := biliup_upload env (trace w) video title cover copyright in
    BilibiliUploader.upload_video env video title cover_path copyright w =
    (Ok (BilibiliUploader.bvid_of_exit exit),
     log_event (EvUpload video title cover copyright exit) w).
Proof.
  exists (match cover_path with
          | Some c =>
              if Py.truthy cover_path && path_exists env (trace w) c
              then Some c else None
          | None => None
          end).
  reflexivity.
Qed.

Lemma append_video_run (video b title : string) (w : World) :
  let exit := biliup_append env (trace w) video b title in
  BilibiliUploader.append_video env video (Some b) title w =
  (Ok (BilibiliUploader.append_succeeded exit),
   log_event (EvAppend video b title exit) w).
Proof. reflexivity. Qed.

Lemma extract_cover_run (video cover : string) (w : World) :
  exists b,
    VideoProcessor.extract_cover env video cover w =
    (Ok b, log_event (EvExtractCover video cover) w).
Proof. eexists. reflexivity. Qed.

Lemma existing_run (p : string) (w : World) :
  exists r, UploadController.existing env p w = (Ok r, w).
Proof.
  unfold UploadController.existing, bind, get, ret.
  destruct (path_exists env (trace w) p); eexists; reflexivity.
Qed.

Lemma _get_video_path_run (path name : string) (bytes : Z)
  (needs_split : bool) (w : World) :
  exists r w1 evs,
    UploadController._get_video_path env cfg path name bytes needs_split w
    = (Ok r, w1)
    /\ steps w w1 evs /\ publish_calls evs = [].
Proof.
  unfold UploadController._get_video_path.
  destruct (mounted_copy_run env cfg path name needs_split w)
    as (m & w1 & evs0 & Hrun & Hsteps & Hevs0 & _).
  erewrite bind_ok by exact Hrun.
  assert (Hp0 : publish_calls evs0 = [])
    by (destruct Hevs0 as [->|[b ->]]; reflexivity).
  destruct (Py.truthy m).
  - exists m, w1, evs0. unfold ret. auto.
  - pose proof (local_copy_run env cfg path name bytes w1) as Hlocal.
    cbv zeta in Hlocal.
    destruct (Py.int_lt_float _ _).
    + destruct Hlocal as (w2 & Hrun2 & Hsteps2).
      eexists _, w2, _. split; [exact Hrun2|].
      split; [exact (steps_trans _ _ _ _ _ Hsteps Hsteps2)|].
      rewrite publish_calls_app, Hp0. reflexivity.
    + destruct Hlocal as (w2 & ok & Hrun2 & Hsteps2).
      eexists _, w2, _. split; [exact Hrun2|].
      split; [exact (steps_trans _ _ _ _ _ Hsteps Hsteps2)|].
      rewrite publish_calls_app, Hp0. reflexivity.
Qed.

Lemma split_video_total (video output_dir : string) (size_gb : float)
  (w : World) :
  exists segments w1 evs,
    VideoProcessor.split_video env cfg video output_dir size_gb w
    = (Ok segments, w1)
    /\ steps w w1 evs /\ publish_calls evs = [].
Proof.
  assert (Hup :
            (VideoProcessor.num_parts cfg size_gb = None
             \/ ffprobe_duration env (trace w) video = None
             \/ (exists d,
                    ffprobe_duration env (trace w) video = Some d
                    /\ (Py.float_truthy d = false
                        \/ forall n,
                             VideoProcessor.num_parts cfg size_gb = Some n ->
                             VideoProcessor.part_duration d n = None))) ->
            exists segments w1 evs,
              VideoProcessor.split_video env cfg video output_dir size_gb w
              = (Ok segments, w1)
              /\ steps w w1 evs /\ publish_calls evs = []).
  { intros H.
    destruct (split_video_gives_up env cfg video output_dir size_gb w H)
      as (w1 & evs & Hrun & Hs & _ & Hp).
    exists [], w1, evs. auto. }
  destruct (VideoProcessor.num_parts cfg size_gb) as [n|] eqn:Hn;
    [|apply Hup; now left].
  destruct (ffprobe_duration env (trace w) video) as [d|] eqn:Hd;
    [|apply Hup; right; now left].
  destruct (Py.float_truthy d) eqn:Ht;
    [|apply Hup; right; right; exists d; split; [reflexivity|now left]].
  destruct (VideoProcessor.part_duration d n) as [length|] eqn:Hl.
  - destruct (split_video_run env cfg video output_dir size_gb d length n w
                Hd Ht Hn Hl) as (w1 & Hrun & Hsteps).
    eexists _, w1, _. split; [exact Hrun|]. split; [exact Hsteps|].
    cbn. apply publish_calls_cuts.
  - apply Hup. right. right. exists d. split; [reflexivity|]. right.
    intros n' Hn'. injection Hn' as <-. exact Hl.
Qed.


Lemma cover_step_run (segment cover : string) (w : World) :
  (VideoProcessor.extract_cover env segment cover ;; ret (Some cover)) w =
  (Ok (Some cover), log_event (EvExtractCover segment cover) w).
Proof. reflexivity. Qed.

Lemma parts_outcome_after_cover (flag : bool) (segments : list string)
  (result_bvid r : option string) (w w' : World) (evs : list Event)
  (segment cover : string) :
  parts_outcome env flag segments result_bvid r
    (log_event (EvExtractCover segment cover) w) w' evs ->
  parts_outcome env flag segments result_bvid r w w'
    (EvExtractCover segment cover :: evs).
Proof.
  intros (Hs & Ho & Hr & Ha & Hans).
  split; [exact (steps_trans _ _ _ [_] _ (steps_log_event w _) Hs)|].
  split; [exact Ho|]. split; [exact Hr|]. split; [exact Ha|].
  constructor; [exact I|exact Hans].
Qed.

Lemma upload_parts_run (info : UploadController.VideoInfo)
  (mode copyright : string) (segments : list string) :
  forall (i : nat) (result_bvid : option string) (w : World),
    (1 <= i)%nat ->
    exists r w' evs,
      UploadController.upload_parts env cfg info mode copyright i segments
        result_bvid w = (Ok r, w')
      /\ parts_outcome env ((i =? 1)%nat && String.eqb mode "new") segments
           result_bvid r w w' evs.
Proof.
  induction segments as [|segment rest IH]; intros i result_bvid w Hi.
  - exists result_bvid, w, []. split; [reflexivity|].
    unfold parts_outcome. split; [apply steps_refl|].
    split; [constructor|]. split; [reflexivity|].
    split; [|constructor].
    unfold anchored. destruct (_ && _); constructor.
  - assert (Hnext : ((S i =? 1)%nat && String.eqb mode "new") = false).
    { destruct i; [lia|reflexivity]. }
    assert (Happend : forall title w1,
               exists r w' evs,
                 (success <-
                    BilibiliUploader.append_video env segment result_bvid
                      title ;;
                  if negb success then ret None
                  else UploadController.upload_parts env cfg info mode
                         copyright (S i) rest result_bvid) w1 = (Ok r, w')
                 /\ parts_outcome env false (segment :: rest) result_bvid r w1
                      w' evs).
    { intros title w1. destruct result_bvid as [t|].
      - erewrite bind_ok by apply append_video_run.
        destruct (BilibiliUploader.append_succeeded
                    (biliup_append env (trace w1) segment t title)) eqn:Hok;
          cbn [negb].
        + destruct (IH (S i) (Some t)
                      (log_event
                         (EvAppend segment t title
                            (biliup_append env (trace w1) segment t title))
                         w1)) as (r & w' & evs & Hrun & Hout); [lia|].
          rewrite Hnext in Hout.
          destruct Hout as (Hs & Ho & Hr & Ha & Hans).
          eexists r, w', (_ :: evs). split; [exact Hrun|].
          split; [exact (steps_trans _ _ _ [_] _ (steps_log_event w1 _) Hs)|].
          cbn [publish_log published publish_calls filter is_publish].
          rewrite Hok.
          split; [now constructor|].
          split; [intros Hne; cbn [map]; now rewrite (Hr Hne)|].
          split; [constructor; [reflexivity|exact Ha]|].
          constructor; [now exists (trace w1)|exact Hans].
        + eexists None, _, [_]. split; [reflexivity|].
          split; [apply steps_log_event|].
          cbn [publish_log published publish_calls filter is_publish].
          rewrite Hok.
          split; [constructor|]. split; [congruence|].
          split; [constructor; [reflexivity|constructor]|].
          constructor; [now exists (trace w1)|constructor].
      - exists None, w1, []. split; [reflexivity|].
        split; [apply steps_refl|]. split; [constructor|].
        split; [congruence|]. split; constructor. }
    cbn [UploadController.upload_parts].
    destruct (i =? 1)%nat eqn:Hi1; cbn [andb].
    + erewrite bind_ok by apply cover_step_run.
      destruct (String.eqb mode "new") eqn:Hmode.
      * destruct (existing_run (UploadController.cover_file env cfg segment)
                    (log_event
                       (EvExtractCover segment
                          (UploadController.cover_file env cfg segment)) w))
          as (cv & Hex).
        erewrite bind_ok by exact Hex.
        destruct (upload_video_run segment
                    (UploadController.get_upload_title info) cv copyright
                    (log_event
                       (EvExtractCover segment
                          (UploadController.cover_file env cfg segment)) w))
          as (cover & Hup).
        cbv zeta in Hup. erewrite bind_ok by exact Hup.
        set (w1 := log_event
                     (EvExtractCover segment
                        (UploadController.cover_file env cfg segment)) w)
          in *.
        set (exit := biliup_upload env (trace w1) segment
                       (UploadController.get_upload_title info) cover
                       copyright) in *.
        destruct (Py.truthy (BilibiliUploader.bvid_of_exit exit)) eqn:Hb;
          cbn [negb].
        -- destruct (IH (S i) (BilibiliUploader.bvid_of_exit exit)
                       (log_event
                          (EvUpload segment
                             (UploadController.get_upload_title info) cover
                             copyright exit) w1))
             as (r & w' & evs & Hrun & Hout); [lia|].
           rewrite Hnext in Hout.
           destruct Hout as (Hs & Ho & Hr & Ha & Hans).
           eexists r, w', (_ :: _ :: evs). split; [exact Hrun|].
           split;
             [exact (steps_trans _ _ _ [_] _ (steps_log_event w _)
                       (steps_trans _ _ _ [_] _ (steps_log_event w1 _) Hs))|].
           cbn [publish_log published publish_calls filter is_publish].
           rewrite Hb.
           split; [now constructor|].
           split; [intros Hne; cbn [map]; now rewrite (Hr Hne)|].
           split; [exact Ha|].
           constructor; [exact I|].
           constructor; [now exists (trace w1)|exact Hans].
        -- eexists None, _, [_; _]. split; [reflexivity|].
           split;
             [exact (steps_trans _ _ _ [_] [_] (steps_log_event w _)
                       (steps_log_event w1 _))|].
           cbn [publish_log published publish_calls filter is_publish].
           rewrite Hb.
           split; [constructor|]. split; [congruence|].
           split; [constructor|].
           constructor; [exact I|].
           constructor; [now exists (trace w1)|constructor].
      * destruct (Happend
                    (UploadController.get_upload_title info ++ " - P"
                     ++ Py.str_nat i)%string
                    (log_event
                       (EvExtractCover segment
                          (UploadController.cover_file env cfg segment)) w))
          as (r & w' & evs & Hrun & Hout).
        eexists r, w', (_ :: evs). split; [exact Hrun|].
        apply parts_outcome_after_cover. exact Hout.
    + erewrite bind_ok by reflexivity.
      apply Happend.
Qed.


Lemma _upload_split_video_run (video : string)
  (info : UploadController.VideoInfo) (streamer : string) (size_gb : float)
  (mode : string) (target : option string) (copyright : string) (w : World) :
  exists segments r w' evs,
    fst (VideoProcessor.split_video env cfg video
           (UploadController.split_dir_of env cfg video) size_gb w)
    = Ok segments
    /\ UploadController._upload_split_video env cfg video info streamer
         size_gb mode target copyright w = (Ok r, w')
    /\ parts_outcome env (String.eqb mode "new") segments target r w w' evs
    /\ (segments = [] -> r = None).
Proof.
  destruct (split_video_total video
              (UploadController.split_dir_of env cfg video) size_gb w)
    as (segments & w1 & evs0 & Hsplit & Hs0 & Hp0).
  unfold UploadController._upload_split_video.
  erewrite bind_ok by exact Hsplit. rewrite Hsplit. cbn [fst].
  assert (Hlog0 : publish_log evs0 = [])
    by (rewrite <- publish_log_calls, Hp0; reflexivity).
  destruct segments as [|segment rest].
  - exists [], None, w1, evs0. split; [reflexivity|].
    split; [reflexivity|]. split; [|reflexivity].
    split; [exact Hs0|]. rewrite Hlog0, Hp0.
    split; [constructor|]. split; [congruence|].
    split; [|now apply answered_no_publish].
    unfold anchored. destruct (String.eqb mode "new"); constructor.
  - destruct (upload_parts_run info mode copyright (segment :: rest) 1 target
                w1 (le_n 1)) as (r & w' & evs & Hrun & Hout).
    cbn [Nat.eqb andb] in Hout.
    destruct Hout as (Hs & Ho & Hr & Ha & Hans).
    exists (segment :: rest), r, w', (evs0 ++ evs).
    split; [reflexivity|]. split; [exact Hrun|].
    split; [|discriminate].
    split; [exact (steps_trans _ _ _ _ _ Hs0 Hs)|].
    rewrite publish_log_app, publish_calls_app, Hlog0, Hp0. cbn [app].
    split; [exact Ho|]. split; [exact Hr|]. split; [exact Ha|].
    apply Forall_app. split; [now apply answered_no_publish|exact Hans].
Qed.

End Controller.

(** C2.  In a split upload the segments the planner returned are published
    in their order, each one only after all the segments before it have
    been accepted; the first refusal ends the task, so that a refused call
    is always the last call.  In mode [new] the first call creates the
    video and every later call appends to the video it created; otherwise
    every call appends to the given target.  With three segments and a
    refusal of the second, exactly two calls are made and none for the
    third. *)
Theorem split_upload_in_order (env : Env) (cfg : Config) (video : string)
  (info : UploadController.VideoInfo) (streamer : string) (size_gb : float)
  (mode : string) (target : option string) (copyright : string)
  (w : World) :
  let run :=
    UploadController._upload_split_video env cfg video info streamer size_gb
      mode target copyright w in
  let evs := events_since w (snd run) in
  let calls := publish_log evs in
  exists segments,
    fst (VideoProcessor.split_video env cfg video
           (UploadController.split_dir_of env cfg video) size_gb w)
    = Ok segments
    /\ ordered_run segments calls
    /\ map fst calls = firstn (List.length calls) segments
    /\ (forall k file,
          nth_error calls k = Some (file, false) ->
          List.length calls = S k /\ fst run = Ok None)
    /\ anchored (String.eqb mode "new") target (publish_calls evs)
    /\ (forall a b c,
          segments = [a; b; c] ->
          nth_error calls 1 = Some (b, false) ->
          calls = [(a, true); (b, false)]).
Proof.
  intros run evs calls. subst calls evs run.
  destruct (_upload_split_video_run env cfg video info streamer size_gb mode
              target copyright w)
    as (segments & r & w' & evs & Hsegs & Hrun & Hout & _).
  destruct Hout as (Hs & Ho & Hr & Ha & _).
  rewrite Hrun. cbn [fst snd]. rewrite (steps_events_since _ _ _ Hs).
  exists segments. split; [exact Hsegs|]. split; [exact Ho|].
  split; [now apply ordered_run_prefix|].
  split.
  { intros k file Hk.
    split; [exact (ordered_run_failure_last _ _ Ho k file Hk)|].
    destruct r as [b|]; [|reflexivity].
    rewrite Hr in Hk by discriminate.
    rewrite nth_error_map in Hk.
    destruct (nth_error segments k); discriminate. }
  split; [exact Ha|].
  intros a b c -> Hk. now apply (ordered_run_three a b c).
Qed.

Lemma split_upload_in_order_witness :
  let run :=
    UploadController._upload_split_video Scenario.second_part_refused
      Scenario.default_config Scenario.big_video Scenario.big_info
      "streamer" 40%float "new" None "1" Scenario.fresh in
  let calls := publish_log (events_since Scenario.fresh (snd run)) in
  nth_error calls 1
  = Some ("/tmp/biliup/splits/big/big_part2.flv", false)
  /\ calls = [("/tmp/biliup/splits/big/big_part1.flv", true);
              ("/tmp/biliup/splits/big/big_part2.flv", false)]
  /\ fst run = Ok None.
Proof.
  cbv zeta.
  destruct (split_upload_in_order Scenario.second_part_refused
              Scenario.default_config Scenario.big_video Scenario.big_info
              "streamer" 40%float "new" None "1" Scenario.fresh)
    as (segments & Hsegs & _ & _ & Hlast & _ & Hthree).
  assert (Hk : nth_error
                 (publish_log
                    (events_since Scenario.fresh
                       (snd (UploadController._upload_split_video
                               Scenario.second_part_refused
                               Scenario.default_config Scenario.big_video
                               Scenario.big_info "streamer" 40%float "new"
                               None "1" Scenario.fresh)))) 1
               = Some ("/tmp/biliup/splits/big/big_part2.flv", false))
    by (vm_compute; reflexivity).
  assert (Hparts : Ok segments
                   = Ok ["/tmp/biliup/splits/big/big_part1.flv";
                         "/tmp/biliup/splits/big/big_part2.flv";
                         "/tmp/biliup/splits/big/big_part3.flv"])
    by (rewrite <- Hsegs; vm_compute; reflexivity).
  injection Hparts as Hparts.
  split; [exact Hk|].
  split; [exact (Hthree _ _ _ Hparts Hk)|exact (proj2 (Hlast _ _ Hk))].
Defined.

(** ** One task and its retries *)

Section SingleVideo.

Variable env : Env.
Variable cfg : Config.

Lemma _upload_normal_video_run (p : string)
  (info : UploadController.VideoInfo) (streamer mode : string)
  (target : option string) (copyright : string) (w : World) :
  exists result w' evs,
    UploadController._upload_normal_video env cfg p info streamer mode
      target copyright w = (Ok result, w')
    /\ steps w w' evs
    /\ (publish_always_fails env mode target -> one_refused_call env mode result evs).
Proof.
  unfold UploadController._upload_normal_video, publish_always_fails,
    one_refused_call, refused_call.
  destruct (extract_cover_run env p (UploadController.cover_file env cfg p) w)
    as (found & Hcover).
  erewrite bind_ok by exact Hcover.
  set (w1 := log_event
               (EvExtractCover p (UploadController.cover_file env cfg p)) w).
  destruct (String.eqb mode "new").
  - destruct (existing_run env (UploadController.cover_file env cfg p) w1)
      as (cv & Hex).
    erewrite bind_ok by exact Hex.
    destruct (upload_video_run env p (UploadController.get_upload_title info)
                cv copyright w1) as (cover & Hup).
    cbv zeta in Hup. rewrite Hup.
    eexists _, _, [_; _]. split; [reflexivity|].
    split;
      [exact (steps_trans _ _ _ [_] [_] (steps_log_event w _)
                (steps_log_event w1 _))|].
    intros Hfail. split; [apply Hfail|].
    eexists. split; [reflexivity|].
    split; [now exists (trace w1)|]. split; [reflexivity|].
    exists p. cbn [published]. now rewrite Hfail.
  - destruct target as [b|].
    + erewrite bind_ok by apply append_video_run.
      destruct (BilibiliUploader.append_succeeded
                  (biliup_append env (trace w1) p b
                     (UploadController.get_upload_title info))) eqn:Hok;
        (eexists _, _, [_; _]; split; [reflexivity|]);
        (split;
           [exact (steps_trans _ _ _ [_] [_] (steps_log_event w _)
                     (steps_log_event w1 _))|]);
        intros (b' & Hb & Hfail); injection Hb as <-.
      * rewrite Hfail in Hok. discriminate.
      * split; [reflexivity|].
        eexists. split; [reflexivity|].
        split; [now exists (trace w1)|]. split; [reflexivity|].
        exists p. cbn [published]. now rewrite Hok.
    + eexists _, _, [_]. split; [reflexivity|].
      split; [apply steps_log_event|].
      intros (b' & Hb & _). discriminate.
Qed.

Lemma _upload_split_video_fails (p : string)
  (info : UploadController.VideoInfo) (streamer : string) (size_gb : float)
  (mode : string) (target : option string) (copyright : string) (w : World) :
  publish_always_fails env mode target ->
  (exists segment rest,
     fst (VideoProcessor.split_video env cfg p
            (UploadController.split_dir_of env cfg p) size_gb w)
     = Ok (segment :: rest)) ->
  exists result w' evs,
    UploadController._upload_split_video env cfg p info streamer size_gb
      mode target copyright w = (Ok result, w')
    /\ steps w w' evs
    /\ one_refused_call env mode result evs.
Proof.
  intros Hfail (segment & rest & Hyield).
  destruct (split_video_total env cfg p
              (UploadController.split_dir_of env cfg p) size_gb w)
    as (segments & w1 & evs0 & Hsplit & Hs0 & Hp0).
  rewrite Hsplit in Hyield. cbn [fst] in Hyield. injection Hyield as ->.
  unfold UploadController._upload_split_video.
  erewrite bind_ok by exact Hsplit.
  cbn [UploadController.upload_parts Nat.eqb andb].
  erewrite bind_ok by apply cover_step_run.
  set (w2 := log_event
               (EvExtractCover segment
                  (UploadController.cover_file env cfg segment)) w1).
  unfold publish_always_fails in Hfail.
  unfold one_refused_call, refused_call.
  destruct (String.eqb mode "new").
  - destruct (existing_run env (UploadController.cover_file env cfg segment)
                w2) as (cv & Hex).
    erewrite bind_ok by exact Hex.
    destruct (upload_video_run env segment
                (UploadController.get_upload_title info) cv copyright w2)
      as (cover & Hup).
    cbv zeta in Hup. erewrite bind_ok by exact Hup.
    rewrite Hfail. cbn [negb].
    eexists None, _, (evs0 ++ [_; _]). split; [reflexivity|].
    split;
      [exact (steps_trans _ _ _ _ _ Hs0
                (steps_trans _ _ _ [_] [_] (steps_log_event w1 _)
                   (steps_log_event w2 _)))|].
    split; [reflexivity|].
    eexists. rewrite publish_calls_app, Hp0.
    split; [reflexivity|]. split; [now exists (trace w2)|].
    split; [reflexivity|].
    exists segment. cbn [published]. now rewrite Hfail.
  - destruct Hfail as (b & -> & Hfail).
    erewrite bind_ok by apply append_video_run.
    rewrite Hfail. cbn [negb].
    eexists None, _, (evs0 ++ [_; _]). split; [reflexivity|].
    split;
      [exact (steps_trans _ _ _ _ _ Hs0
                (steps_trans _ _ _ [_] [_] (steps_log_event w1 _)
                   (steps_log_event w2 _)))|].
    split; [reflexivity|].
    eexists. rewrite publish_calls_app, Hp0.
    split; [reflexivity|]. split; [now exists (trace w2)|].
    split; [reflexivity|].
    exists segment. cbn [published]. now rewrite Hfail.
Qed.


Variable v : UploadController.VideoData.
Variable mode : string.
Variable target : option string.
Variable copyright : string.

Let needs_split : bool :=
  UploadController.needs_split_of cfg
    (UploadController.size_in_gb (UploadController.size v)).

Lemma _cleanup_temp_files_run (p : string) (b : bool) (w : World) :
  UploadController._cleanup_temp_files p b w
  = (Ok tt, log_event (EvCleanup p b) w).
Proof. reflexivity. Qed.

(** The publish step of the [try] block never raises. *)
Lemma publish_step_run (p : string) (w : World) :
  exists result w' evs,
    (if needs_split then
       UploadController._upload_split_video env cfg p
         (UploadController.video_info v) (UploadController.streamer_name v)
         (UploadController.size_in_gb (UploadController.size v)) mode target
         copyright
     else
       UploadController._upload_normal_video env cfg p
         (UploadController.video_info v) (UploadController.streamer_name v)
         mode target copyright) w = (Ok result, w')
    /\ steps w w' evs.
Proof.
  destruct needs_split.
  - destruct (_upload_split_video_run env cfg p
                (UploadController.video_info v)
                (UploadController.streamer_name v)
                (UploadController.size_in_gb (UploadController.size v)) mode
                target copyright w)
      as (segments & r & w' & evs & _ & Hrun & (Hs & _) & _).
    now exists r, w', evs.
  - destruct (_upload_normal_video_run p (UploadController.video_info v)
                (UploadController.streamer_name v) mode target copyright w)
      as (r & w' & evs & Hrun & Hs & _).
    now exists r, w', evs.
Qed.

(** The [try] block either raises, leaving the logs as they were, or
    returns [True] right after one [add_success] for the path and the size
    of the task, with the split flag of the task and no list of parts. *)
Lemma try_upload_run (w : World) :
  (exists e w1 evs,
     UploadController.try_upload env cfg v mode target copyright w
     = (Raise e, w1)
     /\ steps w w1 evs)
  \/ (exists w1 evs b,
        steps w w1 evs
        /\ UploadController.try_upload env cfg v mode target copyright w
           = (Ok (Some true),
              snd (UploadHistory.add_success env
                     (UploadController.remote_path v)
                     (UploadController.size v) b needs_split None w1))).
Proof.
  unfold UploadController.try_upload. fold needs_split.
  destruct (_get_video_path_run env cfg (UploadController.remote_path v)
              (UploadController.filename v) (UploadController.size v)
              needs_split w) as (r & wa & eva & Hpath & Hsa & _).
  erewrite bind_ok by exact Hpath.
  destruct r as [p|]; [|left; now exists "无法获取视频文件", wa, eva].
  destruct (Py.truthy (Some p)); cbn [negb];
    [|left; now exists "无法获取视频文件", wa, eva].
  destruct (publish_step_run p wa) as (result & wb & evb & Hpub & Hsb).
  erewrite bind_ok by exact Hpub.
  erewrite bind_ok by apply _cleanup_temp_files_run.
  pose proof (steps_trans _ _ _ _ _ Hsa
                (steps_trans _ _ _ _ [_] Hsb
                   (steps_log_event wb (EvCleanup p needs_split)))) as Hsc.
  destruct (Py.truthy result).
  - right. eexists _, _, _. split; [exact Hsc|].
    erewrite bind_ok by apply add_success_run.
    rewrite add_success_run. reflexivity.
  - left. eexists _, _, _. split; [reflexivity|exact Hsc].
Qed.

(** When the file is always found, the planner always yields and every
    first call is refused, the [try] block makes one call and raises. *)
Lemma try_upload_fails (w : World) :
  path_always_found env cfg v ->
  split_always_yields env cfg v ->
  publish_always_fails env mode target ->
  exists w1 evs e,
    UploadController.try_upload env cfg v mode target copyright w
    = (Raise "上传失败", w1)
    /\ steps w w1 evs
    /\ publish_calls evs = [e] /\ refused_call env mode e.
Proof.
  intros Hfound Hyield Hfail.
  unfold UploadController.try_upload. fold needs_split.
  destruct (_get_video_path_run env cfg (UploadController.remote_path v)
              (UploadController.filename v) (UploadController.size v)
              needs_split w) as (r & wa & eva & Hpath & Hsa & Hpa).
  destruct (Hfound w) as (p & Hp & Htruthy).
  fold needs_split in Hp. rewrite Hpath in Hp. cbn [fst] in Hp.
  injection Hp as ->.
  erewrite bind_ok by exact Hpath.
  rewrite Htruthy. cbn [negb].
  assert (Hpub : exists result wb evb,
             (if needs_split then
                UploadController._upload_split_video env cfg p
                  (UploadController.video_info v)
                  (UploadController.streamer_name v)
                  (UploadController.size_in_gb (UploadController.size v))
                  mode target copyright
              else
                UploadController._upload_normal_video env cfg p
                  (UploadController.video_info v)
                  (UploadController.streamer_name v) mode target copyright)
               wa = (Ok result, wb)
             /\ steps wa wb evb
             /\ one_refused_call env mode result evb).
  { destruct needs_split eqn:Hns.
    - apply _upload_split_video_fails; [exact Hfail|].
      apply Hyield. exact Hns.
    - destruct (_upload_normal_video_run p (UploadController.video_info v)
                  (UploadController.streamer_name v) mode target copyright
                  wa) as (result & wb & evb & Hrun & Hsb & Hone).
      exists result, wb, evb. auto. }
  destruct Hpub as (result & wb & evb & Hpub & Hsb & Hres & e & He & Hrefused).
  erewrite bind_ok by exact Hpub.
  erewrite bind_ok by apply _cleanup_temp_files_run.
  rewrite Hres.
  eexists _, _, e. split; [reflexivity|].
  split;
    [exact (steps_trans _ _ _ _ _ Hsa
              (steps_trans _ _ _ _ [_] Hsb
                 (steps_log_event wb (EvCleanup p needs_split))))|].
  rewrite !publish_calls_app, Hpa, He. split; [reflexivity|exact Hrefused].
Qed.


Lemma on_failure_last (attempt : Z) (e : string) (w : World) :
  attempt = retry_times cfg - 1 ->
  exists w' o,
    UploadController.on_failure env cfg v attempt e w = (Ok (Some false), w')
    /\ history w' = history w
    /\ history_file w' = history_file w
    /\ failed w' =
       failed w
       ++ [{| failed_file_path := UploadController.remote_path v;
              error_msg := e;
              failed_time := now env (trace w) |}]
    /\ stats_failed w' = stats_failed w + 1
    /\ stats_success w' = stats_success w
    /\ trace w' = trace w ++ [EvWriteFailed (failed w') o].
Proof.
  intros ->. unfold UploadController.on_failure. rewrite Z.eqb_refl.
  erewrite bind_ok by apply add_failed_run.
  eexists _, _. split; [reflexivity|]. repeat split.
Qed.

Lemma on_failure_again (attempt : Z) (e : string) (w : World) :
  attempt <> retry_times cfg - 1 ->
  UploadController.on_failure env cfg v attempt e w
  = (Ok None, log_event (EvSleep 2) w).
Proof.
  intros H. unfold UploadController.on_failure.
  apply Z.eqb_neq in H. rewrite H. reflexivity.
Qed.

(** The retry loop when every attempt makes one refused call. *)
Lemma retry_loop_exhausts :
  path_always_found env cfg v ->
  split_always_yields env cfg v ->
  publish_always_fails env mode target ->
  forall (len start : nat) (w : World),
    (start + S len = Z.to_nat (retry_times cfg))%nat ->
    exists w' evs,
      UploadController.retry_loop env cfg v mode target copyright
        (seq start (S len)) w = (Ok false, w')
      /\ trace w' = trace w ++ evs
      /\ List.length (publish_calls evs) = S len
      /\ Forall (refused_call env mode) (publish_calls evs)
      /\ history w' = history w
      /\ history_file w' = history_file w
      /\ map notice (failed w') =
         map notice (failed w)
         ++ [(UploadController.remote_path v, "上传失败")]
      /\ stats_failed w' = stats_failed w + 1
      /\ stats_success w' = stats_success w.
Proof.
  intros Hfound Hyield Hfail.
  induction len as [|len IH]; intros start w Hlen.
  - cbn [seq UploadController.retry_loop].
    unfold UploadController.attempt_upload, try_except.
    unfold bind at 1.
    destruct (try_upload_fails w Hfound Hyield Hfail)
      as (w1 & evs & e & Hrun & ((Hh & Hf & Hhf & _ & Hss & Hsf & _) & Ht)
          & Hcalls & Hrefused).
    rewrite Hrun.
    destruct (on_failure_last (Z.of_nat start) "上传失败" w1)
      as (w2 & o & Hrun2 & Hh2 & Hhf2 & Hf2 & Hsf2 & Hss2 & Ht2); [lia|].
    rewrite Hrun2. unfold ret.
    exists w2, (evs ++ [EvWriteFailed (failed w2) o]).
    split; [reflexivity|].
    split; [rewrite Ht2, Ht, app_assoc; reflexivity|].
    rewrite publish_calls_app, Hcalls. cbn [publish_calls filter is_publish app].
    split; [reflexivity|]. split; [constructor; [exact Hrefused|constructor]|].
    split; [congruence|]. split; [congruence|].
    split; [rewrite Hf2, map_app, Hf; reflexivity|].
    split; [congruence|congruence].
  - change (seq start (S (S len))) with (start :: seq (S start) (S len)).
    cbn [UploadController.retry_loop].
    unfold UploadController.attempt_upload, try_except.
    unfold bind at 1.
    destruct (try_upload_fails w Hfound Hyield Hfail)
      as (w1 & evs & e & Hrun & ((Hh & Hf & Hhf & _ & Hss & Hsf & _) & Ht)
          & Hcalls & Hrefused).
    rewrite Hrun.
    rewrite on_failure_again by lia.
    destruct (IH (S start) (log_event (EvSleep 2) w1))
      as (w2 & evs2 & Hrun2 & Ht2 & Hlen2 & Hall2 & Hh2 & Hhf2 & Hf2 & Hsf2
          & Hss2); [lia|].
    rewrite Hrun2.
    exists w2, (evs ++ EvSleep 2 :: evs2).
    split; [reflexivity|].
    split.
    { rewrite Ht2. cbn [trace log_event]. rewrite Ht, <- !app_assoc.
      reflexivity. }
    rewrite publish_calls_app, Hcalls.
    cbn [publish_calls filter is_publish app]. fold (publish_calls evs2).
    split; [cbn [List.length]; now rewrite Hlen2|].
    split; [constructor; [exact Hrefused|exact Hall2]|].
    split; [rewrite Hh2; exact Hh|]. split; [rewrite Hhf2; exact Hhf|].
    split; [rewrite Hf2; cbn [failed log_event]; now rewrite Hf|].
    split; [rewrite Hsf2; cbn [stats_failed log_event]; now rewrite Hsf|].
    rewrite Hss2. exact Hss.
Qed.


(** The retry loop never raises; it records a success exactly when it
    returns [True], and then as one record for the task. *)
Lemma retry_loop_run (attempts : list nat) :
  forall w : World,
  exists b w',
    UploadController.retry_loop env cfg v mode target copyright attempts w
    = (Ok b, w')
    /\ (b = true ->
        exists w1 bv,
          history w' =
          history w
          ++ [success_record env w1 (UploadController.remote_path v)
                (UploadController.size v) bv needs_split None])
    /\ (b = false -> history w' = history w).
Proof.
  induction attempts as [|attempt rest IH]; intros w.
  - exists false, w. split; [reflexivity|]. split; [discriminate|reflexivity].
  - cbn [UploadController.retry_loop].
    unfold UploadController.attempt_upload, try_except.
    unfold bind at 1.
    destruct (try_upload_run w)
      as [(e & w1 & evs & Hrun & (Hh & _) & _)
         |(w1 & evs & bv & ((Hh & _) & _) & Hrun)];
      rewrite Hrun.
    + destruct (Z.eq_dec (Z.of_nat attempt) (retry_times cfg - 1)) as [Hl|Hl].
      * destruct (on_failure_last _ e w1 Hl)
          as (w2 & o & Hrun2 & Hh2 & _).
        rewrite Hrun2. exists false, w2. unfold ret.
        split; [reflexivity|]. split; [discriminate|congruence].
      * rewrite on_failure_again by exact Hl.
        destruct (IH (log_event (EvSleep 2) w1)) as (b & w2 & Hrun2 & Ht & Hf).
        rewrite Hrun2. exists b, w2. split; [reflexivity|].
        cbn [history log_event] in Ht, Hf. rewrite Hh in Ht, Hf.
        split; assumption.
    + eexists true, _. unfold ret. split; [reflexivity|].
      split; [|discriminate].
      intros _. exists w1, bv. rewrite add_success_history. now rewrite Hh.
Qed.

End SingleVideo.

(** No task makes the batch loop raise: the loop always runs to its end. *)
Lemma batch_loop_total (env : Env) (cfg : Config) (mode : string)
  (target : option string) (copyright : string)
  (videos : list UploadController.VideoData) :
  forall (total current : Z) (w : World),
  exists w',
    UploadController.batch_loop env cfg total current videos mode target
      copyright w = (Ok tt, w').
Proof.
  induction videos as [|v rest IH]; intros total current w.
  - now exists w.
  - cbn [UploadController.batch_loop].
    unfold bind at 1. unfold get at 1.
    unfold bind at 1. unfold emit at 1. unfold modify at 1.
    unfold UploadController._upload_single_video.
    destruct (retry_loop_run env cfg v mode target copyright
                (VideoProcessor.range (retry_times cfg))
                (log_event
                   (EvProgress (current + 1) total (stats_success w)
                      (stats_failed w) (stats_skipped w)) w))
      as (b & w1 & Hrun & _).
    erewrite bind_ok by exact Hrun.
    destruct b.
    + erewrite bind_ok by reflexivity. apply IH.
    + erewrite bind_ok by reflexivity. apply IH.
Qed.

(** C3.  When the file of a task is found at every attempt, the planner
    yields segments whenever the task is to be split, and the publishing
    client refuses every first call, the task makes exactly one publish call
    per configured attempt (three with the default count of 3), all of them
    refused; it records no success, records exactly one failure, whose
    message is that of the last exception, counts one failed task and
    returns [False] without raising, and the batch loop goes on with the
    tasks that follow from the world the failure left. *)
Theorem retry_exhaustion (env : Env) (cfg : Config)
  (v : UploadController.VideoData) (mode : string) (target : option string)
  (copyright : string) (w : World) :
  0 < retry_times cfg ->
  path_always_found env cfg v ->
  split_always_yields env cfg v ->
  publish_always_fails env mode target ->
  let run :=
    UploadController._upload_single_video env cfg v mode target copyright w
  in
  let evs := events_since w (snd run) in
  fst run = Ok false
  /\ List.length (publish_calls evs) = Z.to_nat (retry_times cfg)
  /\ (retry_times cfg = 3 -> List.length (publish_calls evs) = 3%nat)
  /\ Forall (refused_call env mode) (publish_calls evs)
  /\ history (snd run) = history w
  /\ map notice (failed (snd run)) =
     map notice (failed w) ++ [(UploadController.remote_path v, "上传失败")]
  /\ stats_failed (snd run) = stats_failed w + 1
  /\ stats_success (snd run) = stats_success w
  /\ (forall total current rest,
        UploadController.batch_loop env cfg total current (v :: rest) mode
          target copyright w =
        UploadController.batch_loop env cfg total (current + 1) rest mode
          target copyright
          (snd (UploadController._upload_single_video env cfg v mode target
                  copyright
                  (log_event
                     (EvProgress (current + 1) total (stats_success w)
                        (stats_failed w) (stats_skipped w)) w)))
        /\ exists w',
             UploadController.batch_loop env cfg total current (v :: rest)
               mode target copyright w = (Ok tt, w')).
Proof.
  intros Hpos Hfound Hyield Hfail run evs. subst evs run.
  unfold UploadController._upload_single_video, VideoProcessor.range.
  destruct (Z.to_nat (retry_times cfg)) as [|len] eqn:Hn; [lia|].
  destruct (retry_loop_exhausts env cfg v mode target copyright Hfound Hyield
              Hfail len 0 w)
    as (w' & evs & Hrun & Ht & Hlen & Hall & Hh & _ & Hf & Hsf & Hss);
    [lia|].
  rewrite Hrun. cbn [fst snd].
  unfold events_since. rewrite Ht, skipn_length_app.
  split; [reflexivity|]. split; [exact Hlen|].
  split; [intros H3; rewrite H3 in Hn; rewrite Hlen; lia|].
  split; [exact Hall|]. split; [exact Hh|]. split; [exact Hf|].
  split; [exact Hsf|]. split; [exact Hss|].
  intros total current rest.
  split; [|apply batch_loop_total].
  cbn [UploadController.batch_loop].
  unfold bind at 1. unfold get at 1.
  unfold bind at 1. unfold emit at 1. unfold modify at 1.
  unfold UploadController._upload_single_video, VideoProcessor.range.
  rewrite Hn.
  destruct (retry_loop_exhausts env cfg v mode target copyright Hfound Hyield
              Hfail len 0
              (log_event
                 (EvProgress (current + 1) total (stats_success w)
                    (stats_failed w) (stats_skipped w)) w))
    as (w2 & evs2 & Hrun2 & _); [lia|].
  erewrite bind_ok by exact Hrun2.
  rewrite Hrun2. cbn [snd].
  erewrite bind_ok by reflexivity. reflexivity.
Qed.

Lemma retry_exhaustion_witness :
  let v := Scenario.task "a.flv" (5 * Scenario.GB) in
  let run :=
    UploadController._upload_single_video Scenario.always_refused
      Scenario.default_config v "new" None "1" Scenario.fresh in
  fst run = Ok false
  /\ List.length (publish_calls (events_since Scenario.fresh (snd run)))
     = 3%nat
  /\ history (snd run) = []
  /\ map notice (failed (snd run)) = [("1001-streamer/a.flv", "上传失败")].
Proof.
  cbv zeta.
  assert (Hfound : path_always_found Scenario.always_refused
                     Scenario.default_config
                     (Scenario.task "a.flv" (5 * Scenario.GB))).
  { intros w. exists "/mnt/rclone/1001-streamer/a.flv".
    destruct w as [h f hf ff ss sf sk mounted t].
    destruct mounted; vm_compute; split; reflexivity. }
  assert (Hyield : split_always_yields Scenario.always_refused
                     Scenario.default_config
                     (Scenario.task "a.flv" (5 * Scenario.GB))).
  { intros H. vm_compute in H. discriminate. }
  assert (Hfail : publish_always_fails Scenario.always_refused "new" None).
  { intros t video title cover copyright. reflexivity. }
  destruct (retry_exhaustion Scenario.always_refused Scenario.default_config
              (Scenario.task "a.flv" (5 * Scenario.GB)) "new" None "1"
              Scenario.fresh eq_refl Hfound Hyield Hfail)
    as (H1 & _ & H3 & _ & H5 & H6 & _).
  split; [exact H1|]. split; [exact (H3 eq_refl)|].
  split; [exact H5|exact H6].
Defined.

(** C10.  When every upload process ends with exit code 0 and prints no
    [bvid:BV...] token, [upload_video] returns no identifier, and a task in
    mode [new] is treated as failed at every attempt: the video is uploaded
    once per configured attempt, each time with exit code 0, no success is
    recorded and one failure is. *)
Theorem success_without_bvid_is_failure (env : Env) (cfg : Config)
  (v : UploadController.VideoData) (target : option string)
  (copyright : string) (w : World) :
  0 < retry_times cfg ->
  path_always_found env cfg v ->
  split_always_yields env cfg v ->
  (forall t video title cover cr,
     exists output,
       biliup_upload env t video title cover cr = Some (0, output)
       /\ BilibiliUploader.search_bvid output = None) ->
  let run :=
    UploadController._upload_single_video env cfg v "new" target copyright w
  in
  let evs := events_since w (snd run) in
  (forall video title cover cr w0,
     fst (BilibiliUploader.upload_video env video title cover cr w0)
     = Ok None)
  /\ fst run = Ok false
  /\ List.length (publish_calls evs) = Z.to_nat (retry_times cfg)
  /\ Forall (fun e =>
               exists video title cover cr output,
                 e = EvUpload video title cover cr (Some (0, output))
                 /\ BilibiliUploader.search_bvid output = None)
       (publish_calls evs)
  /\ history (snd run) = history w
  /\ map notice (failed (snd run)) =
     map notice (failed w) ++ [(UploadController.remote_path v, "上传失败")].
Proof.
  intros Hpos Hfound Hyield Hsilent run evs. subst evs run.
  assert (Hnone : forall t video title cover cr,
             BilibiliUploader.bvid_of_exit
               (biliup_upload env t video title cover cr) = None).
  { intros t video title cover cr.
    destruct (Hsilent t video title cover cr) as (output & -> & Hs).
    cbn. exact Hs. }
  assert (Hfail : publish_always_fails env "new" target).
  { intros t video title cover cr. now rewrite Hnone. }
  split.
  { intros video title cover cr w0.
    destruct (upload_video_run env video title cover cr w0) as (c & Hup).
    cbv zeta in Hup. rewrite Hup. cbn [fst]. now rewrite Hnone. }
  unfold UploadController._upload_single_video, VideoProcessor.range.
  destruct (Z.to_nat (retry_times cfg)) as [|len] eqn:Hn; [lia|].
  destruct (retry_loop_exhausts env cfg v "new" target copyright Hfound
              Hyield Hfail len 0 w)
    as (w' & evs & Hrun & Ht & Hlen & Hall & Hh & _ & Hf & _); [lia|].
  rewrite Hrun. cbn [fst snd].
  unfold events_since. rewrite Ht, skipn_length_app.
  split; [reflexivity|]. split; [exact Hlen|].
  split; [|split; [exact Hh|exact Hf]].
  eapply Forall_impl; [|exact Hall].
  intros e (Hans & Hkind & _).
  destruct e; try discriminate.
  destruct Hans as (t & ->).
  destruct (Hsilent t video title cover copyright0) as (output & Hout & Hs).
  exists video, title, cover, copyright0, output. now rewrite Hout.
Qed.

Lemma success_without_bvid_is_failure_witness :
  let v := Scenario.task "a.flv" (5 * Scenario.GB) in
  let run :=
    UploadController._upload_single_video Scenario.silent_success
      Scenario.default_config v "new" None "1" Scenario.fresh in
  fst run = Ok false
  /\ List.length (publish_calls (events_since Scenario.fresh (snd run)))
     = 3%nat
  /\ history (snd run) = []
  /\ map notice (failed (snd run)) = [("1001-streamer/a.flv", "上传失败")].
Proof.
  cbv zeta.
  assert (Hfound : path_always_found Scenario.silent_success
                     Scenario.default_config
                     (Scenario.task "a.flv" (5 * Scenario.GB))).
  { intros w. exists "/mnt/rclone/1001-streamer/a.flv".
    destruct w as [h f hf ff ss sf sk mounted t].
    destruct mounted; vm_compute; split; reflexivity. }
  assert (Hyield : split_always_yields Scenario.silent_success
                     Scenario.default_config
                     (Scenario.task "a.flv" (5 * Scenario.GB))).
  { intros H. vm_compute in H. discriminate. }
  assert (Hsilent : forall t video title cover cr,
             exists output,
               biliup_upload Scenario.silent_success t video title cover cr
               = Some (0, output)
               /\ BilibiliUploader.search_bvid output = None).
  { intros t video title cover cr. exists "upload finished".
    split; reflexivity. }
  destruct (success_without_bvid_is_failure Scenario.silent_success
              Scenario.default_config
              (Scenario.task "a.flv" (5 * Scenario.GB)) None "1"
              Scenario.fresh eq_refl Hfound Hyield Hsilent)
    as (_ & H2 & H3 & _ & H5 & H6).
  split; [exact H2|]. split; [exact H3|].
  split; [exact H5|exact H6].
Defined.

(** C8 (what the code does).  When a task succeeds, exactly one success
    record is appended; it carries the remote path and the size of the
    source and the split flag of the task, and its list of parts is empty,
    for a split source too: [_upload_single_video] calls [add_success]
    without the list of parts. *)
Theorem success_entry_has_no_parts (env : Env) (cfg : Config)
  (v : UploadController.VideoData) (mode : string) (target : option string)
  (copyright : string) (w : World) :
  let run :=
    UploadController._upload_single_video env cfg v mode target copyright w
  in
  fst run = Ok true ->
  exists record,
    history (snd run) = history w ++ [record]
    /\ file_path record = Some (UploadController.remote_path v)
    /\ file_size record = Some (UploadController.size v)
    /\ is_split record =
       UploadController.needs_split_of cfg
         (UploadController.size_in_gb (UploadController.size v))
    /\ parts record = [].
Proof.
  intros run Hok. subst run.
  unfold UploadController._upload_single_video in *.
  destruct (retry_loop_run env cfg v mode target copyright
              (VideoProcessor.range (retry_times cfg)) w)
    as (b & w' & Hrun & Htrue & _).
  cbv zeta in Htrue.
  rewrite Hrun in Hok |- *. cbn [fst snd] in Hok |- *.
  injection Hok as ->.
  destruct (Htrue eq_refl) as (w1 & bv & Hh).
  eexists. split; [exact Hh|]. repeat split.
Qed.

Lemma success_entry_has_no_parts_witness :
  let v := Scenario.task "big.flv" (40 * Scenario.GB) in
  let run :=
    UploadController._upload_single_video Scenario.all_well
      Scenario.default_config v "new" None "1" Scenario.fresh in
  fst run = Ok true
  /\ List.length
       (publish_calls (events_since Scenario.fresh (snd run))) = 3%nat
  /\ map is_split (history (snd run)) = [true]
  /\ map parts (history (snd run)) = [[]].
Proof.
  cbv zeta.
  assert (Hok : fst (UploadController._upload_single_video Scenario.all_well
                       Scenario.default_config
                       (Scenario.task "big.flv" (40 * Scenario.GB)) "new"
                       None "1" Scenario.fresh) = Ok true)
    by (vm_compute; reflexivity).
  destruct (success_entry_has_no_parts Scenario.all_well
              Scenario.default_config
              (Scenario.task "big.flv" (40 * Scenario.GB)) "new" None "1"
              Scenario.fresh Hok) as (record & Hh & _ & _ & Hsplit & Hparts).
  split; [exact Hok|]. split; [vm_compute; reflexivity|].
  rewrite Hh. cbn [history Scenario.fresh app map].
  rewrite Hsplit, Hparts. split; [vm_compute; reflexivity|reflexivity].
Defined.

(** * Further properties of the code *)

(** ** The ledger across restarts *)

(** X1.  When the history file is written completely, a process started
    afterwards reads back exactly the success log that [add_success] left
    in memory, and finds the new pair uploaded. *)
Theorem reload_after_add_success (env : Env) (w : World) (path : string)
  (bytes : Z) (target : option string) (split : bool)
  (segments : option (list string)) :
  let w' :=
    snd (UploadHistory.add_success env path bytes target split segments w) in
  write_history env (trace w) (history w') = WriteDone ->
  history (UploadController.__init__ w') = history w'
  /\ UploadHistory.is_uploaded (history (UploadController.__init__ w')) path
       bytes = true.
Proof.
  intros w' Hdone. subst w'. rewrite add_success_run in *.
  cbn [snd history log_event set_history_file set_history] in Hdone.
  cbn [snd UploadController.__init__ history history_file log_event
       set_history_file set_history].
  rewrite Hdone. cbn [apply_write UploadHistory._load_history].
  split; [reflexivity|].
  rewrite is_uploaded_app. unfold success_record.
  rewrite same_fingerprint_own. apply orb_true_r.
Qed.

Lemma reload_after_add_success_witness :
  let w' :=
    snd (UploadHistory.add_success Scenario.all_well "1001-streamer/f.flv"
           (3 * Scenario.GB) (Some "BV6ff") false None
           (Scenario.with_history Scenario.five_entries)) in
  List.length (history (UploadController.__init__ w')) = 6%nat
  /\ UploadHistory.is_uploaded (history (UploadController.__init__ w'))
       "1001-streamer/f.flv" (3 * Scenario.GB) = true.
Proof.
  cbv zeta.
  destruct (reload_after_add_success Scenario.all_well
              (Scenario.with_history Scenario.five_entries)
              "1001-streamer/f.flv" (3 * Scenario.GB) (Some "BV6ff") false
              None eq_refl) as (Hh & Hup).
  split; [rewrite Hh; reflexivity|exact Hup].
Defined.

(** X2.  A write that fails is only logged, and the next start pays for it.
    When the dump is interrupted the file is left truncated, [_load_history]
    gives the empty list and every pair, old or new, counts as not uploaded.
    When the file cannot be opened, the next start finds what the file held
    before: the new record is lost. *)
Theorem reload_after_failed_write (env : Env) (w : World) (path : string)
  (bytes : Z) (target : option string) (split : bool)
  (segments : option (list string)) :
  let w' :=
    snd (UploadHistory.add_success env path bytes target split segments w) in
  let o := write_history env (trace w) (history w') in
  (o = DumpInterrupted ->
   history (UploadController.__init__ w') = []
   /\ forall p b,
        UploadHistory.is_uploaded (history (UploadController.__init__ w')) p
          b = false)
  /\ (o = OpenRefused ->
      history (UploadController.__init__ w') =
      UploadHistory._load_history (history_file w)).
Proof.
  intros w' o. subst o w'. rewrite add_success_run.
  cbn [snd UploadController.__init__ history history_file log_event
       set_history_file set_history].
  split; intros ->; cbn [apply_write UploadHistory._load_history].
  - split; reflexivity.
  - reflexivity.
Qed.

Lemma reload_after_failed_write_witness :
  let env := Scenario.after_deletions DumpInterrupted in
  let w' :=
    snd (UploadHistory.add_success env "1001-streamer/f.flv"
           (3 * Scenario.GB) (Some "BV6ff") false None
           (Scenario.with_history Scenario.five_entries)) in
  List.length (history w') = 6%nat
  /\ history (UploadController.__init__ w') = []
  /\ UploadHistory.is_uploaded (history (UploadController.__init__ w'))
       "1001-streamer/a.flv" (5 * Scenario.GB) = false.
Proof.
  cbv zeta.
  destruct (proj1 (reload_after_failed_write
                     (Scenario.after_deletions DumpInterrupted)
                     (Scenario.with_history Scenario.five_entries)
                     "1001-streamer/f.flv" (3 * Scenario.GB) (Some "BV6ff")
                     false None) eq_refl) as (Hh & Hup).
  split; [reflexivity|]. split; [exact Hh|apply Hup].
Defined.

(** ** The summary of a folder *)

Lemma is_uploaded_path_recorded (records : list HistoryRecord)
  (path : string) (bytes : Z) :
  UploadHistory.is_uploaded records path bytes = true ->
  UploadHistory.path_recorded records path = true.
Proof.
  unfold UploadHistory.path_recorded.
  induction records as [|r rest IH]; cbn; [discriminate|].
  unfold UploadHistory.same_fingerprint.
  destruct (file_path r) as [p|]; [|exact IH].
  destruct (file_size r) as [s|].
  - destruct (String.eqb p path); cbn; [reflexivity|exact IH].
  - destruct (String.eqb p path); cbn; [reflexivity|exact IH].
Qed.

Lemma filter_length_le_pointwise {A : Type} (f g : A -> bool) (l : list A) :
  (forall x, f x = true -> g x = true) ->
  (List.length (filter f l) <= List.length (filter g l))%nat.
Proof.
  intros H. induction l as [|x l IH]; cbn; [lia|].
  destruct (f x) eqn:Ef.
  - rewrite (H x Ef). cbn. lia.
  - destruct (g x); cbn; lia.
Qed.

(** X3.  [get_uploaded_count] splits the files of a folder in two: both
    numbers are non-negative and add up to the number of files.  It looks
    at paths only, so it counts at least every file that [is_uploaded]
    accepts, whatever the sizes asked for. *)
Theorem get_uploaded_count_partition (records : list HistoryRecord)
  (folder_videos : list string) (folder_name : string) :
  let counts :=
    UploadHistory.get_uploaded_count records folder_videos folder_name in
  0 <= fst counts
  /\ 0 <= snd counts
  /\ fst counts + snd counts = Z.of_nat (List.length folder_videos)
  /\ forall bytes_of : string -> Z,
       Z.of_nat
         (List.length
            (filter (fun video =>
                       UploadHistory.is_uploaded records
                         (folder_name ++ "/" ++ video)%string
                         (bytes_of video)) folder_videos))
       <= fst counts.
Proof.
  unfold UploadHistory.get_uploaded_count. cbn [fst snd].
  match goal with
  | |- context [Z.of_nat (List.length (filter ?f folder_videos))] =>
      pose proof (filter_length_le f folder_videos) as Hlen
  end.
  split; [lia|]. split; [lia|]. split; [lia|].
  intros bytes_of. apply inj_le.
  apply filter_length_le_pointwise.
  intros video. apply is_uploaded_path_recorded.
Qed.

(** ** Revalidating twice *)

Lemma nothing_left_to_remove (exists_remote : string -> bool)
  (records : list HistoryRecord) :
  filter (no_longer_valid exists_remote)
    (filter (still_valid exists_remote) records) = [].
Proof.
  unfold no_longer_valid.
  induction records as [|r rest IH]; cbn; [reflexivity|].
  destruct (still_valid exists_remote r) eqn:E; cbn; [|exact IH].
  rewrite E. cbn. exact IH.
Qed.

(** A revalidation that finds every record valid only asks the tool. *)
Lemma prune_nothing_to_remove (env : Env) (exists_remote : string -> bool)
  (w : World) :
  (forall t b, biliup_show env t b = exists_remote b) ->
  filter (no_longer_valid exists_remote) (history w) = [] ->
  UploadHistory.prune_invalid_records env
    (BilibiliUploader.validate_bvid env) w =
  (Ok (Z.of_nat (List.length (history w)), 0),
   with_events (existence_checks exists_remote (history w)) w).
Proof.
  intros Hshow Hnone.
  unfold UploadHistory.prune_invalid_records.
  unfold bind at 1. unfold get at 1.
  erewrite bind_ok by (apply sort_records_run; exact Hshow).
  cbn [app]. rewrite Hnone, Z.add_0_l. reflexivity.
Qed.

(** X4.  Revalidation is idempotent for an existence check that keeps its
    answers: run again right after a first run, it checks the records that
    were kept, removes none of them, records no failure and does not write
    the history file. *)
Theorem prune_invalid_records_twice (env : Env)
  (exists_remote : string -> bool) (w : World) :
  (forall t b, biliup_show env t b = exists_remote b) ->
  let first :=
    UploadHistory.prune_invalid_records env
      (BilibiliUploader.validate_bvid env) w in
  let second :=
    UploadHistory.prune_invalid_records env
      (BilibiliUploader.validate_bvid env) (snd first) in
  fst second = Ok (Z.of_nat (List.length (history (snd first))), 0)
  /\ history (snd second) = history (snd first)
  /\ failed (snd second) = failed (snd first)
  /\ history_file (snd second) = history_file (snd first)
  /\ filter is_history_write (events_since (snd first) (snd second)) = [].
Proof.
  intros Hshow first second. subst second first.
  destruct (prune_invalid_records_run env exists_remote Hshow w)
    as (w1 & Hrun & Hh & _).
  rewrite Hrun. cbn [snd].
  assert (Hnone : filter (no_longer_valid exists_remote) (history w1) = [])
    by (rewrite Hh; apply nothing_left_to_remove).
  rewrite (prune_nothing_to_remove env exists_remote w1 Hshow Hnone).
  cbn [fst snd history failed history_file with_events].
  split; [reflexivity|]. split; [reflexivity|]. split; [reflexivity|].
  split; [reflexivity|].
  unfold events_since. cbn [trace with_events]. rewrite skipn_length_app.
  clear. induction (history w1) as [|r rest IH]; [reflexivity|].
  cbn [existence_checks].
  destruct (bvid r) as [b|]; [|exact IH].
  destruct (Py.truthy (Some b)); [|exact IH].
  cbn [filter is_history_write]. exact IH.
Qed.

Lemma prune_invalid_records_twice_witness :
  let env := Scenario.after_deletions WriteDone in
  let first :=
    UploadHistory.prune_invalid_records env
      (BilibiliUploader.validate_bvid env)
      (Scenario.with_history Scenario.five_entries) in
  let second :=
    UploadHistory.prune_invalid_records env
      (BilibiliUploader.validate_bvid env) (snd first) in
  fst first = Ok (5, 2)
  /\ fst second = Ok (3, 0)
  /\ List.length (failed (snd second)) = 2%nat.
Proof.
  cbv zeta.
  destruct (prune_invalid_records_twice (Scenario.after_deletions WriteDone)
              Scenario.not_deleted
              (Scenario.with_history Scenario.five_entries)
              (fun _ _ => eq_refl)) as (H1 & _ & H3 & _).
  split; [reflexivity|]. split; [rewrite H1; reflexivity|].
  rewrite H3. reflexivity.
Defined.

(** ** Where the file of a task comes from *)

(** X5.  A task that needs no split is served from the mount whenever the
    mount shows its file: the resolver returns the path under the mount
    point, measures no disk space and downloads nothing.  The mount is made
    at most once: a resolver that finds the remote mounted starts no mount
    at all. *)
Theorem mounted_file_needs_no_download (env : Env) (cfg : Config)
  (path name : string) (bytes : Z) (w : World) :
  let p :=
    path_join env
      (path_join env (mount_point cfg)
         (UploadController.first_component path)) name in
  let run :=
    UploadController._get_video_path env cfg path name bytes false w in
  let evs := events_since w (snd run) in
  (is_mounted w = true \/ mount_populated env (trace w) = true) ->
  (forall t, path_exists env t p = true) ->
  Py.truthy (Some p) = true ->
  fst run = Ok (Some p)
  /\ is_mounted (snd run) = true
  /\ filter is_disk_usage evs = []
  /\ filter is_download evs = []
  /\ (is_mounted w = true -> evs = [])
  /\ (is_mounted w = false -> evs = [EvMount true]).
Proof.
  intros p run evs Hmount Hexists Htruthy. subst evs run.
  unfold UploadController._get_video_path, UploadController.mounted_copy,
    RcloneManager.mount, RcloneManager.get_mounted_path,
    bind, get, emit, modify, ret.
  cbn [negb].
  destruct (is_mounted w) eqn:Hm; cbn [negb].
  - rewrite !Hm. cbn [negb]. fold p. rewrite Hexists, Htruthy.
    cbn [fst snd]. unfold events_since. rewrite skipn_all.
    repeat split; auto. discriminate.
  - destruct Hmount as [Hmount|Hmount]; [discriminate|].
    rewrite Hm, Hmount.
    cbn [is_mounted set_is_mounted log_event negb trace].
    fold p. rewrite Hexists, Htruthy.
    cbn [fst snd is_mounted set_is_mounted log_event trace].
    unfold events_since. cbn [trace set_is_mounted log_event].
    rewrite skipn_length_app.
    repeat split; auto. discriminate.
Qed.

Lemma mounted_file_needs_no_download_witness :
  let run :=
    UploadController._get_video_path Scenario.all_well
      Scenario.default_config "1001-streamer/a.flv" "a.flv"
      (5 * Scenario.GB) false Scenario.fresh in
  fst run = Ok (Some "/mnt/rclone/1001-streamer/a.flv")
  /\ events_since Scenario.fresh (snd run) = [EvMount true].
Proof.
  cbv zeta.
  destruct (mounted_file_needs_no_download Scenario.all_well
              Scenario.default_config "1001-streamer/a.flv" "a.flv"
              (5 * Scenario.GB) Scenario.fresh (or_intror eq_refl)
              (fun _ => eq_refl) eq_refl)
    as (H1 & _ & _ & _ & _ & H6).
  split; [exact H1|exact (H6 eq_refl)].
Defined.

(** X6.  A task that must be split never uses the mount: the resolver
    starts no mount, leaves the mount flag as it is, and returns either
    nothing or the file in the download directory of the local cache, the
    latter only after a download that succeeded. *)
Theorem split_task_uses_local_copy (env : Env) (cfg : Config)
  (path name : string) (bytes : Z) (w : World) :
  let run :=
    UploadController._get_video_path env cfg path name bytes true w in
  let evs := events_since w (snd run) in
  (fst run = Ok None
   \/ (fst run = Ok (Some (cache_file env cfg name))
       /\ In (EvDownload path (cache_file env cfg name) true) evs))
  /\ is_mounted (snd run) = is_mounted w
  /\ filter is_mount evs = [].
Proof.
  intros run evs. subst evs run.
  unfold UploadController._get_video_path, UploadController.mounted_copy,
    UploadController.local_copy, RcloneManager.download_file,
    bind, get, emit, modify, ret.
  cbn [negb Py.truthy]. fold (cache_file env cfg name).
  destruct (Py.int_lt_float _ _).
  - cbn [fst snd is_mounted log_event]. unfold events_since.
    cbn [trace log_event]. rewrite skipn_length_app.
    split; [now left|]. split; reflexivity.
  - cbn [trace log_event].
    destruct (rclone_copy env _ path (cache_file env cfg name)) eqn:Hcopy;
      cbn [fst snd is_mounted log_event]; unfold events_since;
      cbn [trace log_event]; rewrite <- app_assoc, skipn_length_app;
      cbn [app filter is_mount].
    + split; [|split; reflexivity].
      right. split; [reflexivity|]. right. left. reflexivity.
    + split; [now left|]. split; reflexivity.
Qed.

(** ** What a task and a batch leave in the logs and the counters *)

Section Accounting.

Variable env : Env.
Variable cfg : Config.
Variable mode : string.
Variable target : option string.
Variable copyright : string.

(** The retry loop over the attempts [start], ..., [start + len - 1], the
    last of which is the last configured attempt. *)
Lemma retry_loop_account (v : UploadController.VideoData) (len : nat) :
  forall (start : nat) (w : World),
    (start + len = Z.to_nat (retry_times cfg))%nat ->
    exists b w',
      UploadController.retry_loop env cfg v mode target copyright
        (seq start len) w = (Ok b, w')
      /\ stats_success w' = stats_success w
      /\ stats_skipped w' = stats_skipped w
      /\ (b = true ->
          (exists record, history w' = history w ++ [record])
          /\ failed w' = failed w
          /\ stats_failed w' = stats_failed w)
      /\ (b = false ->
          history w' = history w
          /\ (len = 0%nat ->
              failed w' = failed w /\ stats_failed w' = stats_failed w)
          /\ (len <> 0%nat ->
              (exists f,
                 failed w' = failed w ++ [f]
                 /\ failed_file_path f = UploadController.remote_path v)
              /\ stats_failed w' = stats_failed w + 1)).
Proof.
  induction len as [|len IH]; intros start w Hlen.
  - exists false, w. split; [reflexivity|].
    split; [reflexivity|]. split; [reflexivity|].
    split; [discriminate|]. intros _. split; [reflexivity|].
    split; [intros _; split; reflexivity|].
    intros H. now contradiction H.
  - cbn [seq UploadController.retry_loop].
    unfold UploadController.attempt_upload, try_except.
    unfold bind at 1.
    destruct (try_upload_run env cfg v mode target copyright w)
      as [(e & w1 & evs & Hrun & (Hh & Hf & _ & _ & Hss & Hsf & Hsk) & _)
         |(w1 & evs & bv & ((Hh & Hf & _ & _ & Hss & Hsf & Hsk) & _) & Hrun)];
      rewrite Hrun.
    + destruct (Z.eq_dec (Z.of_nat start) (retry_times cfg - 1)) as [Hl|Hl].
      * unfold UploadController.on_failure. rewrite Hl, Z.eqb_refl.
        erewrite bind_ok by apply add_failed_run.
        eexists false, _. split; [reflexivity|].
        cbn [stats_success stats_skipped stats_failed history failed
             log_event set_failed_file set_failed set_stats_failed].
        split; [exact Hss|]. split; [exact Hsk|].
        split; [discriminate|]. intros _.
        split; [exact Hh|]. split; [discriminate|]. intros _.
        split; [|now rewrite Hsf].
        eexists. rewrite Hf. split; reflexivity.
      * rewrite on_failure_again by exact Hl.
        destruct (IH (S start) (log_event (EvSleep 2) w1))
          as (b & w2 & Hrun2 & Hss2 & Hsk2 & Ht & Hfa); [lia|].
        rewrite Hrun2. exists b, w2. split; [reflexivity|].
        cbn [stats_success stats_skipped stats_failed history failed
             log_event] in *.
        split; [congruence|]. split; [congruence|].
        assert (Hmore : len <> 0%nat) by lia.
        split.
        -- intros Hb. destruct (Ht Hb) as ((r & Hr) & Hf2 & Hsf2).
           split; [exists r; congruence|]. split; congruence.
        -- intros Hb. destruct (Hfa Hb) as (Hh2 & _ & Hone).
           destruct (Hone Hmore) as ((f & Hf2 & Hp) & Hsf2).
           split; [congruence|]. split; [discriminate|]. intros _.
           split; [exists f; split; congruence|congruence].
    + eexists true, _. unfold ret. split; [reflexivity|].
      rewrite add_success_run.
      cbn [snd stats_success stats_skipped stats_failed history failed
           log_event set_history_file set_history].
      split; [exact Hss|]. split; [exact Hsk|].
      split; [|discriminate]. intros _.
      split; [eexists; rewrite Hh; reflexivity|]. split; assumption.
Qed.

(** The batch loop when at least one attempt is configured. *)
Lemma batch_loop_account (videos : list UploadController.VideoData) :
  0 < retry_times cfg ->
  forall (total current : Z) (w : World),
  exists w',
    UploadController.batch_loop env cfg total current videos mode target
      copyright w = (Ok tt, w')
    /\ stats_skipped w' = stats_skipped w
    /\ (stats_success w' - stats_success w)
       + (stats_failed w' - stats_failed w)
       = Z.of_nat (List.length videos)
    /\ Z.of_nat (List.length (history w')) =
       Z.of_nat (List.length (history w))
       + (stats_success w' - stats_success w)
    /\ Z.of_nat (List.length (failed w')) =
       Z.of_nat (List.length (failed w))
       + (stats_failed w' - stats_failed w)
    /\ 0 <= stats_success w' - stats_success w
    /\ 0 <= stats_failed w' - stats_failed w.
Proof.
  intros Hpos.
  induction videos as [|v rest IH]; intros total current w.
  - exists w. split; [reflexivity|]. cbn [List.length]. lia.
  - cbn [UploadController.batch_loop].
    unfold bind at 1. unfold get at 1.
    unfold bind at 1. unfold emit at 1. unfold modify at 1.
    unfold UploadController._upload_single_video, VideoProcessor.range.
    destruct (retry_loop_account v (Z.to_nat (retry_times cfg)) 0
                (log_event
                   (EvProgress (current + 1) total (stats_success w)
                      (stats_failed w) (stats_skipped w)) w) eq_refl)
      as (b & w1 & Hrun & Hss & Hsk & Ht & Hf).
    cbn [stats_success stats_skipped stats_failed history failed log_event]
      in Hss, Hsk, Ht, Hf.
    erewrite bind_ok by exact Hrun.
    destruct b.
    + destruct (Ht eq_refl) as ((r & Hr) & Hfl & Hsf).
      erewrite bind_ok by reflexivity.
      destruct (IH total (current + 1)
                  (set_stats_success (stats_success w1 + 1) w1))
        as (w2 & Hrun2 & Hsk2 & Hsum & Hh2 & Hf2 & Hp1 & Hp2).
      cbn [stats_success stats_skipped stats_failed history failed
           set_stats_success] in Hsk2, Hsum, Hh2, Hf2, Hp1, Hp2.
      exists w2. split; [exact Hrun2|].
      rewrite Hr, length_app in Hh2. cbn [List.length] in Hh2 |- *.
      rewrite Hfl in Hf2.
      repeat split; lia.
    + destruct (Hf eq_refl) as (Hh & _ & Hone).
      destruct Hone as ((f & Hfl & _) & Hsf); [lia|].
      erewrite bind_ok by reflexivity.
      destruct (IH total (current + 1) w1)
        as (w2 & Hrun2 & Hsk2 & Hsum & Hh2 & Hf2 & Hp1 & Hp2).
      exists w2. split; [exact Hrun2|].
      rewrite Hh in Hh2. rewrite Hfl, length_app in Hf2.
      cbn [List.length] in Hf2 |- *.
      repeat split; lia.
Qed.

(** The batch loop when no attempt is configured: only the progress
    headers are shown. *)
Lemma batch_loop_idle (videos : list UploadController.VideoData) :
  retry_times cfg <= 0 ->
  forall (total current : Z) (w : World),
  exists evs,
    UploadController.batch_loop env cfg total current videos mode target
      copyright w = (Ok tt, with_events evs w)
    /\ List.length evs = List.length videos
    /\ forallb is_progress evs = true.
Proof.
  intros Hnone.
  assert (Hrange : VideoProcessor.range (retry_times cfg) = []).
  { unfold VideoProcessor.range.
    replace (Z.to_nat (retry_times cfg)) with 0%nat by lia. reflexivity. }
  induction videos as [|v rest IH]; intros total current w.
  - exists []. rewrite with_events_nil. repeat split.
  - cbn [UploadController.batch_loop].
    unfold bind at 1. unfold get at 1.
    unfold bind at 1. unfold emit at 1. unfold modify at 1.
    unfold UploadController._upload_single_video. rewrite Hrange.
    cbn [UploadController.retry_loop].
    erewrite bind_ok by reflexivity.
    erewrite bind_ok by reflexivity.
    destruct (IH total (current + 1)
                (log_event
                   (EvProgress (current + 1) total (stats_success w)
                      (stats_failed w) (stats_skipped w)) w))
      as (evs & Hrun & Hlen & Hall).
    eexists (_ :: evs). rewrite Hrun.
    rewrite log_event_with_events, with_events_app.
    split; [reflexivity|]. cbn. rewrite Hlen, Hall. split; reflexivity.
Qed.

End Accounting.

(** X7.  With at least one attempt configured, a task leaves exactly one
    record.  When it returns [True] the success log has one record more and
    the failure log and the failure counter are untouched, so the attempts
    that failed before the successful one leave no failure record.  When it
    returns [False] the success log is untouched, the failure log has one
    record more, for the remote path of the task, and the failure counter
    is one higher.  The success counter is left to the batch loop. *)
Theorem upload_leaves_one_record (env : Env) (cfg : Config)
  (v : UploadController.VideoData) (mode : string) (target : option string)
  (copyright : string) (w : World) :
  0 < retry_times cfg ->
  let run :=
    UploadController._upload_single_video env cfg v mode target copyright w
  in
  (fst run = Ok true \/ fst run = Ok false)
  /\ (fst run = Ok true ->
      (exists record, history (snd run) = history w ++ [record])
      /\ failed (snd run) = failed w
      /\ stats_failed (snd run) = stats_failed w)
  /\ (fst run = Ok false ->
      history (snd run) = history w
      /\ (exists f,
            failed (snd run) = failed w ++ [f]
            /\ failed_file_path f = UploadController.remote_path v)
      /\ stats_failed (snd run) = stats_failed w + 1)
  /\ stats_success (snd run) = stats_success w.
Proof.
  intros Hpos run. subst run.
  unfold UploadController._upload_single_video, VideoProcessor.range.
  destruct (retry_loop_account env cfg mode target copyright v
              (Z.to_nat (retry_times cfg)) 0 w eq_refl)
    as (b & w' & Hrun & Hss & _ & Ht & Hf).
  rewrite Hrun. cbn [fst snd].
  split; [destruct b; auto|].
  split.
  - intros Hb. injection Hb as ->. exact (Ht eq_refl).
  - split; [|exact Hss].
    intros Hb. injection Hb as ->.
    destruct (Hf eq_refl) as (Hh & _ & Hone).
    destruct Hone as (Hrec & Hsf); [lia|].
    split; [exact Hh|]. split; assumption.
Qed.

Lemma upload_leaves_one_record_witness :
  let run :=
    UploadController._upload_single_video Scenario.third_time_lucky
      Scenario.default_config (Scenario.task "a.flv" (5 * Scenario.GB))
      "new" None "1" Scenario.fresh in
  fst run = Ok true
  /\ List.length (publish_calls (events_since Scenario.fresh (snd run)))
     = 3%nat
  /\ List.length (history (snd run)) = 1%nat
  /\ failed (snd run) = []
  /\ stats_failed (snd run) = 0.
Proof.
  cbv zeta.
  assert (Hok : fst (UploadController._upload_single_video
                       Scenario.third_time_lucky Scenario.default_config
                       (Scenario.task "a.flv" (5 * Scenario.GB)) "new" None
                       "1" Scenario.fresh) = Ok true)
    by (vm_compute; reflexivity).
  destruct (upload_leaves_one_record Scenario.third_time_lucky
              Scenario.default_config
              (Scenario.task "a.flv" (5 * Scenario.GB)) "new" None "1"
              Scenario.fresh eq_refl) as (_ & Htrue & _).
  destruct (Htrue Hok) as ((record & Hh) & Hf & Hsf).
  split; [exact Hok|]. split; [vm_compute; reflexivity|].
  split; [rewrite Hh; reflexivity|]. split; [exact Hf|exact Hsf].
Defined.

(** X8.  With at least one attempt configured, a batch counts every task
    exactly once: the success and failure counters together grow by the
    number of tasks, the success log grows by as many records as the
    success counter grows and the failure log by as many as the failure
    counter, and the skipped counter is never touched. *)
Theorem batch_counts_every_task (env : Env) (cfg : Config)
  (folder_name : string) (videos : list UploadController.VideoData)
  (mode : string) (target : option string) (copyright : string)
  (w : World) :
  0 < retry_times cfg ->
  let run :=
    UploadController._batch_upload_videos env cfg folder_name videos mode
      target copyright w in
  let succeeded := stats_success (snd run) - stats_success w in
  let given_up := stats_failed (snd run) - stats_failed w in
  fst run = Ok tt
  /\ 0 <= succeeded /\ 0 <= given_up
  /\ succeeded + given_up = Z.of_nat (List.length videos)
  /\ Z.of_nat (List.length (history (snd run))) =
     Z.of_nat (List.length (history w)) + succeeded
  /\ Z.of_nat (List.length (failed (snd run))) =
     Z.of_nat (List.length (failed w)) + given_up
  /\ stats_skipped (snd run) = stats_skipped w.
Proof.
  intros Hpos run succeeded given_up. subst succeeded given_up run.
  unfold UploadController._batch_upload_videos.
  destruct (batch_loop_account env cfg mode target copyright videos Hpos
              (Z.of_nat (List.length videos)) 0 w)
    as (w' & Hrun & Hsk & Hsum & Hh & Hf & Hp1 & Hp2).
  rewrite Hrun. cbn [fst snd]. repeat split; assumption.
Qed.

Lemma batch_counts_every_task_witness :
  let run :=
    UploadController._batch_upload_videos Scenario.one_bad_file
      Scenario.default_config "1001-streamer"
      [Scenario.task "a.flv" (5 * Scenario.GB);
       Scenario.task "bad.flv" (6 * Scenario.GB);
       Scenario.task "c.flv" (7 * Scenario.GB)] "new" None "1"
      Scenario.fresh in
  stats_success (snd run) = 2
  /\ stats_failed (snd run) = 1
  /\ stats_skipped (snd run) = 0
  /\ List.length (history (snd run)) = 2%nat
  /\ List.length (failed (snd run)) = 1%nat.
Proof.
  cbv zeta.
  destruct (batch_counts_every_task Scenario.one_bad_file
              Scenario.default_config "1001-streamer"
              [Scenario.task "a.flv" (5 * Scenario.GB);
               Scenario.task "bad.flv" (6 * Scenario.GB);
               Scenario.task "c.flv" (7 * Scenario.GB)] "new" None "1"
              Scenario.fresh eq_refl)
    as (_ & _ & _ & Hsum & Hh & Hf & Hsk).
  assert (Hs : stats_success
                 (snd (UploadController._batch_upload_videos
                         Scenario.one_bad_file Scenario.default_config
                         "1001-streamer"
                         [Scenario.task "a.flv" (5 * Scenario.GB);
                          Scenario.task "bad.flv" (6 * Scenario.GB);
                          Scenario.task "c.flv" (7 * Scenario.GB)] "new"
                         None "1" Scenario.fresh)) = 2)
    by (vm_compute; reflexivity).
  rewrite Hs in Hsum, Hh.
  cbn [Scenario.fresh stats_success stats_failed stats_skipped history
       failed List.length] in Hsum, Hh, Hf, Hsk.
  split; [exact Hs|]. split; [lia|]. split; [exact Hsk|].
  split; [lia|lia].
Defined.

(** X9.  With a retry count of zero or less a batch attempts nothing: no
    tool is called, no record is written and no counter moves; the loop
    only shows one progress header per task, and every task is dropped
    without a trace in either log. *)
Theorem batch_without_attempts (env : Env) (cfg : Config)
  (folder_name : string) (videos : list UploadController.VideoData)
  (mode : string) (target : option string) (copyright : string)
  (w : World) :
  retry_times cfg <= 0 ->
  let run :=
    UploadController._batch_upload_videos env cfg folder_name videos mode
      target copyright w in
  let evs := events_since w (snd run) in
  fst run = Ok tt
  /\ history (snd run) = history w
  /\ failed (snd run) = failed w
  /\ stats_success (snd run) = stats_success w
  /\ stats_failed (snd run) = stats_failed w
  /\ stats_skipped (snd run) = stats_skipped w
  /\ List.length evs = List.length videos
  /\ forallb is_progress evs = true.
Proof.
  intros Hnone run evs. subst evs run.
  unfold UploadController._batch_upload_videos.
  destruct (batch_loop_idle env cfg mode target copyright videos Hnone
              (Z.of_nat (List.length videos)) 0 w)
    as (evs & Hrun & Hlen & Hall).
  rewrite Hrun. cbn [fst snd]. unfold events_since.
  cbn [trace with_events history failed stats_success stats_failed
       stats_skipped].
  rewrite skipn_length_app. repeat split; assumption.
Qed.

Lemma batch_without_attempts_witness :
  let run :=
    UploadController._batch_upload_videos Scenario.all_well
      Scenario.no_attempts "1001-streamer"
      [Scenario.task "a.flv" (5 * Scenario.GB);
       Scenario.task "c.flv" (7 * Scenario.GB)] "new" None "1"
      Scenario.fresh in
  history (snd run) = [] /\ failed (snd run) = []
  /\ List.length (events_since Scenario.fresh (snd run)) = 2%nat.
Proof.
  cbv zeta.
  assert (Hnone : retry_times Scenario.no_attempts <= 0)
    by (cbn; lia).
  destruct (batch_without_attempts Scenario.all_well Scenario.no_attempts
              "1001-streamer"
              [Scenario.task "a.flv" (5 * Scenario.GB);
               Scenario.task "c.flv" (7 * Scenario.GB)] "new" None "1"
              Scenario.fresh Hnone)
    as (_ & Hh & Hf & _ & _ & _ & Hlen & _).
  split; [exact Hh|]. split; [exact Hf|exact Hlen].
Defined.

(** ** The list handed to a batch *)

Lemma not_uploaded_with_other_size (records : list HistoryRecord)
  (path : string) (bytes : Z) :
  (forall r, In r records -> file_size r <> Some bytes) ->
  UploadHistory.is_uploaded records path bytes = false.
Proof.
  induction records as [|r rest IH]; intros H; cbn; [reflexivity|].
  unfold UploadHistory.same_fingerprint.
  assert (Hr := H r (or_introl eq_refl)).
  destruct (file_path r) as [p|]; [|apply IH; intros; apply H; now right].
  destruct (file_size r) as [s|]; [|apply IH; intros; apply H; now right].
  destruct (Z.eqb_spec s bytes) as [->|Hne]; [now contradiction Hr|].
  rewrite andb_false_r. apply IH. intros; apply H; now right.
Qed.

(** X10.  When the size listing is empty, which is what
    [get_all_file_sizes] gives when [rclone ls] fails or prints a line it
    cannot read, every selected file gets the size 0.  Unless the history
    holds records of size 0, no file is then recognised as uploaded: all the
    selected files are scheduled, in their order, the uploaded ones too. *)
Theorem empty_size_listing_schedules_all (env : Env)
  (records : list HistoryRecord) (folder_name room streamer : string)
  (selected_videos : list string) :
  (forall r, In r records -> file_size r <> Some 0) ->
  let tasks :=
    UploadController._get_videos_to_upload env records folder_name room
      streamer [] selected_videos in
  map UploadController.filename tasks = selected_videos
  /\ map UploadController.size tasks = map (fun _ => 0) selected_videos
  /\ map UploadController.remote_path tasks =
     map (fun video => (folder_name ++ "/" ++ video)%string)
       selected_videos.
Proof.
  intros Hsizes tasks. subst tasks.
  induction selected_videos as [|video rest IH].
  - repeat split.
  - cbn [UploadController._get_videos_to_upload UploadController.size_of].
    rewrite (not_uploaded_with_other_size records _ 0 Hsizes).
    destruct IH as (H1 & H2 & H3).
    cbn [map UploadController.filename UploadController.size
         UploadController.remote_path].
    rewrite H1, H2, H3. repeat split.
Qed.

Lemma empty_size_listing_schedules_all_witness :
  let tasks :=
    UploadController._get_videos_to_upload Scenario.all_well
      Scenario.five_entries "1001-streamer" "1001" "streamer" []
      ["a.flv"; "b.flv"] in
  UploadHistory.is_uploaded Scenario.five_entries "1001-streamer/a.flv"
    (5 * Scenario.GB) = true
  /\ map UploadController.filename tasks = ["a.flv"; "b.flv"]
  /\ map UploadController.size tasks = [0; 0].
Proof.
  cbv zeta.
  assert (Hsizes : forall r,
             In r Scenario.five_entries -> file_size r <> Some 0).
  { intros r Hin.
    repeat (destruct Hin as [<-|Hin]; [discriminate|]). destruct Hin. }
  destruct (empty_size_listing_schedules_all Scenario.all_well
              Scenario.five_entries "1001-streamer" "1001" "streamer"
              ["a.flv"; "b.flv"] Hsizes) as (H1 & H2 & _).
  split; [reflexivity|]. split; [exact H1|exact H2].
Defined.

(** ** The name of a folder *)

Lemma split_on_not_nil (sep : ascii) (s : string) : Py.split_on sep s <> [].
Proof.
  destruct s as [|c rest]; cbn; [discriminate|].
  destruct (Ascii.eqb c sep); [discriminate|].
  destruct (Py.split_on sep rest); discriminate.
Qed.

Lemma join_split_on (sep : ascii) (s : string) :
  Py.join_with (String sep EmptyString) (Py.split_on sep s) = s.
Proof.
  induction s as [|c rest IH]; [reflexivity|].
  cbn [Py.split_on].
  destruct (Ascii.eqb_spec c sep) as [->|Hne].
  - pose proof (split_on_not_nil sep rest) as Hnil.
    destruct (Py.split_on sep rest) as [|piece pieces] eqn:E;
      [now contradiction Hnil|].
    change (Py.join_with (String sep "") ("" :: piece :: pieces))
      with (String sep (Py.join_with (String sep "") (piece :: pieces))).
    now rewrite IH.
  - pose proof (split_on_not_nil sep rest) as Hnil.
    destruct (Py.split_on sep rest) as [|piece pieces] eqn:E;
      [now contradiction Hnil|].
    rewrite <- IH. destruct pieces; reflexivity.
Qed.

Lemma split_on_head (sep : ascii) (a b : string) :
  Py.has_char sep a = false ->
  Py.split_on sep (a ++ String sep b) = a :: Py.split_on sep b.
Proof.
  induction a as [|c a IH]; cbn; intros Ha.
  - now rewrite Ascii.eqb_refl.
  - apply orb_false_iff in Ha as [Hc Ha].
    rewrite Hc, (IH Ha). reflexivity.
Qed.

Lemma split_on_whole (sep : ascii) (a : string) :
  Py.has_char sep a = false -> Py.split_on sep a = [a].
Proof.
  induction a as [|c a IH]; cbn; intros Ha; [reflexivity|].
  apply orb_false_iff in Ha as [Hc Ha].
  rewrite Hc, (IH Ha). reflexivity.
Qed.

(** X11.  A folder name is cut at its first hyphen: for a room id without
    hyphen and any streamer name, the folder [room-streamer] gives back the
    room id and the whole streamer name, hyphens included.  A folder name
    without hyphen is its own room id and has the empty streamer name. *)
Theorem folder_name_round_trip (room streamer folder : string) :
  (Py.has_char "-" room = false ->
   UploadController.room_id_of (room ++ "-" ++ streamer) = room
   /\ UploadController.streamer_name_of (room ++ "-" ++ streamer)
      = streamer)
  /\ (Py.has_char "-" folder = false ->
      UploadController.room_id_of folder = folder
      /\ UploadController.streamer_name_of folder = "").
Proof.
  unfold UploadController.room_id_of, UploadController.streamer_name_of.
  split; intros H.
  - change (room ++ "-" ++ streamer)%string
      with (room ++ String "-" streamer)%string.
    rewrite (split_on_head "-" room streamer H). cbn [hd tl].
    split; [reflexivity|]. apply (join_split_on "-").
  - rewrite (split_on_whole "-" folder H). split; reflexivity.
Qed.

Lemma folder_name_round_trip_witness :
  UploadController.room_id_of "1001-some-streamer" = "1001"
  /\ UploadController.streamer_name_of "1001-some-streamer"
     = "some-streamer"
  /\ UploadController.streamer_name_of "backup" = "".
Proof.
  destruct (folder_name_round_trip "1001" "some-streamer" "backup")
    as (H1 & H2).
  destruct (H1 eq_refl) as (Hr & Hs). destruct (H2 eq_refl) as (_ & He).
  split; [exact Hr|]. split; [exact Hs|exact He].
Defined.

(** ** The configuration file *)

Lemma lookup_assign_same (fields : list (string * ConfigFile.json))
  (key : string) (value : ConfigFile.json) :
  ConfigFile.lookup (ConfigFile.assign fields key value) key = Some value.
Proof.
  induction fields as [|[k v] rest IH]; cbn.
  - now rewrite String.eqb_refl.
  - destruct (String.eqb k key) eqn:E; cbn; rewrite E; [reflexivity|exact IH].
Qed.

Lemma lookup_assign_other (fields : list (string * ConfigFile.json))
  (key other : string) (value : ConfigFile.json) :
  other <> key ->
  ConfigFile.lookup (ConfigFile.assign fields key value) other =
  ConfigFile.lookup fields other.
Proof.
  intros Hne.
  assert (Hko : String.eqb key other = false)
    by (apply String.eqb_neq; congruence).
  induction fields as [|[k v] rest IH]; cbn.
  - now rewrite Hko.
  - destruct (String.eqb k key) eqn:E; cbn.
    + apply String.eqb_eq in E. subst k. now rewrite Hko.
    + now rewrite IH.
Qed.

Lemma get_set_in (rest : list string) :
  forall (fields : list (string * ConfigFile.json)) (key : string)
         (value default : ConfigFile.json),
    ConfigFile.get
      (ConfigFile.JObject (ConfigFile.set_in fields value key rest))
      (key :: rest) default = value.
Proof.
  induction rest as [|next rest IH]; intros fields key value default.
  - cbn. now rewrite lookup_assign_same.
  - cbn [ConfigFile.set_in ConfigFile.get].
    rewrite lookup_assign_same. apply IH.
Qed.

Lemma get_in_empty (path : list string) (key : string)
  (default : ConfigFile.json) :
  ConfigFile.get (ConfigFile.JObject []) (key :: path) default = default.
Proof. reflexivity. Qed.

Lemma get_past_leaf (v : ConfigFile.json) (path : list string)
  (key : string) (default : ConfigFile.json) :
  (forall fields, v <> ConfigFile.JObject fields) ->
  ConfigFile.get v (key :: path) default = default.
Proof.
  intros H. destruct v; try reflexivity. now contradiction (H fields).
Qed.

Lemma get_set_in_branch (common : list string) :
  forall (fields : list (string * ConfigFile.json)) (a b : string)
         (p q : list string) (value default : ConfigFile.json),
    a <> b ->
    match ConfigFile.set (ConfigFile.JObject fields) value
            (common ++ a :: p) with
    | Some config' =>
        ConfigFile.get config' (common ++ b :: q) default =
        ConfigFile.get (ConfigFile.JObject fields) (common ++ b :: q) default
    | None => False
    end.
Proof.
  induction common as [|k common IH]; intros fields a b p q value default Hne.
  - cbn [app ConfigFile.set ConfigFile.get].
    assert (Hl : forall x,
               ConfigFile.lookup (ConfigFile.assign fields a x) b
               = ConfigFile.lookup fields b)
      by (intros x; apply lookup_assign_other; congruence).
    destruct p; cbn [ConfigFile.set_in]; now rewrite Hl.
  - cbn [app ConfigFile.set].
    destruct (common ++ a :: p) as [|next rest] eqn:Epath;
      [now destruct common|].
    cbn [ConfigFile.set_in ConfigFile.get].
    rewrite lookup_assign_same.
    specialize (IH (match ConfigFile.lookup fields k with
                    | Some (ConfigFile.JObject c) => c
                    | _ => []
                    end) a b p q value default Hne).
    rewrite Epath in IH. cbn [ConfigFile.set] in IH. rewrite IH.
    destruct (ConfigFile.lookup fields k) as [v|].
    + destruct v; try reflexivity;
        destruct common; reflexivity.
    + destruct common; reflexivity.
Qed.

(** X12.  [set] followed by [get] with the same keys gives the value that
    was set, whatever the configuration held before: missing sections are
    created and a value in the way that is not a dictionary is replaced.
    [set] fails exactly when it is given no key or when the configuration
    is not a dictionary. *)
Theorem config_get_after_set (config value default : ConfigFile.json)
  (keys : list string) :
  (forall config',
     ConfigFile.set config value keys = Some config' ->
     ConfigFile.get config' keys default = value)
  /\ (ConfigFile.set config value keys = None <->
      keys = [] \/ forall fields, config <> ConfigFile.JObject fields).
Proof.
  split.
  - intros config' Hset.
    destruct keys as [|key rest]; [discriminate|].
    destruct config; try discriminate.
    injection Hset as <-. apply get_set_in.
  - destruct keys as [|key rest]; cbn.
    + split; auto.
    + destruct config; split; intros H; try reflexivity; try discriminate;
        try (right; intros fields0; discriminate).
      destruct H as [H|H]; [discriminate|now contradiction (H fields)].
Qed.

Lemma config_get_after_set_witness :
  exists config',
    ConfigFile.set Scenario.two_sections
      (ConfigFile.JString "http://127.0.0.1:7890") ["biliup_cli"; "proxy"]
    = Some config'
    /\ ConfigFile.get config' ["biliup_cli"; "proxy"] ConfigFile.JNull
       = ConfigFile.JString "http://127.0.0.1:7890".
Proof.
  eexists. split; [reflexivity|].
  apply (proj1 (config_get_after_set Scenario.two_sections
                  (ConfigFile.JString "http://127.0.0.1:7890")
                  ConfigFile.JNull ["biliup_cli"; "proxy"])).
  reflexivity.
Defined.

(** X13.  [set] changes nothing that [get] can see on another branch: for
    two paths of keys that part at some key, setting a value at the first
    leaves the answer of [get] at the second as it was. *)
Theorem config_set_leaves_other_branches (config config' value default
    : ConfigFile.json) (common p q : list string) (a b : string) :
  a <> b ->
  ConfigFile.set config value (common ++ a :: p) = Some config' ->
  ConfigFile.get config' (common ++ b :: q) default =
  ConfigFile.get config (common ++ b :: q) default.
Proof.
  intros Hne Hset.
  destruct config as [| | | | | |fields];
    try (destruct common; discriminate).
  pose proof (get_set_in_branch common fields a b p q value default Hne)
    as H.
  rewrite Hset in H. exact H.
Qed.

Lemma config_set_leaves_other_branches_witness :
  exists config',
    ConfigFile.set Scenario.two_sections
      (ConfigFile.JString "http://127.0.0.1:7890") ["biliup_cli"; "proxy"]
    = Some config'
    /\ ConfigFile.get config' ["upload"; "retry_times"] ConfigFile.JNull
       = ConfigFile.JInt 3.
Proof.
  eexists. split; [reflexivity|].
  rewrite (config_set_leaves_other_branches Scenario.two_sections _
             (ConfigFile.JString "http://127.0.0.1:7890") ConfigFile.JNull
             [] ["proxy"] ["retry_times"] "biliup_cli" "upload");
    [reflexivity|discriminate|reflexivity].
Defined.

(** ** The identifier read in the output of an upload *)

Lemma append_assoc (a b c : string) :
  ((a ++ b) ++ c)%string = (a ++ b ++ c)%string.
Proof. induction a as [|x a IH]; cbn; [reflexivity|now rewrite IH]. Qed.

Lemma strip_prefix_app (p s t : string) :
  BilibiliUploader.strip_prefix p s = Some t -> s = (p ++ t)%string.
Proof.
  revert s. induction p as [|a p IH]; intros s; cbn.
  - now intros [= ->].
  - destruct s as [|b s]; [discriminate|].
    destruct (Ascii.eqb_spec a b) as [->|]; [|discriminate].
    intros H. now rewrite (IH s H).
Qed.

Lemma take_word_split (s : string) :
  exists post,
    s = (BilibiliUploader.take_word s ++ post)%string
    /\ BilibiliUploader.all_word (BilibiliUploader.take_word s) = true
    /\ BilibiliUploader.word_ends post = true.
Proof.
  induction s as [|c s (post & Hs & Hall & Hend)]; cbn.
  - exists "". repeat split.
  - destruct (BilibiliUploader.is_word c) eqn:Hc.
    + exists post. cbn. rewrite Hc, Hall, <- Hs. repeat split. exact Hend.
    + exists (String c s). cbn. rewrite Hc. repeat split.
Qed.

Lemma search_bvid_sound (output b : string) :
  BilibiliUploader.search_bvid output = Some b ->
  exists pre word post,
    output = (pre ++ "bvid:" ++ b ++ post)%string
    /\ b = ("BV" ++ word)%string
    /\ word <> ""
    /\ BilibiliUploader.all_word word = true
    /\ BilibiliUploader.word_ends post = true.
Proof.
  induction output as [|c rest IH]; [discriminate|].
  cbn [BilibiliUploader.search_bvid].
  assert (Hlater : BilibiliUploader.search_bvid rest = Some b ->
                   exists pre word post,
                     String c rest = (pre ++ "bvid:" ++ b ++ post)%string
                     /\ b = ("BV" ++ word)%string
                     /\ word <> ""
                     /\ BilibiliUploader.all_word word = true
                     /\ BilibiliUploader.word_ends post = true).
  { intros H. destruct (IH H) as (pre & word & post & -> & Hrest).
    exists (String c pre), word, post. split; [reflexivity|exact Hrest]. }
  destruct (BilibiliUploader.strip_prefix "bvid:BV" (String c rest))
    as [tail|] eqn:Hstrip; [|exact Hlater].
  destruct (BilibiliUploader.take_word tail) as [|a word] eqn:Hword;
    [exact Hlater|].
  intros [= <-].
  destruct (take_word_split tail) as (post & Htail & Hall & Hend).
  rewrite Hword in Htail, Hall.
  exists "", (String a word), post.
  rewrite (strip_prefix_app _ _ _ Hstrip), Htail.
  repeat split; try assumption. discriminate.
Qed.

Lemma search_bvid_complete (pre rest : string) (c : ascii) :
  BilibiliUploader.is_word c = true ->
  BilibiliUploader.search_bvid (pre ++ "bvid:BV" ++ String c rest)
  <> None.
Proof.
  intros Hc. induction pre as [|a pre IH].
  - cbn. rewrite Hc. discriminate.
  - change ((String a pre ++ "bvid:BV" ++ String c rest)%string)
      with (String a (pre ++ "bvid:BV" ++ String c rest)%string).
    cbn [BilibiliUploader.search_bvid].
    destruct (BilibiliUploader.strip_prefix "bvid:BV" _) as [tail|];
      [|exact IH].
    destruct (BilibiliUploader.take_word tail); [exact IH|discriminate].
Qed.

(** X14.  The identifier that [upload_video] reads in the output is the
    text of an occurrence of [bvid:BV...]: it starts with [BV], goes on with
    at least one word character and stops where the word stops, so it is
    never empty, and a result of [upload_video] is either [None] or a
    non-empty identifier printed by a process that ended with exit code 0.
    An identifier is found as soon as the output holds [bvid:BV] followed
    by a word character. *)
Theorem bvid_read_from_output (output : string) :
  (forall b,
     BilibiliUploader.search_bvid output = Some b ->
     Py.truthy (Some b) = true
     /\ exists pre word post,
          output = (pre ++ "bvid:" ++ b ++ post)%string
          /\ b = ("BV" ++ word)%string
          /\ word <> ""
          /\ BilibiliUploader.all_word word = true
          /\ BilibiliUploader.word_ends post = true)
  /\ (forall exit b,
        BilibiliUploader.bvid_of_exit exit = Some b ->
        Py.truthy (Some b) = true
        /\ exists printed, exit = Some (0, printed))
  /\ (forall pre rest c,
        BilibiliUploader.is_word c = true ->
        output = (pre ++ "bvid:BV" ++ String c rest)%string ->
        BilibiliUploader.search_bvid output <> None).
Proof.
  assert (Htruthy : forall o b,
             BilibiliUploader.search_bvid o = Some b ->
             Py.truthy (Some b) = true).
  { intros o b H.
    destruct (search_bvid_sound o b H) as (_ & word & _ & _ & -> & _).
    reflexivity. }
  split; [|split].
  - intros b H. split; [exact (Htruthy output b H)|].
    now apply search_bvid_sound.
  - intros [[returncode printed]|] b; cbn; [|discriminate].
    destruct (Z.eqb_spec returncode 0) as [->|]; cbn; [|discriminate].
    intros H. split; [exact (Htruthy printed b H)|now exists printed].
  - intros pre rest c Hc ->. now apply search_bvid_complete.
Qed.

Lemma bvid_read_from_output_witness :
  BilibiliUploader.search_bvid "submit ok bvid:BV1xx411c7mD, aid:170001"
  = Some "BV1xx411c7mD"
  /\ Py.truthy (Some "BV1xx411c7mD") = true
  /\ BilibiliUploader.search_bvid "no id here: bvid:BV-" = None.
Proof.
  assert (H : BilibiliUploader.search_bvid
                "submit ok bvid:BV1xx411c7mD, aid:170001"
              = Some "BV1xx411c7mD") by reflexivity.
  destruct (proj1 (bvid_read_from_output
                     "submit ok bvid:BV1xx411c7mD, aid:170001")
              "BV1xx411c7mD" H) as (Ht & _).
  split; [exact H|]. split; [exact Ht|reflexivity].
Defined.

(** ** Covers and part titles *)

(** X15.  A direct upload extracts one cover and then makes one publish
    call, whatever became of the cover: in mode [new] the video is created
    with the cover when the cover file is there and without a cover when it
    is not, and the result is the identifier read in the output; in any
    other mode with a target the file is appended to the target, and the
    result is the target exactly when the process ended with exit code 0. *)
Theorem direct_upload_cover_best_effort (env : Env) (cfg : Config)
  (p : string) (info : UploadController.VideoInfo)
  (streamer mode : string) (target : option string) (copyright : string)
  (w : World) :
  let cover := UploadController.cover_file env cfg p in
  let run :=
    UploadController._upload_normal_video env cfg p info streamer mode
      target copyright w in
  let evs := events_since w (snd run) in
  let found := path_exists env (trace w ++ [EvExtractCover p cover]) cover in
  (mode = "new" ->
   exists exit,
     evs = [EvExtractCover p cover;
            EvUpload p (UploadController.get_upload_title info)
              (if found && Py.truthy (Some cover) then Some cover else None)
              copyright exit]
     /\ fst run = Ok (BilibiliUploader.bvid_of_exit exit))
  /\ (mode <> "new" ->
      forall b,
        target = Some b ->
        exists exit,
          evs = [EvExtractCover p cover;
                 EvAppend p b (UploadController.get_upload_title info) exit]
          /\ fst run =
             Ok (if BilibiliUploader.append_succeeded exit then Some b
                 else None)).
Proof.
  intros cover run evs found. subst found evs run cover.
  unfold UploadController._upload_normal_video.
  split.
  - intros ->. cbn [String.eqb Ascii.eqb Bool.eqb].
    unfold VideoProcessor.extract_cover, UploadController.existing,
      BilibiliUploader.upload_video, bind, get, emit, modify, ret.
    cbn [trace log_event fst snd].
    destruct (path_exists env
                (trace w ++
                 [EvExtractCover p (UploadController.cover_file env cfg p)])
                (UploadController.cover_file env cfg p)) eqn:Hfound;
      cbn [trace log_event fst snd andb]; rewrite ?Hfound;
      unfold events_since; cbn [trace log_event];
      rewrite <- app_assoc, skipn_length_app; cbn [app].
    + rewrite andb_true_r.
      destruct (Py.truthy _); eexists; split; reflexivity.
    + eexists; split; reflexivity.
  - intros Hmode b ->.
    apply String.eqb_neq in Hmode. rewrite Hmode.
    unfold VideoProcessor.extract_cover, BilibiliUploader.append_video,
      bind, get, emit, modify, ret.
    cbn [trace log_event fst snd]. eexists.
    split.
    + destruct (BilibiliUploader.append_succeeded _);
        cbn [snd]; unfold events_since; cbn [trace log_event];
        rewrite <- app_assoc, skipn_length_app; reflexivity.
    + destruct (BilibiliUploader.append_succeeded _); reflexivity.
Qed.

Lemma direct_upload_cover_best_effort_witness :
  let run :=
    UploadController._upload_normal_video Scenario.tight_disk
      Scenario.default_config "/tmp/biliup/downloads/a.flv"
      Scenario.big_info "streamer" "new" None "1" Scenario.fresh in
  events_since Scenario.fresh (snd run) =
  [EvExtractCover "/tmp/biliup/downloads/a.flv" "/tmp/biliup/covers/a.jpg";
   EvUpload "/tmp/biliup/downloads/a.flv" "big" None "1"
     (Some (0, "upload ok bvid:BV1xx411c7mD done"))]
  /\ fst run = Ok (Some "BV1xx411c7mD").
Proof.
  cbv zeta.
  destruct (proj1 (direct_upload_cover_best_effort Scenario.tight_disk
                     Scenario.default_config "/tmp/biliup/downloads/a.flv"
                     Scenario.big_info "streamer" "new" None "1"
                     Scenario.fresh) eq_refl) as (exit & Hevs & Hres).
  split; [reflexivity|].
  rewrite Hres. clear Hres.
  assert (Hexit : exit = Some (0, "upload ok bvid:BV1xx411c7mD done")).
  { vm_compute in Hevs. now injection Hevs as <-. }
  rewrite Hexit. reflexivity.
Defined.

Lemma upload_video_cover (env : Env) (video title : string)
  (cover_path : option string) (copyright : string) (w : World) :
  exists cover,
    (cover = None \/ cover = cover_path)
    /\ BilibiliUploader.upload_video env video title cover_path copyright w =
       (Ok (BilibiliUploader.bvid_of_exit
              (biliup_upload env (trace w) video title cover copyright)),
        log_event
          (EvUpload video title cover copyright
             (biliup_upload env (trace w) video title cover copyright)) w).
Proof.
  destruct cover_path as [c|].
  - exists (if Py.truthy (Some c) && path_exists env (trace w) c
            then Some c else None).
    split; [destruct (_ && _); auto|reflexivity].
  - exists None. split; [now left|reflexivity].
Qed.

Section PartTitles.

Variable env : Env.
Variable cfg : Config.
Variable info : UploadController.VideoInfo.
Variable mode : string.
Variable copyright : string.

Lemma part_event_later (segment : string) (rest : list string) (i : nat)
  (e : Event) :
  (1 <= i)%nat ->
  part_event env cfg info rest (S i) e ->
  part_event env cfg info (segment :: rest) i e.
Proof.
  intros Hi. destruct e; cbn; try tauto.
  - intros (H & _). lia.
  - intros (H & _). lia.
  - intros (k & Hk & ->). exists (S k). split; [exact Hk|].
    now rewrite Nat.add_succ_r.
Qed.

Lemma upload_parts_events (segments : list string) :
  forall (i : nat) (result_bvid : option string) (w : World),
    (1 <= i)%nat ->
    exists r w' evs,
      UploadController.upload_parts env cfg info mode copyright i segments
        result_bvid w = (Ok r, w')
      /\ trace w' = trace w ++ evs
      /\ Forall (part_event env cfg info segments i) evs
      /\ (List.length (filter is_extract_cover evs) <= 1)%nat.
Proof.
  induction segments as [|segment rest IH]; intros i result_bvid w Hi.
  - exists result_bvid, w, []. rewrite app_nil_r.
    repeat split; [constructor|cbn; lia].
  - assert (Hlift : forall evs,
               Forall (part_event env cfg info rest (S i)) evs ->
               Forall (part_event env cfg info (segment :: rest) i) evs).
    { intros evs. apply Forall_impl. intros e.
      now apply part_event_later. }
    assert (Hnocover : forall evs,
               Forall (part_event env cfg info rest (S i)) evs ->
               filter is_extract_cover evs = []).
    { intros evs H. induction H as [|e evs He _ IHe]; [reflexivity|].
      destruct e; cbn in He |- *; try exact IHe.
      destruct He as (He & _). lia. }
    assert (Happend : forall w1,
               exists r w' evs,
                 (success <-
                    BilibiliUploader.append_video env segment result_bvid
                      (UploadController.get_upload_title info ++ " - P"
                       ++ Py.str_nat i)%string ;;
                  if negb success then ret None
                  else UploadController.upload_parts env cfg info mode
                         copyright (S i) rest result_bvid) w1 = (Ok r, w')
                 /\ trace w' = trace w1 ++ evs
                 /\ Forall (part_event env cfg info (segment :: rest) i) evs
                 /\ filter is_extract_cover evs = []).
    { intros w1.
      assert (Hthis : forall b exit,
                 part_event env cfg info (segment :: rest) i
                   (EvAppend segment b
                      (UploadController.get_upload_title info ++ " - P"
                       ++ Py.str_nat i)%string exit)).
      { intros b exit. exists 0%nat. split; [reflexivity|].
        now rewrite Nat.add_0_r. }
      destruct result_bvid as [t|].
      - erewrite bind_ok by apply append_video_run.
        destruct (BilibiliUploader.append_succeeded _); cbn [negb].
        + destruct (IH (S i) (Some t)
                      (log_event
                         (EvAppend segment t
                            (UploadController.get_upload_title info
                             ++ " - P" ++ Py.str_nat i)%string
                            (biliup_append env (trace w1) segment t
                               (UploadController.get_upload_title info
                                ++ " - P" ++ Py.str_nat i)%string)) w1))
            as (r & w' & evs & Hrun & Ht & Hall & _); [lia|].
          eexists r, w', (_ :: evs). split; [exact Hrun|].
          split; [rewrite Ht; cbn [trace log_event];
                  now rewrite <- app_assoc|].
          split; [constructor; [apply Hthis|now apply Hlift]|].
          cbn [filter is_extract_cover]. now apply Hnocover.
        + eexists None, _, [_]. split; [reflexivity|].
          split; [reflexivity|].
          split; [constructor; [apply Hthis|constructor]|reflexivity].
      - exists None, w1, []. rewrite app_nil_r.
        repeat split. constructor. }
    cbn [UploadController.upload_parts].
    destruct (i =? 1)%nat eqn:Hi1; cbn [andb].
    + apply Nat.eqb_eq in Hi1. subst i.
      erewrite bind_ok by apply cover_step_run.
      set (w1 := log_event
                   (EvExtractCover segment
                      (UploadController.cover_file env cfg segment)) w).
      assert (Hcov : part_event env cfg info (segment :: rest) 1
                       (EvExtractCover segment
                          (UploadController.cover_file env cfg segment)))
        by (repeat split).
      destruct (String.eqb mode "new").
      * destruct (existing_run env
                    (UploadController.cover_file env cfg segment) w1)
          as (cv & Hex).
        erewrite bind_ok by exact Hex.
        assert (Hcv : cv = None
                      \/ cv = Some (UploadController.cover_file env cfg
                                      segment)).
        { unfold UploadController.existing, bind, get, ret in Hex.
          destruct (path_exists env (trace w1) _);
            injection Hex as <-; auto. }
        destruct (upload_video_cover env segment
                    (UploadController.get_upload_title info) cv copyright w1)
          as (cover & Hcover & Hpub).
        erewrite bind_ok by exact Hpub.
        set (exit := biliup_upload env (trace w1) segment
                       (UploadController.get_upload_title info) cover
                       copyright).
        assert (Hup : part_event env cfg info (segment :: rest) 1
                        (EvUpload segment
                           (UploadController.get_upload_title info) cover
                           copyright exit)).
        { split; [reflexivity|]. split; [reflexivity|].
          split; [reflexivity|].
          destruct Hcover as [->| ->]; [now left|exact Hcv]. }
        destruct (Py.truthy (BilibiliUploader.bvid_of_exit exit));
          cbn [negb].
        -- destruct (IH 2%nat (BilibiliUploader.bvid_of_exit exit)
                       (log_event
                          (EvUpload segment
                             (UploadController.get_upload_title info) cover
                             copyright exit) w1))
             as (r & w' & evs & Hrun & Ht & Hall & _); [lia|].
           eexists r, w', (_ :: _ :: evs). split; [exact Hrun|].
           split; [rewrite Ht; cbn [trace log_event w1];
                   now rewrite <- !app_assoc|].
           split; [constructor; [exact Hcov|];
                   constructor; [exact Hup|now apply Hlift]|].
           cbn [filter is_extract_cover List.length].
           rewrite (Hnocover evs Hall). cbn. lia.
        -- eexists None, _, [_; _]. split; [reflexivity|].
           split; [cbn [trace log_event w1]; now rewrite <- app_assoc|].
           split; [constructor; [exact Hcov|];
                   constructor; [exact Hup|constructor]|].
           cbn. lia.
      * destruct (Happend w1) as (r & w' & evs & Hrun & Ht & Hall & Hnone).
        eexists r, w', (_ :: evs). split; [exact Hrun|].
        split; [rewrite Ht; cbn [trace log_event w1];
                now rewrite <- app_assoc|].
        split; [constructor; [exact Hcov|exact Hall]|].
        cbn [filter is_extract_cover List.length]. rewrite Hnone. cbn. lia.
    + erewrite bind_ok by reflexivity.
      destruct (Happend w) as (r & w' & evs & Hrun & Ht & Hall & Hnone).
      exists r, w', evs. split; [exact Hrun|]. split; [exact Ht|].
      split; [exact Hall|]. rewrite Hnone. cbn. lia.
Qed.

End PartTitles.

Lemma split_video_tools (env : Env) (cfg : Config)
  (video output_dir : string) (size_gb : float) (w : World) :
  exists segments w1 evs,
    VideoProcessor.split_video env cfg video output_dir size_gb w
    = (Ok segments, w1)
    /\ trace w1 = trace w ++ evs
    /\ forallb is_probe_or_cut evs = true.
Proof.
  unfold VideoProcessor.split_video.
  destruct (VideoProcessor.num_parts cfg size_gb) as [n|].
  2:{ exists [], w, []. rewrite app_nil_r. repeat split. }
  unfold VideoProcessor.get_video_duration.
  unfold bind at 1. unfold bind at 1. unfold get.
  unfold bind at 1. unfold emit, modify, ret.
  destruct (ffprobe_duration env (trace w) video) as [d|].
  2:{ eexists [], _, [_]. repeat split. }
  destruct (Py.float_truthy d); cbn [negb].
  2:{ eexists [], _, [_]. repeat split. }
  destruct (VideoProcessor.part_duration d n) as [length|].
  2:{ eexists [], _, [_]. repeat split. }
  destruct (cut_parts_run env video output_dir length (VideoProcessor.range n)
              [] (log_event (EvProbe video (Some d)) w))
    as (w' & Hrun & _ & Ht).
  eexists _, w', (_ :: _). split; [exact Hrun|].
  split; [rewrite Ht; cbn [trace log_event]; rewrite <- app_assoc;
          reflexivity|].
  cbn [forallb is_probe_or_cut andb]. clear.
  induction (VideoProcessor.range n) as [|i rest IH]; [reflexivity|exact IH].
Qed.

(** X16. A split upload names its parts by their place among the segments
    the cut produced. After the probe and the cuts, every later event is one
    of these: an append of the segment at position [k] (counted from 0)
    under the title of the video followed by [" - P"] and [k + 1]; the
    extraction of a cover from the first segment; the creation of the video
    from the first segment under the bare title, with that cover or with
    none. At most one cover is extracted, whatever the number of segments. *)
Theorem split_upload_part_titles (env : Env) (cfg : Config) (video : string)
  (info : UploadController.VideoInfo) (streamer : string) (size_gb : float)
  (mode : string) (target : option string) (copyright : string) (w : World) :
  exists segments r w' cuts evs,
    fst (VideoProcessor.split_video env cfg video
           (UploadController.split_dir_of env cfg video) size_gb w)
    = Ok segments
    /\ UploadController._upload_split_video env cfg video info streamer
         size_gb mode target copyright w = (Ok r, w')
    /\ events_since w w' = cuts ++ evs
    /\ forallb is_probe_or_cut cuts = true
    /\ Forall (part_event env cfg info segments 1) evs
    /\ (List.length (filter is_extract_cover evs) <= 1)%nat.
Proof.
  destruct (split_video_tools env cfg video
              (UploadController.split_dir_of env cfg video) size_gb w)
    as (segments & w1 & cuts & Hsplit & Ht1 & Hcuts).
  unfold UploadController._upload_split_video.
  erewrite bind_ok by exact Hsplit. rewrite Hsplit. cbn [fst].
  destruct segments as [|segment rest].
  - exists [], None, w1, cuts, []. split; [reflexivity|].
    split; [reflexivity|].
    split; [unfold events_since; rewrite Ht1, skipn_length_app;
            now rewrite app_nil_r|].
    split; [exact Hcuts|]. split; [constructor|cbn; lia].
  - destruct (upload_parts_events env cfg info mode copyright
                (segment :: rest) 1 target w1 (le_n 1))
      as (r & w' & evs & Hrun & Ht & Hall & Hone).
    exists (segment :: rest), r, w', cuts, evs. split; [reflexivity|].
    split; [exact Hrun|].
    split; [unfold events_since;
            rewrite Ht, Ht1, <- app_assoc, skipn_length_app; reflexivity|].
    split; [exact Hcuts|]. split; [exact Hall|exact Hone].
Qed.

(** ** The name of a recording *)

Lemma strip_prefix_same (p s : string) :
  BilibiliUploader.strip_prefix p (p ++ s) = Some s.
Proof.
  induction p as [|a p IH]; cbn; [reflexivity|].
  now rewrite Ascii.eqb_refl.
Qed.

Lemma exactly_digits (ds r : string) :
  VideoInfo.all_digits ds = true ->
  VideoInfo.exactly VideoInfo.Digit (String.length ds) (ds ++ r)
  = Some (ds, r).
Proof.
  induction ds as [|c ds IH]; cbn; [reflexivity|].
  intros H. apply andb_prop in H as [Hc Hds].
  now rewrite Hc, (IH Hds).
Qed.

(** A run of digits that a character outside the class ends is taken whole
    when what follows the group cannot start with a digit. *)
Lemma greedy_digits (after : string -> option (list string))
  (ds : string) (c : ascii) (r : string) :
  (forall d s, VideoInfo.is_digit d = true -> after (String d s) = None) ->
  VideoInfo.is_digit c = false ->
  VideoInfo.all_digits ds = true ->
  ds <> "" ->
  forall taken,
    VideoInfo.greedy VideoInfo.Digit after taken (ds ++ String c r)
    = option_map (cons (taken ++ ds)%string) (after (String c r)).
Proof.
  intros Hafter Hc. induction ds as [|d ds IH]; [congruence|].
  intros Hds _ taken. cbn in Hds. apply andb_prop in Hds as [Hd Hds].
  cbn [append VideoInfo.greedy VideoInfo.in_class]. rewrite Hd.
  destruct ds as [|d' ds].
  - cbn [append VideoInfo.greedy VideoInfo.in_class]. now rewrite Hc.
  - rewrite (IH Hds) by discriminate.
    rewrite append_assoc. cbn [append].
    destruct (after (String c r)) as [groups|]; [reflexivity|].
    cbn [option_map]. cbn in Hds. apply andb_prop in Hds as [Hd' _].
    now rewrite (Hafter d' _ Hd').
Qed.

(** The last group gives back exactly the extension. *)
Lemma greedy_title (t : string) :
  t <> "" ->
  Py.has_char "010" t = false ->
  forall taken,
    VideoInfo.greedy VideoInfo.AnyChar
      (VideoInfo.re_match [VideoInfo.Lit ".flv"; VideoInfo.EndOfString])
      taken (t ++ ".flv")
    = Some [(taken ++ t)%string].
Proof.
  induction t as [|c t IH]; [congruence|].
  intros _ Hnl taken. cbn in Hnl. apply orb_false_elim in Hnl as [Hc Hnl].
  cbn [append VideoInfo.greedy VideoInfo.in_class]. rewrite Hc. cbn [negb].
  destruct t as [|c' t].
  - reflexivity.
  - rewrite (IH ltac:(discriminate) Hnl). now rewrite append_assoc.
Qed.

Lemma re_match_lit (l : string) (rest : list VideoInfo.item) (s : string) :
  VideoInfo.re_match (VideoInfo.Lit l :: rest) (l ++ s)
  = VideoInfo.re_match rest s.
Proof.
  cbn [VideoInfo.re_match]. now rewrite strip_prefix_same.
Qed.

Lemma re_match_exactly (n : nat) (rest : list VideoInfo.item)
  (ds s : string) :
  String.length ds = n ->
  VideoInfo.all_digits ds = true ->
  VideoInfo.re_match (VideoInfo.Exactly VideoInfo.Digit n :: rest) (ds ++ s)
  = option_map (cons ds) (VideoInfo.re_match rest s).
Proof.
  intros <- Hds. cbn [VideoInfo.re_match].
  now rewrite (exactly_digits ds s Hds).
Qed.

Lemma re_match_digits_dash (rest : list VideoInfo.item) (ds s : string) :
  ds <> "" ->
  VideoInfo.all_digits ds = true ->
  VideoInfo.re_match
    (VideoInfo.OneOrMore VideoInfo.Digit :: VideoInfo.Lit "-" :: rest)
    (ds ++ "-" ++ s)
  = option_map (cons ds) (VideoInfo.re_match rest s).
Proof.
  intros Hne Hds.
  change (VideoInfo.re_match
            (VideoInfo.OneOrMore VideoInfo.Digit :: VideoInfo.Lit "-" :: rest))
    with (VideoInfo.greedy VideoInfo.Digit
            (VideoInfo.re_match (VideoInfo.Lit "-" :: rest)) "").
  change ("-" ++ s)%string with (String "-" s).
  rewrite (greedy_digits _ ds "-" s); [| |reflexivity|exact Hds|exact Hne].
  - change (String "-" s) with ("-" ++ s)%string.
    now rewrite re_match_lit.
  - intros d s' Hd.
    cbn [VideoInfo.re_match BilibiliUploader.strip_prefix].
    destruct (Ascii.eqb_spec "-" d) as [<-|]; [discriminate|reflexivity].
Qed.

Lemma re_match_title (t : string) :
  t <> "" ->
  Py.has_char "010" t = false ->
  VideoInfo.re_match
    [VideoInfo.OneOrMore VideoInfo.AnyChar; VideoInfo.Lit ".flv";
     VideoInfo.EndOfString] (t ++ ".flv")
  = Some [t].
Proof.
  intros Hne Hnl.
  change (VideoInfo.re_match
            [VideoInfo.OneOrMore VideoInfo.AnyChar; VideoInfo.Lit ".flv";
             VideoInfo.EndOfString])
    with (VideoInfo.greedy VideoInfo.AnyChar
            (VideoInfo.re_match [VideoInfo.Lit ".flv"; VideoInfo.EndOfString])
            "").
  now rewrite (greedy_title t Hne Hnl).
Qed.

Lemma recording_name_matches (id date time seq title : string) :
  id <> "" -> VideoInfo.all_digits id = true ->
  String.length date = 8%nat -> VideoInfo.all_digits date = true ->
  String.length time = 6%nat -> VideoInfo.all_digits time = true ->
  seq <> "" -> VideoInfo.all_digits seq = true ->
  title <> "" -> Py.has_char "010" title = false ->
  VideoInfo.re_match VideoInfo.FILENAME_PATTERN
    (recording_name id date time seq title)
  = Some [id; date; time; seq; title].
Proof.
  intros Hid Hidd Hdl Hdd Htl Htd Hseq Hseqd Ht Hnl.
  unfold recording_name, VideoInfo.FILENAME_PATTERN.
  rewrite re_match_lit.
  rewrite (re_match_digits_dash _ id _ Hid Hidd).
  rewrite (re_match_exactly 8 _ date _ Hdl Hdd), re_match_lit.
  rewrite (re_match_exactly 6 _ time _ Htl Htd), re_match_lit.
  rewrite (re_match_digits_dash _ seq _ Hseq Hseqd).
  now rewrite (re_match_title title Ht Hnl).
Qed.

(** X17. A file named the way the recorder names it is read back field by
    field: when the last component of the path is
    [录制-{id}-{date}-{time}-{seq}-{title}.flv], with digits for [id] and
    [seq] (at least one each), eight digits for the date, six for the time
    and a title that is not empty and holds no line feed, the five fields of
    the [VideoInfo] are these five strings and the upload title is the
    title, also when the title itself holds dashes, dots or [.flv]. *)
Theorem recording_name_read_back (file_path room : string)
  (id date time seq title : string) :
  VideoInfo.basename file_path = recording_name id date time seq title ->
  id <> "" -> VideoInfo.all_digits id = true ->
  String.length date = 8%nat -> VideoInfo.all_digits date = true ->
  String.length time = 6%nat -> VideoInfo.all_digits time = true ->
  seq <> "" -> VideoInfo.all_digits seq = true ->
  title <> "" -> Py.has_char "010" title = false ->
  let v := VideoInfo.__init__ file_path room in
  VideoInfo.streamer_id v = id
  /\ VideoInfo.date_str v = date
  /\ VideoInfo.time_str v = time
  /\ VideoInfo.sequence v = seq
  /\ VideoInfo.title v = title
  /\ VideoInfo.get_upload_title v = title.
Proof.
  intros Hname Hid Hidd Hdl Hdd Htl Htd Hseq Hseqd Ht Hnl v.
  pose proof (recording_name_matches id date time seq title Hid Hidd Hdl Hdd
                Htl Htd Hseq Hseqd Ht Hnl) as Hmatch.
  subst v. unfold VideoInfo.__init__, VideoInfo._parse_filename,
    VideoInfo.get_upload_title.
  rewrite Hname, Hmatch. cbn. repeat split.
Qed.

Lemma recording_name_read_back_witness :
  let v :=
    VideoInfo.__init__
      "1001-streamer/录制-1001-20250927-063134-003-talk - part 2.flv.flv"
      "1001" in
  VideoInfo.streamer_id v = "1001"
  /\ VideoInfo.date_str v = "20250927"
  /\ VideoInfo.time_str v = "063134"
  /\ VideoInfo.sequence v = "003"
  /\ VideoInfo.title v = "talk - part 2.flv"
  /\ VideoInfo.get_upload_title v = "talk - part 2.flv".
Proof.
  apply (recording_name_read_back
           "1001-streamer/录制-1001-20250927-063134-003-talk - part 2.flv.flv"
           "1001" "1001" "20250927" "063134" "003" "talk - part 2.flv");
    solve [reflexivity | discriminate].
Defined.

Lemma remove_flv_other (c : ascii) (s : string) :
  Ascii.eqb c "." = false ->
  VideoInfo.remove_flv (String c s) = String c (VideoInfo.remove_flv s).
Proof.
  destruct c as [[] [] [] [] [] [] [] []]; intros H;
    solve [reflexivity | discriminate H].
Qed.

Lemma remove_flv_after_stem (stem rest : string) :
  Py.has_char "." stem = false ->
  VideoInfo.remove_flv (stem ++ ".flv" ++ rest)
  = (stem ++ VideoInfo.remove_flv rest)%string.
Proof.
  induction stem as [|c stem IH]; intros H; [reflexivity|].
  cbn in H. apply orb_false_elim in H as [Hc H].
  change ((String c stem ++ ".flv" ++ rest)%string)
    with (String c (stem ++ ".flv" ++ rest)%string).
  rewrite (remove_flv_other _ _ Hc). now rewrite (IH H).
Qed.

(** X18. A file the recorder did not name loses every [.flv], not only its
    extension: when the last component of the path does not begin with
    [录制-], the fields take their defaults ([unknown], two empty strings and
    [0]) and the title is the name with the occurrences of [.flv] removed
    from left to right; after a stem without a dot the first [.flv] goes and
    so do the ones in what follows. *)
Theorem unnamed_file_title (file_path room stem rest : string) :
  VideoInfo.basename file_path = (stem ++ ".flv" ++ rest)%string ->
  BilibiliUploader.strip_prefix "录制-" (VideoInfo.basename file_path) = None ->
  Py.has_char "." stem = false ->
  let v := VideoInfo.__init__ file_path room in
  VideoInfo.streamer_id v = "unknown"
  /\ VideoInfo.date_str v = ""
  /\ VideoInfo.time_str v = ""
  /\ VideoInfo.sequence v = "0"
  /\ VideoInfo.get_upload_title v
     = (stem ++ VideoInfo.remove_flv rest)%string.
Proof.
  intros Hname Hprefix Hstem v.
  assert (Hno : VideoInfo.re_match VideoInfo.FILENAME_PATTERN
                  (VideoInfo.basename file_path) = None).
  { unfold VideoInfo.FILENAME_PATTERN. cbn [VideoInfo.re_match].
    now rewrite Hprefix. }
  subst v. unfold VideoInfo.__init__, VideoInfo._parse_filename,
    VideoInfo.get_upload_title.
  rewrite Hno. cbn [VideoInfo.title VideoInfo.streamer_id
    VideoInfo.date_str VideoInfo.time_str VideoInfo.sequence].
  rewrite Hname, (remove_flv_after_stem stem rest Hstem). repeat split.
Qed.

Lemma unnamed_file_title_witness :
  let v := VideoInfo.__init__ "1001-streamer/my.flv.backup.flv" "1001" in
  VideoInfo.streamer_id v = "unknown"
  /\ VideoInfo.date_str v = ""
  /\ VideoInfo.time_str v = ""
  /\ VideoInfo.sequence v = "0"
  /\ VideoInfo.get_upload_title v = "my.backup".
Proof.
  apply (unnamed_file_title "1001-streamer/my.flv.backup.flv" "1001"
           "my" ".backup.flv"); reflexivity.
Defined.

(** ** The listings of rclone *)

Section Listings.

Import RcloneListing.

Lemma pieces_whole (sep : N -> bool) (s : str) :
  forallb (fun c => negb (sep c)) s = true -> pieces sep s = [s].
Proof.
  induction s as [|c s IH]; [reflexivity|]. cbn.
  intros H. apply andb_prop in H as [Hc Hs].
  apply negb_true_iff in Hc. now rewrite Hc, (IH Hs).
Qed.

Lemma pieces_first (sep : N -> bool) (a : str) (c : N) (b : str) :
  forallb (fun c => negb (sep c)) a = true ->
  sep c = true ->
  pieces sep (a ++ c :: b) = a :: pieces sep b.
Proof.
  intros Ha Hc. induction a as [|x a IH]; cbn.
  - now rewrite Hc.
  - cbn in Ha. apply andb_prop in Ha as [Hx Ha].
    apply negb_true_iff in Hx. now rewrite Hx, (IH Ha).
Qed.

Lemma split_lines_join (ls : list str) :
  ls <> [] ->
  Forall (fun l => forallb (fun c => negb (N.eqb line_feed c)) l = true) ls ->
  split_lines (join [line_feed] ls) = ls.
Proof.
  intros Hne Hall. revert Hne.
  induction Hall as [|l ls Hl Hls IH]; [intros H; now elim H|]. intros _.
  destruct ls as [|l' ls].
  - apply pieces_whole, Hl.
  - change (join [line_feed] (l :: l' :: ls))
      with (l ++ line_feed :: join [line_feed] (l' :: ls)).
    unfold split_lines. rewrite pieces_first; [|exact Hl|reflexivity].
    f_equal. apply IH. discriminate.
Qed.

Lemma lstrip_gap (g s : str) : all_space g -> lstrip (g ++ s) = lstrip s.
Proof.
  induction g as [|c g IH]; [reflexivity|]. cbn. intros H.
  apply andb_prop in H as [Hc Hg]. now rewrite Hc, (IH Hg).
Qed.

Lemma lstrip_all_space (g : str) : all_space g -> lstrip g = [].
Proof.
  intros H. rewrite <- (app_nil_r g). now rewrite lstrip_gap.
Qed.

Lemma rstrip_all_space (g : str) : all_space g -> rstrip g = [].
Proof.
  induction g as [|c g IH]; [reflexivity|]. cbn. intros H.
  apply andb_prop in H as [Hc Hg]. now rewrite (IH Hg), Hc.
Qed.

(** What [rstrip] leaves of a text that ends well is the text. *)
Lemma rstrip_kept (a b : str) :
  b <> [] -> rstrip b = b -> rstrip (a ++ b) = a ++ b.
Proof.
  intros Hne Hb. induction a as [|c a IH]; [exact Hb|].
  cbn [app rstrip]. rewrite IH.
  destruct (a ++ b) eqn:E; [|reflexivity].
  apply app_eq_nil in E as [_ ->]. congruence.
Qed.

Lemma rstrip_trailer (s t : str) :
  s <> [] -> rstrip s = s -> all_space t -> rstrip (s ++ t) = s.
Proof.
  intros Hne Hs Ht. revert Hne Hs. induction s as [|c s IH]; [congruence|].
  intros _ Hs. cbn [app rstrip] in Hs |- *.
  destruct s as [|c' s].
  - cbn [app]. rewrite (rstrip_all_space t Ht).
    cbn in Hs. exact Hs.
  - assert (Hs' : rstrip (c' :: s) = c' :: s).
    { destruct (rstrip (c' :: s)) eqn:E.
      - destruct (isspace c); discriminate Hs.
      - congruence. }
    rewrite (IH ltac:(discriminate) Hs'). reflexivity.
Qed.

Lemma rstrip_no_space (w : str) : no_space w -> rstrip w = w.
Proof.
  induction w as [|c w IH]; [reflexivity|]. cbn. intros H.
  apply andb_prop in H as [Hc Hw]. apply negb_true_iff in Hc.
  rewrite (IH Hw). destruct w; [now rewrite Hc|reflexivity].
Qed.

Lemma is_word_inv (w : str) :
  is_word w = true -> w <> [] /\ no_space w.
Proof.
  unfold is_word. intros H. apply andb_prop in H as [Hne Hw].
  split; [now destruct w|exact Hw].
Qed.

Lemma is_gap_inv (g : str) :
  is_gap g = true ->
  all_space g
  /\ forallb (fun c => negb (N.eqb line_feed c)) g = true.
Proof.
  unfold is_gap, all_space. induction g as [|c g IH]; [now split|].
  cbn [forallb]. intros H. apply andb_prop in H as [Hc Hg].
  apply andb_prop in Hc as [Hc1 Hc2]. destruct (IH Hg) as [H1 H2].
  rewrite Hc1, H1, H2, (N.eqb_sym line_feed c), Hc2. now split.
Qed.

Lemma no_space_no_line_feed (w : str) :
  no_space w -> forallb (fun c => negb (N.eqb line_feed c)) w = true.
Proof.
  unfold no_space. induction w as [|c w IH]; [reflexivity|].
  cbn [forallb].
  intros H. apply andb_prop in H as [Hc Hw]. rewrite (IH Hw), andb_true_r.
  destruct (N.eqb_spec line_feed c) as [<-|]; [discriminate Hc|reflexivity].
Qed.

Lemma forallb_app_true {A : Type} (f : A -> bool) (a b : list A) :
  forallb f a = true -> forallb f b = true -> forallb f (a ++ b) = true.
Proof. intros Ha Hb. rewrite forallb_app, Ha, Hb. reflexivity. Qed.

(** A line that is well laid out: it stays on its line, and its words are
    its fields. *)
Lemma laid_out_line (cells : list (str * str)) :
  forall first,
    well_laid first cells = true ->
    forallb (fun c => negb (N.eqb line_feed c)) (laid_out cells) = true
    /\ split (laid_out cells) = map snd cells
    /\ (cells <> [] ->
        laid_out cells <> [] /\ rstrip (laid_out cells) = laid_out cells)
    /\ (first = false ->
        cells <> [] -> exists c s, laid_out cells = c :: s /\ isspace c = true).
Proof.
  induction cells as [|[g f] rest IH]; intros first H.
  - repeat split; congruence.
  - cbn [well_laid] in H.
    apply andb_prop in H as [H Hrest]. apply andb_prop in H as [H Hf].
    apply andb_prop in H as [Hg Hfirst].
    destruct (is_gap_inv g Hg) as [Hgs Hgl].
    destruct (is_word_inv f Hf) as [Hfne Hfw].
    destruct (IH false Hrest) as (Hl & Hsplit & Hend & Hstart).
    cbn [laid_out map snd].
    assert (Hline : forall s, split (g ++ f ++ s) = split (f ++ s)).
    { intros s. clear -Hgs. induction g as [|c g IHg]; [reflexivity|].
      cbn in Hgs. apply andb_prop in Hgs as [Hc Hgs].
      unfold split in *. cbn [app pieces]. rewrite Hc. cbn [filter nonempty].
      now apply IHg. }
    assert (Hword : split (f ++ laid_out rest) = f :: split (laid_out rest)).
    { assert (Hfw' : forallb (fun c => negb (isspace c)) f = true)
        by exact Hfw.
      destruct rest as [|cell rest].
      - cbn [laid_out]. rewrite app_nil_r. unfold split.
        rewrite (pieces_whole _ _ Hfw'). cbn.
        destruct f; [congruence|reflexivity].
      - destruct (Hstart eq_refl ltac:(discriminate)) as (c & s & -> & Hc).
        unfold split. rewrite (pieces_first _ _ _ _ Hfw' Hc).
        cbn [pieces]. rewrite Hc. cbn [filter nonempty].
        destruct f; [congruence|reflexivity]. }
    split; [|split; [|split]].
    + apply forallb_app_true; [exact Hgl|].
      apply forallb_app_true; [|exact Hl].
      now apply no_space_no_line_feed.
    + rewrite Hline, Hword, Hsplit. reflexivity.
    + intros _.
      assert (Htail : f ++ laid_out rest <> []
                      /\ rstrip (f ++ laid_out rest) = f ++ laid_out rest).
      { split; [destruct f; [congruence|discriminate]|].
        destruct rest as [|cell rest].
        - cbn [laid_out]. rewrite app_nil_r. now apply rstrip_no_space.
        - destruct (Hend ltac:(discriminate)) as [Hne Hr].
          now apply rstrip_kept. }
      destruct Htail as [Hne Hr].
      split; [|now apply rstrip_kept].
      intros E. apply app_eq_nil in E as [_ E]. congruence.
    + intros ->. intros _. cbn [orb] in Hfirst.
      destruct g as [|c g]; [discriminate Hfirst|].
      cbn in Hgs. apply andb_prop in Hgs as [Hc _].
      now exists c, (g ++ f ++ laid_out rest).
Qed.

Lemma join_first (g x : str) (rest : list str) :
  join [line_feed] ((g ++ x) :: rest) = g ++ join [line_feed] (x :: rest).
Proof.
  destruct rest; cbn [join]; [reflexivity|]. now rewrite <- app_assoc.
Qed.

Lemma rstrip_join (ls : list str) :
  ls <> [] ->
  Forall (fun l => l <> [] /\ rstrip l = l) ls ->
  join [line_feed] ls <> []
  /\ rstrip (join [line_feed] ls) = join [line_feed] ls.
Proof.
  intros Hne Hall. revert Hne.
  induction Hall as [|l ls [Hl Hr] Hls IH]; [intros H; now elim H|]. intros _.
  destruct ls as [|l' ls]; [now split|].
  change (join [line_feed] (l :: l' :: ls))
    with (l ++ [line_feed] ++ join [line_feed] (l' :: ls)).
  destruct (IH ltac:(discriminate)) as [Hne' Hr'].
  split.
  - intros E. apply app_eq_nil in E as [E _]. congruence.
  - apply rstrip_kept; [discriminate|].
    change ([line_feed] ++ join [line_feed] (l' :: ls))
      with ([line_feed] ++ join [line_feed] (l' :: ls)).
    now apply (rstrip_kept [line_feed]).
Qed.

Lemma first_gap_dropped (g f : str) (cs : list (str * str)) :
  well_laid true ((g, f) :: cs) = true ->
  well_laid true (([], f) :: cs) = true
  /\ all_space g
  /\ laid_out ((g, f) :: cs) = g ++ laid_out (([], f) :: cs)
  /\ exists c s, laid_out (([], f) :: cs) = c :: s /\ isspace c = false.
Proof.
  cbn [well_laid orb andb]. intros H.
  apply andb_prop in H as [H Hrest]. apply andb_prop in H as [H Hf].
  apply andb_prop in H as [Hg _].
  destruct (is_gap_inv g Hg) as [Hgs _].
  destruct (is_word_inv f Hf) as [Hfne Hfw].
  split; [cbn [is_gap forallb andb]; now rewrite Hf, Hrest|].
  split; [exact Hgs|]. split; [reflexivity|].
  destruct f as [|c f]; [congruence|].
  exists c, (f ++ laid_out cs). split; [reflexivity|].
  cbn in Hfw. apply andb_prop in Hfw as [Hc _].
  now apply negb_true_iff in Hc.
Qed.

Lemma strip_laid_out (g f : str) (cs : list (str * str)) :
  well_laid true ((g, f) :: cs) = true ->
  strip (laid_out ((g, f) :: cs)) = laid_out (([], f) :: cs).
Proof.
  intros H.
  destruct (first_gap_dropped g f cs H)
    as (H' & Hg & -> & c & s & Hcs & Hc).
  destruct (laid_out_line _ true H') as (_ & _ & Hend & _).
  destruct (Hend ltac:(discriminate)) as [_ Hr].
  unfold strip. rewrite (lstrip_gap _ _ Hg).
  rewrite Hcs in Hr |- *. cbn [lstrip]. rewrite Hc. exact Hr.
Qed.

(** What the loop of [list_folders] adds for one line. *)
Lemma folder_of_line (cells : list (str * str)) :
  cells <> [] ->
  well_laid true cells = true ->
  (if nonempty (strip (laid_out cells)) then
     if (4 <=? List.length (split (laid_out cells)))%nat
     then [join [space] (skipn 4 (split (laid_out cells)))]
     else []
   else [])
  = if (4 <=? List.length cells)%nat
    then [join [space] (skipn 4 (map snd cells))]
    else [].
Proof.
  intros Hne H. destruct cells as [|[g f] cs]; [congruence|].
  rewrite (strip_laid_out g f cs H).
  destruct (first_gap_dropped g f cs H) as (_ & _ & _ & c & s & -> & _).
  cbn [nonempty].
  destruct (laid_out_line _ true H) as (_ & -> & _).
  now rewrite length_map.
Qed.

End Listings.

(** X19. [list_folders] reads a folder name as the words after the first
    four of its line, put together with single spaces.  For a listing whose
    lines are words after gaps of white space (only the first gap of a line
    may be empty), followed by any white space, each line of four words or
    more gives one folder, lines of fewer give none, and the order is that
    of the listing.  So a name keeps its words but not its spacing (a run of
    blanks, a tab or an ideographic space comes out as one space), and a
    line of exactly four words gives a folder with the empty name. *)
Theorem list_folders_rejoins_words
  (lines : list (list (RcloneListing.str * RcloneListing.str)))
  (trailer : RcloneListing.str) :
  Forall (fun cells => cells <> [] /\ well_laid true cells = true) lines ->
  all_space trailer ->
  RcloneListing.list_folders
    (Some (RcloneListing.join [RcloneListing.line_feed] (map laid_out lines)
           ++ trailer))
  = flat_map
      (fun cells =>
         if (4 <=? List.length cells)%nat
         then [RcloneListing.join [RcloneListing.space]
                 (skipn 4 (map snd cells))]
         else [])
      lines.
Proof.
  intros Hlines Htrailer. unfold RcloneListing.list_folders.
  destruct lines as [|cells0 others].
  - cbn [map RcloneListing.join app flat_map]. unfold RcloneListing.strip.
    now rewrite (lstrip_all_space trailer Htrailer).
  - pose proof (Forall_inv Hlines) as [Hne0 H0].
    pose proof (Forall_inv_tail Hlines) as Hothers.
    destruct cells0 as [|[g f] cs]; [congruence|].
    destruct (first_gap_dropped g f cs H0)
      as (H0' & Hg & Hlay & c & s & Hcs & Hc).
    set (lines' := (([], f) :: cs) :: others).
    assert (Hlines' : Forall (fun cells => cells <> []
                                           /\ well_laid true cells = true)
                        lines')
      by (constructor; [split; [discriminate|exact H0']|exact Hothers]).
    assert (Hstrip :
              RcloneListing.strip
                (RcloneListing.join [RcloneListing.line_feed]
                   (map laid_out (((g, f) :: cs) :: others)) ++ trailer)
              = RcloneListing.join [RcloneListing.line_feed]
                  (map laid_out lines')).
    { cbn [map]. rewrite Hlay, join_first, <- app_assoc.
      unfold RcloneListing.strip. rewrite (lstrip_gap _ _ Hg).
      assert (Hends : Forall (fun l => l <> [] /\ RcloneListing.rstrip l = l)
                        (map laid_out lines')).
      { apply Forall_map. revert Hlines'. apply Forall_impl.
        intros cells [Hne H].
        destruct (laid_out_line _ true H) as (_ & _ & Hend & _).
        now apply Hend. }
      destruct (rstrip_join (map laid_out lines') ltac:(discriminate) Hends)
        as [Hjne Hjr].
      change (laid_out (([], f) :: cs) :: map laid_out others)
        with (map laid_out lines') in *.
      assert (Hl : RcloneListing.lstrip
                     (RcloneListing.join [RcloneListing.line_feed]
                        (map laid_out lines') ++ trailer)
                   = RcloneListing.join [RcloneListing.line_feed]
                       (map laid_out lines') ++ trailer).
      { unfold lines'. cbn [map]. rewrite Hcs.
        change (c :: s) with ([c] ++ s). rewrite join_first.
        cbn [app RcloneListing.lstrip]. now rewrite Hc. }
      rewrite Hl. now apply rstrip_trailer. }
    rewrite Hstrip.
    rewrite split_lines_join; [|discriminate|].
    2:{ apply Forall_map. revert Hlines'. apply Forall_impl.
        intros cells [_ H].
        now destruct (laid_out_line _ true H) as (Hl & _). }
    rewrite flat_map_concat_map, map_map, <- flat_map_concat_map.
    transitivity
      (flat_map
         (fun cells =>
            if (4 <=? List.length cells)%nat
            then [RcloneListing.join [RcloneListing.space]
                    (skipn 4 (map snd cells))]
            else [])
         lines').
    + clear -Hlines'. induction Hlines' as [|cells rest [Hne H] _ IH];
        [reflexivity|].
      cbn [flat_map]. rewrite IH. f_equal.
      now apply folder_of_line.
    + reflexivity.
Qed.

Lemma list_folders_rejoins_words_witness :
  RcloneListing.list_folders
    (Some (text "          -1 2025-09-27 06:31:34        -1 1001-streamer"
           ++ [RcloneListing.line_feed]
           ++ text "          -1 2025-09-27 06:31:34        -1 my   old"
           ++ [9%N] ++ text "backup"
           ++ [RcloneListing.line_feed]
           ++ text "          -1 2025-09-27 06:31:34        -1"
           ++ [RcloneListing.line_feed]
           ++ text "total 3"
           ++ [RcloneListing.line_feed]))
  = [text "1001-streamer"; text "my old backup"; []].
Proof.
  apply (list_folders_rejoins_words
           [[(text "          ", text "-1"); (text " ", text "2025-09-27");
             (text " ", text "06:31:34"); (text "        ", text "-1");
             (text " ", text "1001-streamer")];
            [(text "          ", text "-1"); (text " ", text "2025-09-27");
             (text " ", text "06:31:34"); (text "        ", text "-1");
             (text " ", text "my"); (text "   ", text "old");
             ([9%N], text "backup")];
            [(text "          ", text "-1"); (text " ", text "2025-09-27");
             (text " ", text "06:31:34"); (text "        ", text "-1")];
            [([], text "total"); (text " ", text "3")]]
           [RcloneListing.line_feed]).
  - repeat constructor; discriminate.
  - reflexivity.
Defined.

Section VideoListing.

Import RcloneListing.

Lemma forallb_pointwise {A : Type} (f g : A -> bool) (l : list A) :
  (forall x, f x = g x) -> forallb f l = forallb g l.
Proof.
  intros H. induction l as [|x l IH]; cbn; [reflexivity|].
  now rewrite H, IH.
Qed.

Lemma str_le_total (a : str) : forall b, str_le a b = false -> str_le b a = true.
Proof.
  induction a as [|x a IH]; intros [|y b]; cbn; try congruence.
  intros H. apply orb_false_elim in H as [Hlt H].
  apply N.ltb_ge in Hlt.
  destruct (N.eqb_spec x y) as [->|Hxy].
  - cbn in H. rewrite N.eqb_refl, (IH b H). apply orb_true_r.
  - assert (Hyx : (y <? x)%N = true) by (apply N.ltb_lt; lia).
    now rewrite Hyx.
Qed.

Lemma str_le_trans (a : str) :
  forall b c, str_le a b = true -> str_le b c = true -> str_le a c = true.
Proof.
  induction a as [|x a IH]; intros [|y b] [|z c]; cbn; try congruence.
  intros Hab Hbc.
  apply orb_prop in Hab as [Hab|Hab]; apply orb_prop in Hbc as [Hbc|Hbc].
  - apply N.ltb_lt in Hab, Hbc.
    assert (H : (x <? z)%N = true) by (apply N.ltb_lt; lia). now rewrite H.
  - apply andb_prop in Hbc as [Hyz _]. apply N.eqb_eq in Hyz. subst z.
    now rewrite Hab.
  - apply andb_prop in Hab as [Hxy _]. apply N.eqb_eq in Hxy. subst y.
    now rewrite Hbc.
  - apply andb_prop in Hab as [Hxy Hab]. apply andb_prop in Hbc as [Hyz Hbc].
    apply N.eqb_eq in Hxy, Hyz. subst y z.
    rewrite N.eqb_refl, (IH b c Hab Hbc). apply orb_true_r.
Qed.

Lemma insert_sorted_perm (x : str) (l : list str) :
  Permutation (x :: l) (insert_sorted x l).
Proof.
  induction l as [|y l IH]; cbn; [reflexivity|].
  destruct (str_le x y); [reflexivity|].
  rewrite perm_swap. now constructor.
Qed.

Lemma sorted_perm (l : list str) : Permutation l (sorted l).
Proof.
  induction l as [|x l IH]; cbn; [constructor|].
  rewrite <- insert_sorted_perm. now constructor.
Qed.

Lemma insert_sorted_in_order (x : str) (l : list str) :
  StronglySorted in_order l -> StronglySorted in_order (insert_sorted x l).
Proof.
  induction l as [|y l IH]; intros Hl; cbn.
  - repeat constructor.
  - destruct (str_le x y) eqn:Hxy.
    + constructor; [exact Hl|]. constructor; [exact Hxy|].
      apply StronglySorted_inv in Hl as [_ Hy].
      revert Hy. apply Forall_impl. intros z. now apply str_le_trans.
    + apply StronglySorted_inv in Hl as [Hl Hy].
      constructor; [now apply IH|].
      apply (Permutation_Forall (insert_sorted_perm x l)).
      constructor; [now apply str_le_total|exact Hy].
Qed.

Lemma sorted_in_order (l : list str) : StronglySorted in_order (sorted l).
Proof.
  induction l as [|x l IH]; cbn; [constructor|].
  now apply insert_sorted_in_order.
Qed.

Lemma pieces_on_one_line (s : str) :
  Forall (fun l => forallb (fun c => negb (N.eqb line_feed c)) l = true)
    (pieces (N.eqb line_feed) s).
Proof.
  induction s as [|c s IH]; cbn [pieces]; [repeat constructor|].
  destruct (N.eqb line_feed c) eqn:Hc; [now constructor|].
  destruct (pieces (N.eqb line_feed) s) as [|piece others].
  - repeat constructor. cbn [forallb]. now rewrite Hc.
  - apply Forall_cons_iff in IH as [Hp Ho].
    constructor; [|exact Ho]. cbn [forallb]. now rewrite Hc, Hp.
Qed.

Lemma lstrip_forallb (p : N -> bool) (s : str) :
  forallb p s = true -> forallb p (lstrip s) = true.
Proof.
  induction s as [|c s IH]; [reflexivity|]. intros H. cbn [lstrip].
  destruct (isspace c); [|exact H].
  cbn in H. apply andb_prop in H as [_ H]. now apply IH.
Qed.

Lemma rstrip_forallb (p : N -> bool) (s : str) :
  forallb p s = true -> forallb p (rstrip s) = true.
Proof.
  induction s as [|c s IH]; [reflexivity|]. intros H. cbn [rstrip].
  cbn in H. apply andb_prop in H as [Hc H]. specialize (IH H).
  destruct (rstrip s).
  - destruct (isspace c); [reflexivity|]. cbn. now rewrite Hc.
  - cbn [forallb] in IH |- *. now rewrite Hc, IH.
Qed.

Lemma lstrip_first (s : str) (c : N) (r : str) :
  lstrip s = c :: r -> isspace c = false.
Proof.
  induction s as [|x s IH]; cbn; [discriminate|].
  destruct (isspace x) eqn:Hx; [exact IH|]. now intros [= <- _].
Qed.

Lemma rstrip_first (c : N) (s : str) :
  rstrip (c :: s) <> [] -> exists r, rstrip (c :: s) = c :: r.
Proof.
  cbn. destruct (rstrip s).
  - destruct (isspace c); [congruence|]. now exists [].
  - intros _. now eexists.
Qed.

Lemma rstrip_last (s : str) :
  rstrip s <> [] -> isspace (last (rstrip s) space) = false.
Proof.
  induction s as [|c s IH]; cbn [rstrip]; [congruence|].
  destruct (rstrip s) as [|k ks].
  - destruct (isspace c) eqn:Hc; [congruence|]. intros _. exact Hc.
  - intros _. change (last (c :: k :: ks) space) with (last (k :: ks) space).
    apply IH. discriminate.
Qed.

Lemma rstrip_ends_well (s : str) :
  s <> [] -> isspace (last s space) = false -> rstrip s = s.
Proof.
  induction s as [|c s IH]; [congruence|]. intros _ Hlast.
  cbn [rstrip]. destruct s as [|c' s].
  - cbn in Hlast |- *. now rewrite Hlast.
  - rewrite IH; [reflexivity|discriminate|exact Hlast].
Qed.

(** What [strip] leaves, when it leaves something, is a name. *)
Lemma strip_is_name (l : str) :
  forallb (fun c => negb (N.eqb line_feed c)) l = true ->
  nonempty (strip l) = true ->
  is_name (strip l) = true.
Proof.
  intros Hl Hne. unfold is_name. rewrite Hne. cbn [andb].
  assert (Hlf : forallb (fun c => negb (c =? line_feed)%N) (strip l) = true).
  { unfold strip. apply rstrip_forallb, lstrip_forallb.
    rewrite (forallb_pointwise _ (fun c => negb (N.eqb line_feed c)));
      [exact Hl|].
    intros c. now rewrite N.eqb_sym. }
  rewrite Hlf. cbn [andb].
  assert (Hsne : strip l <> []) by (destruct (strip l); [discriminate|congruence]).
  unfold strip in *.
  rewrite (rstrip_last (lstrip l) Hsne). cbn [negb]. rewrite andb_true_r.
  destruct (lstrip l) as [|c r] eqn:E; [now elim Hsne|].
  destruct (rstrip_first c r Hsne) as [r' ->].
  now rewrite (lstrip_first l c r E).
Qed.

Lemma is_name_inv (n : str) :
  is_name n = true ->
  n <> []
  /\ forallb (fun c => negb (N.eqb line_feed c)) n = true
  /\ lstrip n = n /\ rstrip n = n.
Proof.
  unfold is_name. intros H.
  apply andb_prop in H as [H Hlast]. apply andb_prop in H as [H Hfirst].
  apply andb_prop in H as [Hne Hlf].
  apply negb_true_iff in Hlast.
  destruct n as [|c n]; [discriminate|].
  split; [discriminate|].
  split; [rewrite (forallb_pointwise _ (fun x => negb (x =? line_feed)%N));
          [exact Hlf|intros x; now rewrite N.eqb_sym]|].
  apply negb_true_iff in Hfirst.
  split; [cbn [lstrip]; now rewrite Hfirst|].
  now apply rstrip_ends_well.
Qed.

End VideoListing.

(** X20. Whatever [rclone lsf] printed, the names [list_videos] returns are
    names: none is empty, none holds a line feed, none begins or ends with
    white space; and they come in increasing order, compared code point by
    code point with a prefix before its extensions. *)
Theorem list_videos_names_in_order (result : option RcloneListing.str) :
  Forall (fun n => is_name n = true) (RcloneListing.list_videos result)
  /\ StronglySorted in_order (RcloneListing.list_videos result).
Proof.
  destruct result as [stdout|]; [|split; constructor].
  unfold RcloneListing.list_videos.
  split; [|apply sorted_in_order].
  apply (Permutation_Forall (sorted_perm _)).
  apply Forall_map.
  pose proof (pieces_on_one_line (RcloneListing.strip stdout)) as Hlines.
  unfold RcloneListing.split_lines.
  induction Hlines as [|l ls Hl _ IH]; [constructor|].
  cbn [filter].
  destruct (RcloneListing.nonempty (RcloneListing.strip l)) eqn:Hne;
    [|exact IH].
  constructor; [now apply strip_is_name|exact IH].
Qed.

(** X21. [list_videos] loses no name and invents none: when each line of
    the listing is a name (not empty, no white space at either end; white
    space inside is kept as it is) and the listing ends with any white
    space, the result is a rearrangement of the names of the listing, the
    repeated ones as often as they are listed. *)
Theorem list_videos_keeps_names (names : list RcloneListing.str)
  (trailer : RcloneListing.str) :
  Forall (fun n => is_name n = true) names ->
  all_space trailer ->
  Permutation names
    (RcloneListing.list_videos
       (Some (RcloneListing.join [RcloneListing.line_feed] names
              ++ trailer))).
Proof.
  intros Hnames Htrailer. unfold RcloneListing.list_videos.
  rewrite <- sorted_perm.
  assert (Hkept : forall ls,
             Forall (fun n => is_name n = true) ls ->
             map RcloneListing.strip
               (filter (fun line =>
                          RcloneListing.nonempty (RcloneListing.strip line))
                  ls) = ls).
  { intros ls H. induction H as [|n ls Hn _ IH]; [reflexivity|].
    destruct (is_name_inv n Hn) as (Hne & _ & Hl & Hr).
    assert (Hs : RcloneListing.strip n = n)
      by (unfold RcloneListing.strip; now rewrite Hl, Hr).
    cbn [filter]. rewrite Hs.
    destruct n as [|c n]; [congruence|]. cbn [RcloneListing.nonempty map].
    now rewrite Hs, IH. }
  destruct names as [|n0 names].
  - cbn [RcloneListing.join app]. unfold RcloneListing.strip.
    rewrite (lstrip_all_space trailer Htrailer). reflexivity.
  - assert (Hstrip :
              RcloneListing.strip
                (RcloneListing.join [RcloneListing.line_feed] (n0 :: names)
                 ++ trailer)
              = RcloneListing.join [RcloneListing.line_feed] (n0 :: names)).
    { assert (Hends : Forall (fun l => l <> []
                                       /\ RcloneListing.rstrip l = l)
                        (n0 :: names)).
      { revert Hnames. apply Forall_impl. intros n Hn.
        now destruct (is_name_inv n Hn) as (Hne & _ & _ & Hr). }
      destruct (rstrip_join (n0 :: names) ltac:(discriminate) Hends)
        as [Hjne Hjr].
      destruct (is_name_inv n0 (Forall_inv Hnames)) as (Hne0 & _ & Hl0 & _).
      destruct n0 as [|c n0]; [congruence|].
      assert (Hc : RcloneListing.isspace c = false).
      { cbn [RcloneListing.lstrip] in Hl0.
        destruct (RcloneListing.isspace c) eqn:Hc; [|reflexivity].
        exfalso.
        assert (Hlen : (List.length (RcloneListing.lstrip n0)
                        <= List.length n0)%nat).
        { clear. induction n0 as [|x n0 IH]; cbn; [lia|].
          destruct (RcloneListing.isspace x); cbn; lia. }
        rewrite Hl0 in Hlen. cbn in Hlen. lia. }
      unfold RcloneListing.strip.
      assert (Hl : RcloneListing.lstrip
                     (RcloneListing.join [RcloneListing.line_feed]
                        ((c :: n0) :: names) ++ trailer)
                   = RcloneListing.join [RcloneListing.line_feed]
                       ((c :: n0) :: names) ++ trailer).
      { change (c :: n0) with ([c] ++ n0). rewrite join_first.
        cbn [app RcloneListing.lstrip]. now rewrite Hc. }
      etransitivity; [apply f_equal; exact Hl|]. now apply rstrip_trailer. }
    rewrite Hstrip, split_lines_join; [|discriminate|].
    + now rewrite Hkept.
    + revert Hnames. apply Forall_impl. intros n Hn.
      now destruct (is_name_inv n Hn) as (_ & Hlf & _).
Qed.

Lemma list_videos_keeps_names_witness :
  Permutation
    [text "b 2.flv"; text "a.flv"; text "b 2.flv"]
    (RcloneListing.list_videos
       (Some (text "b 2.flv" ++ [RcloneListing.line_feed] ++ text "a.flv"
              ++ [RcloneListing.line_feed] ++ text "b 2.flv"
              ++ [RcloneListing.line_feed]))).
Proof.
  apply (list_videos_keeps_names
           [text "b 2.flv"; text "a.flv"; text "b 2.flv"]
           [RcloneListing.line_feed]).
  - repeat constructor.
  - reflexivity.
Defined.
